(** * The Essence file system driver (grub-core/fs/esfs.c)

    A shallow embedding of the read-only ESFS driver: attribute lookup in a
    1024-byte directory entry, the file reader (embedded data and extent
    lists), the superblock check done at mount time and the directory
    iterator.

    Conventions.
    - C unsigned integers are [Z] with the wrap-around written out ([u32],
      [u64]).  The target is little-endian with a 64-bit [grub_size_t] and
      [grub_off_t] (x86_64).
    - A pointer into the directory entry is the byte offset from its start.
    - [grub_errno], the error message, the read-hook slot of the disk and the
      log of device activity form the mutable [world] that is passed along.
*)

From Stdlib Require Import ZArith List Lia Bool String.
From Stdlib Require Import Strings.Byte.
Import ListNotations.
Local Open Scope string_scope.
Local Open Scope list_scope.
Local Open Scope Z_scope.

(** ** Machine integers and bytes *)

Definition u8 (b : byte) : Z := Z.of_N (Byte.to_N b).

Definition byte_of_Z (z : Z) : byte :=
  match Byte.of_N (Z.to_N (z mod 256)) with
  | Some b => b
  | None => x00
  end.

Definition u32 (z : Z) : Z := z mod 2 ^ 32.
Definition u64 (z : Z) : Z := z mod 2 ^ 64.

(** Byte [i] of a buffer (a [grub_uint8_t] array indexed from its start). *)
Definition byte_at (buf : list byte) (i : Z) : Z :=
  u8 (nth (Z.to_nat i) buf x00).

(** [grub_le_to_cpu16/32/64] applied to the field stored at offset [i]. *)
Definition le16 (buf : list byte) (i : Z) : Z :=
  byte_at buf i + 2 ^ 8 * byte_at buf (i + 1).

Definition le32 (buf : list byte) (i : Z) : Z :=
  le16 buf i + 2 ^ 16 * le16 buf (i + 2).

Definition le64 (buf : list byte) (i : Z) : Z :=
  le32 buf i + 2 ^ 32 * le32 buf (i + 4).

Definition bytes_of_string (s : string) : list byte := list_byte_of_string s.

(** [grub_memcmp (a, b, n)]: difference of the first pair of bytes that
    differ among the first [n], 0 when there is none. *)
Fixpoint grub_memcmp (a b : list byte) (n : nat) : Z :=
  match n with
  | O => 0
  | S n' =>
      let x := u8 (hd x00 a) in
      let y := u8 (hd x00 b) in
      if x =? y then grub_memcmp (tl a) (tl b) n' else x - y
  end.

(** ** Constants of the on-disk format *)

Definition ESFS_SIGNATURE_STRING : list byte := bytes_of_string "!EssenceFS2-----".
Definition ESFS_DIRECTORY_ENTRY_SIGNATURE : list byte := bytes_of_string "DirEntry".
Definition ESFS_DRIVER_VERSION : Z := 10.
Definition ESFS_NODE_TYPE_FILE : Z := 1.
Definition ESFS_NODE_TYPE_DIRECTORY : Z := 2.
Definition ESFS_ATTRIBUTE_DATA : Z := 1.
Definition ESFS_ATTRIBUTE_FILENAME : Z := 2.
Definition ESFS_INDIRECTION_DIRECT : Z := 1.
Definition ESFS_INDIRECTION_L1 : Z := 2.

(** [sizeof] of the packed structures. *)
Definition sizeof_superblock : Z := 8192.
Definition sizeof_direntry : Z := 1024.
Definition sizeof_attribute : Z := 4.
Definition sizeof_attribute_filename : Z := 8.
Definition sizeof_attribute_data : Z := 32.

(** ** Fields of [struct grub_esfs_direntry] *)

Definition attributeOffset (e : list byte) : Z := le16 e 28.
Definition nodeType (e : list byte) : Z := byte_at e 30.
Definition fileSize (e : list byte) : Z := le64 e 56.

(** Fields of an attribute that starts at offset [a] of the entry. *)
Definition attr_type (e : list byte) (a : Z) : Z := le16 e a.
Definition attr_size (e : list byte) (a : Z) : Z := le16 e (a + 2).

(** ** [get_direntry_attribute]

    The [while] loop, one iteration per unit of fuel.  The outer [None] is
    "fuel exhausted"; the inner option is the pointer returned by the C
    function ([None] for [NULL], [Some a] for the attribute at offset [a]). *)
Fixpoint attribute_walk (fuel : nat) (e : list byte) (attrid minsize off : Z)
  : option (option Z) :=
  match fuel with
  | O => None
  | S fuel' =>
      if off <=? sizeof_direntry - sizeof_attribute then
        if negb (Z.land off 7 =? 0) then Some None
        else
          let attr := 8 * (off / 8) in
          if (attr_size e attr <? sizeof_attribute)
             || (u32 (attr_size e attr + off) >? sizeof_direntry)
          then Some None
          else if (attr_type e attr =? attrid) && (attr_size e attr >=? minsize)
          then Some (Some attr)
          else attribute_walk fuel' e attrid minsize (u32 (off + attr_size e attr))
      else Some None
  end.

(** Every iteration that continues advances [off] by at least 4 and keeps it
    at most 1024, so 257 iterations are never exceeded
    ([attribute_walk_terminates]). *)
Definition walk_fuel : nat := 257.

Definition get_direntry_attribute (e : list byte) (attrid minsize : Z) : option Z :=
  match attribute_walk walk_fuel e attrid minsize (attributeOffset e) with
  | Some r => r
  | None => None
  end.

(** ** Errors, the device and the mutable state *)

Inductive grub_err_t :=
  | GRUB_ERR_NONE
  | GRUB_ERR_OUT_OF_MEMORY
  | GRUB_ERR_BAD_FILE_TYPE
  | GRUB_ERR_OUT_OF_RANGE
  | GRUB_ERR_READ_ERROR
  | GRUB_ERR_BAD_FS.

Definition is_error (e : grub_err_t) : bool :=
  match e with GRUB_ERR_NONE => false | _ => true end.

Definition is_out_of_range (e : grub_err_t) : bool :=
  match e with GRUB_ERR_OUT_OF_RANGE => true | _ => false end.

Inductive grub_fshelp_filetype :=
  | GRUB_FSHELP_UNKNOWN
  | GRUB_FSHELP_DIR
  | GRUB_FSHELP_REG.

(** What can be observed from outside: calls of [grub_disk_read], firings of
    the read hook, and calls of the directory visitor. *)
Inductive event :=
  | DiskRead (sector offset size : Z)
  | HookCall (hook hook_data sector offset size : Z)
  | Visit (name : list byte) (ftype : grub_fshelp_filetype) (entry : list byte).

(** [grub_errno] with its message, the hook slot of the disk
    ([disk->read_hook], [disk->read_hook_data]; 0 is the null pointer) and
    the log of events, oldest first. *)
Record world := mkWorld {
  grub_errno : grub_err_t;
  grub_errmsg : string;
  read_hook : Z;
  read_hook_data : Z;
  log : list event
}.

Definition grub_error (e : grub_err_t) (msg : string) (w : world) : world :=
  mkWorld e msg (read_hook w) (read_hook_data w) (log w).

Definition set_read_hook (h : Z) (w : world) : world :=
  mkWorld (grub_errno w) (grub_errmsg w) h (read_hook_data w) (log w).

Definition set_read_hook_data (d : Z) (w : world) : world :=
  mkWorld (grub_errno w) (grub_errmsg w) (read_hook w) d (log w).

Definition emit (ev : event) (w : world) : world :=
  mkWorld (grub_errno w) (grub_errmsg w) (read_hook w) (read_hook_data w)
          (log w ++ [ev]).

(** The medium: the byte stored at each absolute byte offset, and the
    outcome of a request (sector, offset in sector, size): [GRUB_ERR_NONE] or
    the error the device layer reports for it. *)
Record grub_disk := mkDisk {
  content : Z -> byte;
  status : Z -> Z -> Z -> grub_err_t
}.

(** [memcpy (buf, data, length data)] on a buffer held as a list. *)
Definition blit (data buf : list byte) : list byte :=
  data ++ skipn (List.length data) buf.

(** The [n] bytes that a byte-addressed memory holds from address [a] on. *)
Fixpoint range (mem : Z -> byte) (a : Z) (n : nat) : list byte :=
  match n with
  | O => []
  | S n' => mem a :: range mem (a + 1) n'
  end.

Definition disk_bytes (disk : grub_disk) (sector offset size : Z) : list byte :=
  range (content disk) (sector * 512 + offset) (Z.to_nat size).

(** Modelled from the spec: the block device interface [grub_disk_read]
    (kern/disk.c is not among the sources).  A request reads [size] bytes at
    byte [sector * 512 + offset] into the start of [buf]; the hook installed
    on the device, if any, fires once for the request; a failing request
    sets [grub_errno] and returns it. *)
Definition grub_disk_read (disk : grub_disk) (sector offset size : Z)
    (buf : list byte) (w : world) : grub_err_t * list byte * world :=
  let w := emit (DiskRead sector offset size) w in
  match status disk sector offset size with
  | GRUB_ERR_NONE =>
      let w := if read_hook w =? 0 then w
               else emit (HookCall (read_hook w) (read_hook_data w)
                                   sector offset size) w in
      (GRUB_ERR_NONE, blit (disk_bytes disk sector offset size) buf, w)
  | e => (e, buf, grub_error e "disk read failed" w)
  end.

(** ** Nodes *)

(** [struct grub_fshelp_node]: the two fields of [node->data] that the
    reader uses, the 1024-byte entry, and the memory that follows the entry
    (reached only by a copy that runs past its end). *)
Record grub_fshelp_node := mkNode {
  data_bsize : Z;
  data_disk : grub_disk;
  direntry : list byte;
  after : Z -> byte
}.

(** [struct grub_esfs_data]. *)
Record grub_esfs_data := mkData {
  sblock : list byte;
  bsize : Z;
  disk : grub_disk;
  diropen : grub_fshelp_node
}.

(** The byte at offset [i] from the start of [node->direntry]. *)
Definition node_mem (node : grub_fshelp_node) (i : Z) : byte :=
  if i <? sizeof_direntry then nth (Z.to_nat i) (direntry node) x00
  else after node (i - sizeof_direntry).

Definition node_bytes (node : grub_fshelp_node) (i n : Z) : list byte :=
  range (node_mem node) i (Z.to_nat n).

(** Fields of [struct grub_esfs_attribute_data] at offset [d] of the entry. *)
Definition indirection (e : list byte) (d : Z) : Z := byte_at e (d + 4).
Definition dataOffset (e : list byte) (d : Z) : Z := byte_at e (d + 5).
Definition data_count (e : list byte) (d : Z) : Z := le16 e (d + 6).

(** Fields of [struct grub_esfs_attribute_filename]. *)
Definition filename_length (e : list byte) (a : Z) : Z := le16 e (a + 4).

(** ** The extent decoder *)

Definition startBytes_of (header : Z) : Z := Z.land (Z.shiftr header 0) 7 + 1.
Definition countBytes_of (header : Z) : Z := Z.land (Z.shiftr header 3) 7 + 1.

(** [for (i = 0; i < n; i++) acc = (acc << 8) | *p++;] on a 64-bit
    accumulator. *)
Definition be_accum (acc : Z) (bs : list byte) : Z :=
  fold_left (fun a b => u64 (Z.lor (Z.shiftl a 8) (u8 b))) bs acc.

(** The seed of [start]: all ones when the top bit of the first byte is set. *)
Definition start_seed (first : Z) : Z :=
  if negb (Z.land first 128 =? 0) then 2 ^ 64 - 1 else 0.

Definition decode_start (bs : list byte) : Z :=
  be_accum (start_seed (u8 (hd x00 bs))) bs.

Definition decode_count (bs : list byte) : Z := be_accum 0 bs.

(** ** [grub_esfs_read_file] *)

(** What the function returns: [-1], or a byte count. *)
Inductive read_result :=
  | Minus1
  | Bytes (n : Z).

(** The value of type [grub_ssize_t] that the caller receives. *)
Definition ssize_of (r : read_result) : Z :=
  match r with
  | Minus1 => -1
  | Bytes n => if n <? 2 ^ 63 then n else n - 2 ^ 64
  end.

(** [if (len + pos > fileSize) len = fileSize - pos;] *)
Definition clamp_to_file (file_size pos len : Z) : Z :=
  if u64 (len + pos) >? file_size then u64 (file_size - pos) else len.

(** The DIRECT branch, entered with [len] already clamped. *)
Definition read_direct (node : grub_fshelp_node) (d data_size pos len : Z)
    (buf : list byte) (w : world) : read_result * list byte * world :=
  let e := direntry node in
  let max_size := data_count e d in
  let max_size := if max_size <? data_size then data_size else max_size in
  if pos >? max_size then (Minus1, buf, w)
  else
    let len := if len >? u64 (max_size - pos) then u64 (max_size - pos) else len in
    (Bytes len, blit (node_bytes node (d + dataOffset e d + pos) len) buf, w).

(** One record of the extent list, decoded at [ext_off] (an offset from the
    start of the attribute): where the next record starts, the physical-block
    cursor after the signed delta has been added, and the run length in
    blocks.  [None] when the record does not pass the bound check. *)
Record extent := mkExtent {
  next_off : Z;
  new_start : Z;
  run_blocks : Z
}.

Definition decode_extent (node : grub_fshelp_node)
    (d data_size ext_off cur_start : Z) : option extent :=
  let header := u8 (node_mem node (d + ext_off)) in
  let ext_off := u32 (ext_off + 1) in
  let startBytes := startBytes_of header in
  let countBytes := countBytes_of header in
  if u32 (ext_off + startBytes + countBytes) >? data_size then None
  else
    let start := decode_start (node_bytes node (d + ext_off) startBytes) in
    let ext_off := u32 (ext_off + startBytes) in
    let count := decode_count (node_bytes node (d + ext_off) countBytes) in
    let ext_off := u32 (ext_off + countBytes) in
    Some (mkExtent ext_off (u64 (cur_start + start)) count).

(** The loop over the extent list; [n] is the number of records left
    ([count - extnum]). *)
Fixpoint extent_loop (n : nat) (node : grub_fshelp_node) (d data_size : Z)
    (hook hook_data pos len : Z)
    (ext_off cur_pos already_read cur_start : Z)
    (buf : list byte) (w : world) {struct n} : read_result * list byte * world :=
  match n with
  | O => (Bytes already_read, buf, w)
  | S n' =>
      if already_read <? len then
        match decode_extent node d data_size ext_off cur_start with
        | None => (Bytes already_read, buf, w)
        | Some x =>
            let ext_off := next_off x in
            let cur_start := new_start x in
            let count_bytes := u64 (run_blocks x * data_bsize node) in
            if u64 (cur_pos + count_bytes) <? pos then
              extent_loop n' node d data_size hook hook_data pos len
                          ext_off (u64 (cur_pos + count_bytes)) already_read
                          cur_start buf w
            else
              let add_off := if cur_pos <? pos then u64 (pos - cur_pos) else 0 in
              let to_read := u64 (len - already_read) in
              let to_read := if to_read >? u64 (count_bytes - add_off)
                             then u64 (count_bytes - add_off) else to_read in
              let w := set_read_hook hook w in
              let w := set_read_hook_data hook_data w in
              let '(err, buf, w) :=
                grub_disk_read (data_disk node)
                  (u64 (cur_start * Z.shiftr (data_bsize node) 9
                        + Z.shiftr add_off 9))
                  (Z.land add_off 511) to_read buf w in
              if is_error err then (Minus1, buf, w)
              else
                let w := set_read_hook 0 w in
                extent_loop n' node d data_size hook hook_data pos len
                            ext_off (u64 (cur_pos + count_bytes))
                            (u64 (already_read + to_read)) cur_start buf w
        end
      else (Bytes already_read, buf, w)
  end.

Definition read_l1 (node : grub_fshelp_node) (d data_size : Z)
    (hook hook_data pos len : Z) (buf : list byte) (w : world)
  : read_result * list byte * world :=
  let e := direntry node in
  extent_loop (Z.to_nat (data_count e d)) node d data_size hook hook_data pos len
              (dataOffset e d) 0 0 0 buf w.

Definition grub_esfs_read_file (node : grub_fshelp_node)
    (hook hook_data pos len : Z) (buf : list byte) (w : world)
  : read_result * list byte * world :=
  let e := direntry node in
  match get_direntry_attribute e ESFS_ATTRIBUTE_DATA sizeof_attribute_data with
  | None => (Minus1, buf, grub_error GRUB_ERR_BAD_FS "extents are missing" w)
  | Some d =>
      if dataOffset e d >? attr_size e d
      then (Minus1, buf, grub_error GRUB_ERR_BAD_FS "data offset is too large" w)
      else if pos >? fileSize e then (Minus1, buf, w)
      else
        let len := clamp_to_file (fileSize e) pos len in
        let data_size := u32 (attr_size e d - dataOffset e d) in
        if indirection e d =? ESFS_INDIRECTION_DIRECT
        then read_direct node d data_size pos len buf w
        else if negb (indirection e d =? ESFS_INDIRECTION_L1)
        then (Minus1, buf, grub_error GRUB_ERR_BAD_FS "unknown redirection" w)
        else read_l1 node d data_size hook hook_data pos len buf w
  end.

(** ** [esfs_check_direntry] and [grub_esfs_mount] *)

Definition esfs_check_direntry (entry : list byte) : bool :=
  if negb (grub_memcmp entry ESFS_DIRECTORY_ENTRY_SIGNATURE 8 =? 0) then false
  else true.

(** Fields of [struct grub_esfs_superblock]. *)
Definition requiredReadVersion (sb : list byte) : Z := le16 sb 48.
Definition blockSize (sb : list byte) : Z := le64 sb 64.
Definition blockCount (sb : list byte) : Z := le64 sb 72.
Definition root_block (sb : list byte) : Z := le64 sb 200.
Definition root_offset_into_block (sb : list byte) : Z := le32 sb 208.

(** [grub_cpu_to_le64_compile_time (~0xffffe00)]: the complement is taken on
    an [int] and then widened to 64 bits, which extends the sign. *)
Definition block_size_mask : Z := u64 (Z.lnot 0xffffe00).

(** The test that guards "not an esfs filesystem". *)
Definition superblock_rejected (sb : list byte) : bool :=
  negb (grub_memcmp sb ESFS_SIGNATURE_STRING 16 =? 0)
  || (requiredReadVersion sb >? ESFS_DRIVER_VERSION)
  || (blockSize sb =? 0)
  || negb (Z.land (blockSize sb) block_size_mask =? 0)
  || (blockCount sb =? 0).

(** The [fail] label. *)
Definition mount_fail (w : world) : option grub_esfs_data * world :=
  (None,
   if is_out_of_range (grub_errno w)
   then grub_error GRUB_ERR_BAD_FS "not an esfs filesystem" w
   else w).

(** [fresh] is what [grub_malloc] hands out: [None] when it fails (it then
    sets [grub_errno]), else the block with its present contents. *)
Definition grub_esfs_mount (dsk : grub_disk) (fresh : option grub_esfs_data)
    (w : world) : option grub_esfs_data * world :=
  match fresh with
  | None => (None, grub_error GRUB_ERR_OUT_OF_MEMORY "out of memory" w)
  | Some blk =>
      let '(_, sb, w) :=
        grub_disk_read dsk 16 0 sizeof_superblock (sblock blk) w in
      if is_error (grub_errno w) then mount_fail w
      else if superblock_rejected sb
      then mount_fail (grub_error GRUB_ERR_BAD_FS "not an esfs filesystem" w)
      else
        let bs := blockSize sb in
        let '(err, de, w) :=
          grub_disk_read dsk (u64 (root_block sb * Z.shiftr bs 9))
                         (root_offset_into_block sb) sizeof_direntry
                         (direntry (diropen blk)) w in
        if is_error err then mount_fail w
        else if negb (esfs_check_direntry de)
        then mount_fail
               (grub_error GRUB_ERR_BAD_FS "incorrect directory signature" w)
        else
          (Some (mkData sb bs dsk (mkNode bs dsk de (after (diropen blk)))), w)
  end.

(** ** [grub_esfs_iterate_dir] *)

(** [grub_strndup (s, n)]: the bytes of [s] up to the first NUL, at most [n]. *)
Fixpoint grub_strndup (s : list byte) (n : nat) : list byte :=
  match n, s with
  | S n', b :: s' => if u8 b =? 0 then [] else b :: grub_strndup s' n'
  | _, _ => []
  end.

(** The allocator as the iteration at [fpos] sees it: the block that
    [grub_malloc] returns for the child node ([None] when it fails), and
    whether [grub_strndup] gets its memory. *)
Record allocator := mkAlloc {
  new_node : Z -> option grub_fshelp_node;
  dup_ok : Z -> bool
}.

Inductive dir_result :=
  | Return0
  | Return1
  | ReturnErr (e : grub_err_t).

Section Iterate.

(** The visitor and what its [hook_data] points to.  The visitor is taken
    to give its verdict and to update its own data only: it leaves
    [grub_errno], the hook slot of the device and the device alone. *)
Variable HookData : Type.
Variable hook :
  list byte -> grub_fshelp_filetype -> grub_fshelp_node -> HookData ->
  bool * HookData.
Variable alloc : allocator.

(** The body of the [while] loop once the child has been read and [fpos]
    advanced: [None] stands for [continue], [Some] for a [return]. *)
Definition visit_child (fdiro : grub_fshelp_node) (fpos0 : Z)
    (hd : HookData) (w : world) : option dir_result * HookData * world :=
  let e := direntry fdiro in
  if negb (esfs_check_direntry e) then (None, hd, w)
  else
    match get_direntry_attribute e ESFS_ATTRIBUTE_FILENAME
                                 sizeof_attribute_filename with
    | None => (None, hd, w)
    | Some a =>
        if (attr_size e a <? 8) || (filename_length e a >? attr_size e a - 8)
        then (None, hd, w)
        else
          let type :=
            if nodeType e =? ESFS_NODE_TYPE_DIRECTORY then GRUB_FSHELP_DIR
            else if nodeType e =? ESFS_NODE_TYPE_FILE then GRUB_FSHELP_REG
            else GRUB_FSHELP_UNKNOWN in
          match type with
          | GRUB_FSHELP_UNKNOWN => (None, hd, w)
          | _ =>
              if negb (dup_ok alloc fpos0)
              then (None, hd,
                    grub_error GRUB_ERR_OUT_OF_MEMORY "out of memory" w)
              else
                let filename :=
                  grub_strndup (skipn (Z.to_nat (a + 8)) e)
                               (Z.to_nat (filename_length e a)) in
                let w := emit (Visit filename type e) w in
                let '(stop, hd) := hook filename type fdiro hd in
                if stop then (Some Return1, hd, w) else (None, hd, w)
          end
    end.

Fixpoint iterate_loop (fuel : nat) (diro : grub_fshelp_node)
    (dirSize fpos : Z) (hd : HookData) (w : world) {struct fuel}
  : option (dir_result * HookData * world) :=
  match fuel with
  | O => None
  | S fuel' =>
      if fpos <? dirSize then
        match new_node alloc fpos with
        | None =>
            Some (Return0, hd,
                  grub_error GRUB_ERR_OUT_OF_MEMORY "out of memory" w)
        | Some blk =>
            let '(_, buf, w) :=
              grub_esfs_read_file diro 0 0 fpos sizeof_direntry
                                  (direntry blk) w in
            if is_error (grub_errno w) then Some (Return0, hd, w)
            else
              let fdiro :=
                mkNode (data_bsize diro) (data_disk diro) buf (after blk) in
              let '(r, hd, w) := visit_child fdiro fpos hd w in
              match r with
              | Some res => Some (res, hd, w)
              | None =>
                  iterate_loop fuel' diro dirSize
                               (u64 (fpos + sizeof_direntry)) hd w
              end
        end
      else Some (Return0, hd, w)
  end.

Definition iterate_fuel (dirSize : Z) : nat :=
  Z.to_nat (dirSize / sizeof_direntry) + 2.

Definition grub_esfs_iterate_dir (diro : grub_fshelp_node) (hd : HookData)
    (w : world) : option (dir_result * HookData * world) :=
  let e := direntry diro in
  if negb (nodeType e =? ESFS_NODE_TYPE_DIRECTORY)
  then Some (ReturnErr GRUB_ERR_BAD_FILE_TYPE, hd,
             grub_error GRUB_ERR_BAD_FILE_TYPE "not a directory" w)
  else
    let dirSize := fileSize e in
    if dirSize >=? 0x80000000
    then Some (ReturnErr GRUB_ERR_BAD_FS, hd,
               grub_error GRUB_ERR_BAD_FS "directory too large" w)
    else iterate_loop (iterate_fuel dirSize) diro dirSize 0 hd w.

End Iterate.

(** ** Reference definitions for the extent encoding

    The value of a big-endian byte string, and the two's-complement reading
    of a [bits]-bit value, as the format describes them; the decoder is
    compared with these. *)

Definition be_unsigned (bs : list byte) : Z :=
  fold_left (fun a b => a * 256 + u8 b) bs 0.

Definition twos_complement (bits v : Z) : Z :=
  if v <? 2 ^ (bits - 1) then v else v - 2 ^ bits.

Definition be_signed (bs : list byte) : Z :=
  twos_complement (8 * Z.of_nat (List.length bs)) (be_unsigned bs).

(** ** Sample entries, volumes and devices *)

Definition zeros (n : nat) : list byte := repeat x00 n.

Fixpoint le_bytes (n : nat) (v : Z) : list byte :=
  match n with
  | O => []
  | S n' => byte_of_Z v :: le_bytes n' (v / 256)
  end.

Definition pad_to (n : nat) (l : list byte) : list byte :=
  l ++ zeros (n - List.length l).

(** The 96 bytes in front of the attribute list. *)
Definition entry_header (sig : string) (attr_off node_type file_size : Z)
  : list byte :=
  bytes_of_string sig ++ zeros 16 ++ zeros 4
  ++ le_bytes 2 attr_off ++ [byte_of_Z node_type; x00]
  ++ zeros 24 ++ le_bytes 8 file_size ++ zeros 32.

(** A DATA attribute of [size] bytes whose payload starts at offset 32. *)
Definition data_attribute (size indir data_off count : Z) (payload : list byte)
  : list byte :=
  pad_to (Z.to_nat size)
    (le_bytes 2 ESFS_ATTRIBUTE_DATA ++ le_bytes 2 size
     ++ [byte_of_Z indir; byte_of_Z data_off] ++ le_bytes 2 count
     ++ zeros 24 ++ payload).

Definition filename_attribute (size : Z) (name : string) : list byte :=
  pad_to (Z.to_nat size)
    (le_bytes 2 ESFS_ATTRIBUTE_FILENAME ++ le_bytes 2 size
     ++ le_bytes 2 (Z.of_nat (String.length name)) ++ zeros 2
     ++ bytes_of_string name).

Definition make_entry (header attrs : list byte) : list byte :=
  pad_to 1024 (header ++ attrs).

Definition idle : world := mkWorld GRUB_ERR_NONE "" 0 0 [].

Definition blank_disk : grub_disk :=
  mkDisk (fun _ => x00) (fun _ _ _ => GRUB_ERR_NONE).

(** A device holding [img] from byte [base] on, zero elsewhere. *)
Definition image_disk (base : Z) (img : list byte)
    (st : Z -> Z -> Z -> grub_err_t) : grub_disk :=
  mkDisk (fun a => if (base <=? a) && (a <? base + Z.of_nat (List.length img))
                   then nth (Z.to_nat (a - base)) img x00 else x00)
         st.

Definition node_of (bs : Z) (dsk : grub_disk) (e : list byte)
  : grub_fshelp_node :=
  mkNode bs dsk e (fun _ => x00).

(** A 16-byte file stored in the attribute: [count] says 5 bytes, the
    attribute has room for 32. *)
Definition direct_entry : list byte :=
  make_entry (entry_header "DirEntry" 96 ESFS_NODE_TYPE_FILE 16)
    (data_attribute 64 ESFS_INDIRECTION_DIRECT 32 5
       (bytes_of_string "world-and-what-follows-the-data!")).

Definition direct_node : grub_fshelp_node := node_of 512 blank_disk direct_entry.

(** A 512-byte file with one extent: header 0 (one delta byte, one count
    byte), delta +5, one block. *)
Definition l1_entry : list byte :=
  make_entry (entry_header "DirEntry" 96 ESFS_NODE_TYPE_FILE 512)
    (data_attribute 80 ESFS_INDIRECTION_L1 32 1
       [byte_of_Z 0; byte_of_Z 5; byte_of_Z 1]).

Definition failing_disk : grub_disk :=
  mkDisk (fun _ => x00) (fun _ _ _ => GRUB_ERR_READ_ERROR).

Definition l1_node_bad_disk : grub_fshelp_node := node_of 512 failing_disk l1_entry.
Definition l1_node : grub_fshelp_node := node_of 512 blank_disk l1_entry.

(** An entry with the right signature and [attributeOffset = 0]. *)
Definition zero_offset_entry : list byte :=
  make_entry (entry_header "DirEntry" 0 ESFS_NODE_TYPE_FILE 0) [].

(** A superblock that passes every check, with a root reference to block
    [2^40]; the device accepts the superblock request only. *)
Definition sample_superblock_fields : list byte :=
  ESFS_SIGNATURE_STRING ++ zeros 32 ++ le_bytes 2 10 ++ zeros 14
  ++ le_bytes 8 512 ++ le_bytes 8 4096 ++ zeros 120
  ++ le_bytes 8 (2 ^ 40) ++ le_bytes 4 0.

Definition sample_superblock : list byte :=
  pad_to (Z.to_nat 8192) sample_superblock_fields.

Definition short_disk : grub_disk :=
  image_disk 8192 sample_superblock_fields
    (fun sector _ _ => if sector =? 16 then GRUB_ERR_NONE
                       else GRUB_ERR_OUT_OF_RANGE).

Definition blank_data : grub_esfs_data :=
  mkData (zeros (Z.to_nat 8192)) 0 blank_disk (node_of 0 blank_disk (zeros 1024)).

(** A directory of three slots stored from block 4 on (one extent, delta
    +4, six blocks of 512 bytes): a file "a", a slot with a foreign
    signature, a directory "sub". *)
Definition slot_a : list byte :=
  make_entry (entry_header "DirEntry" 96 ESFS_NODE_TYPE_FILE 0)
    (filename_attribute 16 "a").

Definition slot_free : list byte :=
  make_entry (entry_header "--free--" 96 ESFS_NODE_TYPE_FILE 0)
    (filename_attribute 16 "gone").

Definition slot_sub : list byte :=
  make_entry (entry_header "DirEntry" 96 ESFS_NODE_TYPE_DIRECTORY 0)
    (filename_attribute 16 "sub").

Definition dir_disk : grub_disk :=
  image_disk 2048 (slot_a ++ slot_free ++ slot_sub)
             (fun _ _ _ => GRUB_ERR_NONE).

Definition dir_entry : list byte :=
  make_entry (entry_header "DirEntry" 96 ESFS_NODE_TYPE_DIRECTORY 3072)
    (data_attribute 80 ESFS_INDIRECTION_L1 32 1
       [byte_of_Z 0; byte_of_Z 4; byte_of_Z 6]).

Definition dir_node : grub_fshelp_node := node_of 512 dir_disk dir_entry.

Definition plain_alloc : allocator :=
  mkAlloc (fun _ => Some (node_of 0 blank_disk (zeros 1024))) (fun _ => true).

(** A visitor that counts its calls and never stops the walk. *)
Definition counting_hook (name : list byte) (t : grub_fshelp_filetype)
    (n : grub_fshelp_node) (calls : nat) : bool * nat :=
  (false, S calls).

(** A visitor that writes down the names it is given and never stops the
    walk. *)
Definition recording_hook (name : list byte) (t : grub_fshelp_filetype)
    (n : grub_fshelp_node) (names : list (list byte))
  : bool * list (list byte) :=
  (false, names ++ [name]).

(** A directory of two slots, a free one and the file "a", stored in blocks
    4 to 7 of a device with 512-byte blocks.  Its extent list has two
    records, three blocks from block 4 and one block from block 7, so that
    the second slot lies across both records.  The second entry names the
    same blocks with one record of four blocks. *)
Definition stream_disk : grub_disk :=
  image_disk 2048 (slot_free ++ slot_a) (fun _ _ _ => GRUB_ERR_NONE).

Definition two_record_entry : list byte :=
  make_entry (entry_header "DirEntry" 96 ESFS_NODE_TYPE_DIRECTORY 2048)
    (data_attribute 80 ESFS_INDIRECTION_L1 32 2
       [byte_of_Z 0; byte_of_Z 4; byte_of_Z 3;
        byte_of_Z 0; byte_of_Z 3; byte_of_Z 1]).

Definition one_record_entry : list byte :=
  make_entry (entry_header "DirEntry" 96 ESFS_NODE_TYPE_DIRECTORY 2048)
    (data_attribute 80 ESFS_INDIRECTION_L1 32 1
       [byte_of_Z 0; byte_of_Z 4; byte_of_Z 4]).

Definition two_record_dir : grub_fshelp_node :=
  node_of 512 stream_disk two_record_entry.

Definition one_record_dir : grub_fshelp_node :=
  node_of 512 stream_disk one_record_entry.

(** ** Measures on the event log *)

(** Bytes asked from the device by the requests of a log. *)
Fixpoint requested (evs : list event) : Z :=
  match evs with
  | [] => 0
  | DiskRead _ _ size :: evs' => size + requested evs'
  | _ :: evs' => requested evs'
  end.

(** Number of calls of [grub_disk_read] in a log. *)
Fixpoint device_reads (evs : list event) : nat :=
  match evs with
  | [] => O
  | DiskRead _ _ _ :: evs' => S (device_reads evs')
  | _ :: evs' => device_reads evs'
  end.

(** Number of firings of the read hook [hook] with data [hook_data]. *)
Fixpoint hook_calls (hook hook_data : Z) (evs : list event) : nat :=
  match evs with
  | [] => O
  | HookCall h d _ _ _ :: evs' =>
      if (h =? hook) && (d =? hook_data)
      then S (hook_calls hook hook_data evs')
      else hook_calls hook hook_data evs'
  | _ :: evs' => hook_calls hook hook_data evs'
  end.

(** The visitor calls of a log, in order. *)
Fixpoint visits (evs : list event)
  : list (list byte * grub_fshelp_filetype * list byte) :=
  match evs with
  | [] => []
  | Visit name t e :: evs' => (name, t, e) :: visits evs'
  | _ :: evs' => visits evs'
  end.

(** ** The directory as a stream of slots *)

(** Modelled from the spec: the data stream of a file stored in extents is
    the concatenation, record after record, of the blocks that its extent
    records name, cut at [fileSize]; the iterator walks that stream in
    strides of 1024 bytes.  The blocks are taken from the medium directly,
    not through [grub_esfs_read_file]. *)
Fixpoint extent_stream (n : nat) (node : grub_fshelp_node)
    (d data_size ext_off cur_start : Z) : list byte :=
  match n with
  | O => []
  | S n' =>
      match decode_extent node d data_size ext_off cur_start with
      | None => []
      | Some x =>
          range (content (data_disk node)) (new_start x * data_bsize node)
                (Z.to_nat (run_blocks x * data_bsize node))
          ++ extent_stream n' node d data_size (next_off x) (new_start x)
      end
  end.

Definition data_stream (node : grub_fshelp_node) (d : Z) : list byte :=
  let e := direntry node in
  firstn (Z.to_nat (fileSize e))
         (extent_stream (Z.to_nat (data_count e d)) node d
                        (attr_size e d - dataOffset e d) (dataOffset e d) 0).

(** Slot [k] of a stream. *)
Definition stream_slot (stream : list byte) (k : nat) : list byte :=
  firstn 1024 (skipn (1024 * k) stream).

(** A slot is shown to the visitor when its signature is right, it has a
    well-formed FILENAME attribute and it is a file or a directory. *)
Definition child_visit (e : list byte)
  : option (list byte * grub_fshelp_filetype * list byte) :=
  if esfs_check_direntry e then
    match get_direntry_attribute e ESFS_ATTRIBUTE_FILENAME
                                 sizeof_attribute_filename with
    | Some a =>
        if (8 <=? attr_size e a) && (filename_length e a <=? attr_size e a - 8)
        then
          let name := grub_strndup (skipn (Z.to_nat (a + 8)) e)
                                   (Z.to_nat (filename_length e a)) in
          if nodeType e =? ESFS_NODE_TYPE_DIRECTORY
          then Some (name, GRUB_FSHELP_DIR, e)
          else if nodeType e =? ESFS_NODE_TYPE_FILE
          then Some (name, GRUB_FSHELP_REG, e)
          else None
        else None
    | None => None
    end
  else None.

(** ** Reference definitions for the attribute list and the extent list *)

(** One attribute header is well-formed at [off]: aligned, inside the entry
    with its 4-byte header, at least 4 bytes long and ending within the
    entry. *)
Definition attr_ok (e : list byte) (off : Z) : bool :=
  (0 <=? off) && (off <=? 1020) && (off mod 8 =? 0)
  && (4 <=? attr_size e off) && (off + attr_size e off <=? 1024).

(** The offsets of the attributes of the list that starts at [off], as long
    as they are well-formed, each one starting where the previous one ends. *)
Fixpoint attr_chain (fuel : nat) (e : list byte) (off : Z) : list Z :=
  match fuel with
  | O => []
  | S fuel' =>
      if attr_ok e off
      then off :: attr_chain fuel' e (off + attr_size e off)
      else []
  end.

Definition attributes (e : list byte) : list Z :=
  attr_chain walk_fuel e (attributeOffset e).

(** The bytes covered by the extent records that the loop can decode: the
    first [n] records from [ext_off] on, up to the first one that fails the
    bound check. *)
Fixpoint covered (n : nat) (node : grub_fshelp_node)
    (d data_size ext_off cur_start : Z) : Z :=
  match n with
  | O => 0
  | S n' =>
      match decode_extent node d data_size ext_off cur_start with
      | None => 0
      | Some x =>
          u64 (run_blocks x * data_bsize node)
          + covered n' node d data_size (next_off x) (new_start x)
      end
  end.

(** The last device request of a log. *)
Fixpoint last_request (evs : list event) : option (Z * Z * Z) :=
  match evs with
  | [] => None
  | DiskRead s o n :: evs' =>
      match last_request evs' with
      | Some r => Some r
      | None => Some (s, o, n)
      end
  | _ :: evs' => last_request evs'
  end.

(** ** The facade: [grub_esfs_read], [grub_esfs_open], [grub_esfs_close],
    [grub_esfs_label], [grub_esfs_uuid] *)

(** Fields of the superblock used by the facade. *)
Definition volume_name_offset : Z := 16.
Definition sizeof_volume_name : Z := 32.
Definition identifier_offset : Z := 136.

(** The state of the driver: the [world], and the balance of the calls
    that pin and release [my_mod]: the calls of [grub_dl_ref] made so far
    minus the calls of [grub_dl_unref].  Nothing else is used of the two
    functions (kern/dl.c is not among the sources). *)
Record driver := mkDriver {
  state : world;
  refs : Z
}.

Definition grub_dl_ref (st : driver) : driver := mkDriver (state st) (refs st + 1).
Definition grub_dl_unref (st : driver) : driver := mkDriver (state st) (refs st - 1).

(** [struct grub_file], the fields the driver touches. *)
Record grub_file := mkFile {
  file_size : Z;
  file_offset : Z;
  file_read_hook : Z;
  file_read_hook_data : Z;
  file_data : option grub_esfs_data
}.

(** [grub_esfs_read]; a file that was not opened by this driver has no
    [data] and is not a possible argument ([Minus1] stands in). *)
Definition grub_esfs_read (file : grub_file) (buf : list byte) (len : Z)
    (w : world) : read_result * list byte * world :=
  match file_data file with
  | Some data =>
      grub_esfs_read_file (diropen data) (file_read_hook file)
                          (file_read_hook_data file) (file_offset file) len
                          buf w
  | None => (Minus1, buf, w)
  end.

(** [grub_esfs_close]. *)
Definition grub_esfs_close (file : grub_file) (st : driver)
  : grub_err_t * driver :=
  (GRUB_ERR_NONE, grub_dl_unref st).

Section Open.

(** [grub_fshelp_find_file] walks [name] from the root with
    [grub_esfs_iterate_dir]; it is not among the sources and is taken as a
    parameter: the error it returns, the node it found (meaningful when
    there is no error) and the state it leaves. *)
Variable find_file :
  list byte -> grub_fshelp_node -> world ->
  grub_err_t * grub_fshelp_node * world.

(** [grub_esfs_open]: the error returned, the file as it is left, the
    driver state. *)
Definition grub_esfs_open (file : grub_file) (dsk : grub_disk)
    (fresh : option grub_esfs_data) (name : list byte) (st : driver)
  : grub_err_t * grub_file * driver :=
  let st := grub_dl_ref st in
  let '(mounted, w) := grub_esfs_mount dsk fresh (state st) in
  match mounted with
  | None => (grub_errno w, file, grub_dl_unref (mkDriver w (refs st)))
  | Some data =>
      let '(err, fdiro, w) := find_file name (diropen data) w in
      if is_error err
      then (err, file, grub_dl_unref (mkDriver w (refs st)))
      else
        let root := diropen data in
        let entry :=
          blit (firstn (Z.to_nat sizeof_direntry) (direntry fdiro))
               (direntry root) in
        let data :=
          mkData (sblock data) (bsize data) (disk data)
                 (mkNode (data_bsize root) (data_disk root) entry (after root)) in
        (GRUB_ERR_NONE,
         mkFile (fileSize entry) 0 (file_read_hook file)
                (file_read_hook_data file) (Some data),
         mkDriver w (refs st))
  end.

End Open.

(** [grub_esfs_label]: the error returned, the label ([None] for [NULL]),
    the driver state.  [dup_mem] tells whether [grub_strndup] gets its
    memory. *)
Definition grub_esfs_label (dsk : grub_disk) (fresh : option grub_esfs_data)
    (dup_mem : bool) (st : driver)
  : grub_err_t * option (list byte) * driver :=
  let st := grub_dl_ref st in
  let '(mounted, w) := grub_esfs_mount dsk fresh (state st) in
  let '(label, w) :=
    match mounted with
    | Some data =>
        if dup_mem
        then (Some (grub_strndup (skipn (Z.to_nat volume_name_offset)
                                        (sblock data))
                                 (Z.to_nat sizeof_volume_name)), w)
        else (None, grub_error GRUB_ERR_OUT_OF_MEMORY "out of memory" w)
    | None => (None, w)
    end in
  let st := grub_dl_unref (mkDriver w (refs st)) in
  (grub_errno (state st), label, st).

(** [buf[off .. off + length data) = data]. *)
Definition poke (buf : list byte) (off : Z) (data : list byte) : list byte :=
  firstn (Z.to_nat off) buf ++ data
  ++ skipn (Z.to_nat off + List.length data) buf.

Definition hex_digit (v : Z) : byte :=
  nth (Z.to_nat v) (bytes_of_string "0123456789abcdef") x00.

(** [grub_snprintf (str, 3, "%02x", v)] for [0 <= v < 256]: two lower-case
    hexadecimal digits and the terminating NUL. *)
Definition snprintf_02x (v : Z) : list byte :=
  [hex_digit (v / 16); hex_digit (v mod 16); x00].

(** The loop over the 16 identifier bytes, with [n] iterations left:
    iteration [i] prints [identifier.d[i] & 0xff] with the format of
    [snprintf_02x] at offset [2 * i] of the block. *)
Fixpoint uuid_loop (n : nat) (i : Z) (sb buf : list byte) : list byte :=
  match n with
  | O => buf
  | S n' =>
      uuid_loop n' (i + 1) sb
        (poke buf (2 * i)
              (snprintf_02x (Z.land (byte_at sb (identifier_offset + i)) 255)))
  end.

(** [grub_esfs_uuid]: the error returned, the 40-byte block handed back
    through [uuid] ([None] for [NULL]), the driver state.  [block] is what
    [grub_malloc (40)] hands out. *)
Definition grub_esfs_uuid (dsk : grub_disk) (fresh : option grub_esfs_data)
    (block : option (list byte)) (st : driver)
  : grub_err_t * option (list byte) * driver :=
  let st := grub_dl_ref st in
  let '(mounted, w) := grub_esfs_mount dsk fresh (state st) in
  let '(uuid, w) :=
    match mounted with
    | Some data =>
        match block with
        | Some buf =>
            (Some (poke (uuid_loop 16 0 (sblock data) buf) 32 [x00]), w)
        | None => (None, grub_error GRUB_ERR_OUT_OF_MEMORY "out of memory" w)
        end
    | None => (None, w)
    end in
  let st := grub_dl_unref (mkDriver w (refs st)) in
  (grub_errno (state st), uuid, st).

(** The C string held by a buffer: its bytes up to the first NUL. *)
Definition c_string (buf : list byte) : list byte :=
  grub_strndup buf (List.length buf).

(** The value of a hexadecimal digit, and the bytes that a string of digit
    pairs spells. *)
Definition hex_value (b : byte) : Z :=
  let c := u8 b in
  if (48 <=? c) && (c <=? 57) then c - 48
  else if (97 <=? c) && (c <=? 102) then c - 87
  else 0.

Fixpoint unhex (s : list byte) : list Z :=
  match s with
  | hi :: lo :: rest => (16 * hex_value hi + hex_value lo) :: unhex rest
  | _ => []
  end.

(** ** What a visitor may rely on *)

(** A call [hook (name, type, node)] is well-formed: the node's entry has
    the directory-entry signature, the type is DIR for a directory node and
    REG for a file node, and the name is a NUL-free prefix, at most [length]
    bytes long, of the bytes held by a FILENAME attribute that lies inside
    the entry. *)
Definition visit_well_formed
    (v : list byte * grub_fshelp_filetype * list byte) : Prop :=
  let '(name, t, e) := v in
  esfs_check_direntry e = true /\
  (t = GRUB_FSHELP_DIR /\ nodeType e = ESFS_NODE_TYPE_DIRECTORY \/
   t = GRUB_FSHELP_REG /\ nodeType e = ESFS_NODE_TYPE_FILE) /\
  exists a,
    get_direntry_attribute e ESFS_ATTRIBUTE_FILENAME sizeof_attribute_filename
    = Some a /\
    Z.of_nat (List.length name) <= filename_length e a /\
    a + 8 + filename_length e a <= 1024 /\
    name = firstn (List.length name) (skipn (Z.to_nat (a + 8)) e) /\
    ~ In x00 name.

(** What a run of the iterator shows: the value returned, the visitor's
    data, [grub_errno], the visitor calls and the device requests. *)
Definition walk_outcome {HookData : Type}
    (run : option (dir_result * HookData * world)) :=
  option_map (fun r => (fst (fst r), snd (fst r), grub_errno (snd r),
                        visits (log (snd r)), log (snd r))) run.

(** ** [grub_esfs_dir_iter] and [grub_esfs_dir] *)

Definition modificationTime (e : list byte) : Z := le64 e 48.

(** [struct grub_dirhook_info]: the fields that the helper sets, the others
    being cleared by [grub_memset].  [info_mtime] is the quotient that the
    helper computes, as [grub_divmod64] returns it. *)
Record grub_dirhook_info := mkInfo {
  info_dir : bool;
  info_mtimeset : bool;
  info_mtime : Z
}.

Section Dir.

Variable HookData : Type.

(** [ctx->hook], the visitor of the caller of [grub_esfs_dir]. *)
Variable user_hook :
  list byte -> grub_dirhook_info -> HookData -> bool * HookData.

(** [grub_esfs_dir_iter]; [filetype] is not used. *)
Definition grub_esfs_dir_iter (filename : list byte)
    (filetype : grub_fshelp_filetype) (node : grub_fshelp_node)
    (hd : HookData) : bool * HookData :=
  let info :=
    mkInfo (nodeType (direntry node) =? ESFS_NODE_TYPE_DIRECTORY) true
           (modificationTime (direntry node) / 1000000) in
  user_hook filename info hd.

(** [grub_fshelp_find_file] as [grub_esfs_dir] uses it: the node it leaves
    in [fdiro] and the state, of which [grub_errno] is tested. *)
Variable find_dir :
  list byte -> grub_fshelp_node -> world -> grub_fshelp_node * world.

Variable alloc : allocator.

(** [grub_esfs_dir]: the error returned, the visitor's data, the driver
    state. *)
Definition grub_esfs_dir (dsk : grub_disk) (fresh : option grub_esfs_data)
    (path : list byte) (hd : HookData) (st : driver)
  : grub_err_t * HookData * driver :=
  let st := grub_dl_ref st in
  let '(mounted, w) := grub_esfs_mount dsk fresh (state st) in
  let '(hd, w) :=
    match mounted with
    | None => (hd, w)
    | Some data =>
        let '(fdiro, w) := find_dir path (diropen data) w in
        if is_error (grub_errno w) then (hd, w)
        else
          match grub_esfs_iterate_dir HookData grub_esfs_dir_iter alloc
                                      fdiro hd w with
          | Some (_, hd, w) => (hd, w)
          | None => (hd, w)
          end
    end in
  let st := grub_dl_unref (mkDriver w (refs st)) in
  (grub_errno (state st), hd, st).

End Dir.

(** ** The text of a volume identifier, and a sample volume *)

(** Two lower-case hexadecimal digits for each of the [n] identifier bytes
    from index [i] on. *)
Fixpoint hex_pairs (n : nat) (i : Z) (sb : list byte) : list byte :=
  match n with
  | O => []
  | S n' =>
      let v := Z.land (byte_at sb (identifier_offset + i)) 255 in
      hex_digit (v / 16) :: hex_digit (v mod 16) :: hex_pairs n' (i + 1) sb
  end.

Definition is_hex_digit (c : byte) : Prop :=
  In c (bytes_of_string "0123456789abcdef").

(** A volume named "boot" with 512-byte blocks; its root entry is the
    sample directory entry, stored in block 17, right behind the used part
    of the superblock. *)
Definition volume_identifier : list byte :=
  map byte_of_Z [0x01; 0x23; 0x45; 0x67; 0x89; 0xab; 0xcd; 0xef;
                 0x00; 0x10; 0x20; 0x30; 0x0a; 0xa0; 0xff; 0x7f].

Definition volume_superblock_fields : list byte :=
  ESFS_SIGNATURE_STRING ++ pad_to 32 (bytes_of_string "boot")
  ++ le_bytes 2 10 ++ zeros 14
  ++ le_bytes 8 512 ++ le_bytes 8 4096 ++ zeros 56
  ++ volume_identifier ++ zeros 48
  ++ le_bytes 8 17 ++ le_bytes 4 0.

Definition volume_disk : grub_disk :=
  image_disk 8192 (pad_to 512 volume_superblock_fields ++ dir_entry)
             (fun _ _ _ => GRUB_ERR_NONE).

(** ** Basic facts on bytes *)

Lemma u8_range (b : byte) : 0 <= u8 b < 256.
Proof.
  unfold u8. pose proof (Byte.to_N_bounded b) as H.
  split; [apply N2Z.is_nonneg|]. lia.
Qed.

Lemma byte_at_range (buf : list byte) (i : Z) : 0 <= byte_at buf i < 256.
Proof. apply u8_range. Qed.

Lemma le16_range (buf : list byte) (i : Z) : 0 <= le16 buf i < 2 ^ 16.
Proof.
  unfold le16.
  pose proof (byte_at_range buf i). pose proof (byte_at_range buf (i + 1)).
  lia.
Qed.

Lemma le32_range (buf : list byte) (i : Z) : 0 <= le32 buf i < 2 ^ 32.
Proof.
  unfold le32.
  pose proof (le16_range buf i). pose proof (le16_range buf (i + 2)).
  lia.
Qed.

Lemma le64_range (buf : list byte) (i : Z) : 0 <= le64 buf i < 2 ^ 64.
Proof.
  unfold le64.
  pose proof (le32_range buf i). pose proof (le32_range buf (i + 4)).
  lia.
Qed.

(** ** Proof support *)

Ltac bool_hyps :=
  repeat match goal with
  | H : negb _ = true |- _ => apply negb_true_iff in H
  | H : negb _ = false |- _ => apply negb_false_iff in H
  | H : (_ || _) = false |- _ => apply orb_false_iff in H; destruct H
  | H : (_ && _) = true |- _ => apply andb_true_iff in H; destruct H
  | H : (_ >? _) = _ |- _ => rewrite Z.gtb_ltb in H
  | H : (_ >=? _) = _ |- _ => rewrite Z.geb_leb in H
  | H : (_ <=? _) = true |- _ => apply Z.leb_le in H
  | H : (_ <=? _) = false |- _ => apply Z.leb_gt in H
  | H : (_ <? _) = true |- _ => apply Z.ltb_lt in H
  | H : (_ <? _) = false |- _ => apply Z.ltb_ge in H
  | H : (_ =? _) = true |- _ => apply Z.eqb_eq in H
  | H : (_ =? _) = false |- _ => apply Z.eqb_neq in H
  end.

Lemma u32_small (z : Z) : 0 <= z < 2 ^ 32 -> u32 z = z.
Proof. intros H. unfold u32. apply Z.mod_small. exact H. Qed.

Lemma u64_small (z : Z) : 0 <= z < 2 ^ 64 -> u64 z = z.
Proof. intros H. unfold u64. apply Z.mod_small. exact H. Qed.

Lemma u64_range (z : Z) : 0 <= u64 z < 2 ^ 64.
Proof. unfold u64. apply Z.mod_pos_bound. lia. Qed.

Lemma land7_aligned (off : Z) : Z.land off 7 = 0 -> 8 * (off / 8) = off.
Proof.
  intros H. change 7 with (Z.ones 3) in H.
  rewrite Z.land_ones in H by lia.
  change (2 ^ 3) with 8 in H.
  pose proof (Z.div_mod off 8). lia.
Qed.

(** ** The attribute walk *)

(** One step of the walk, as an equation. *)
Lemma attribute_walk_step (fuel : nat) (e : list byte) (attrid minsize off : Z) :
  0 <= off <= 1020 ->
  Z.land off 7 = 0 ->
  attribute_walk (S fuel) e attrid minsize off =
    if (attr_size e off <? 4) || (attr_size e off + off >? 1024) then Some None
    else if (attr_type e off =? attrid) && (attr_size e off >=? minsize)
         then Some (Some off)
         else attribute_walk fuel e attrid minsize (off + attr_size e off).
Proof.
  intros Hoff Hal.
  cbn [attribute_walk]. unfold sizeof_direntry, sizeof_attribute.
  replace (off <=? 1024 - 4) with true by (symmetry; apply Z.leb_le; lia).
  rewrite Hal. cbn [Z.eqb negb].
  rewrite (land7_aligned off Hal).
  pose proof (le16_range e (off + 2)) as Hs. fold (attr_size e off) in Hs.
  rewrite !u32_small by lia.
  reflexivity.
Qed.

(** The walk never runs out of fuel: each continuing iteration adds at least
    4 to [off]. *)
Lemma attribute_walk_terminates (fuel : nat) :
  forall (e : list byte) (attrid minsize off : Z),
    0 <= off ->
    1024 - off < 4 * Z.of_nat fuel ->
    (1 <= fuel)%nat ->
    attribute_walk fuel e attrid minsize off <> None.
Proof.
  induction fuel as [|fuel IH]; intros e attrid minsize off H0 Hm H1; [lia|].
  destruct (off <=? 1020) eqn:Hle.
  - destruct (Z.land off 7 =? 0) eqn:Hal.
    + bool_hyps. rewrite attribute_walk_step by (auto; lia).
      destruct (_ || _) eqn:Hb; [discriminate|].
      destruct (_ && _); [discriminate|].
      bool_hyps. apply IH; lia.
    + cbn [attribute_walk]. unfold sizeof_direntry, sizeof_attribute.
      change (1024 - 4) with 1020. rewrite Hle, Hal. discriminate.
  - cbn [attribute_walk]. unfold sizeof_direntry, sizeof_attribute.
    change (1024 - 4) with 1020. rewrite Hle. discriminate.
Qed.

(** What a successful walk returns. *)
Lemma attribute_walk_sound (fuel : nat) :
  forall (e : list byte) (attrid minsize off a : Z),
    0 <= off ->
    attribute_walk fuel e attrid minsize off = Some (Some a) ->
    off <= a /\ a mod 8 = 0 /\
    4 <= attr_size e a /\ minsize <= attr_size e a /\
    a + attr_size e a <= 1024 /\ attr_type e a = attrid.
Proof.
  induction fuel as [|fuel IH]; intros e attrid minsize off a H0 Hw;
    [discriminate|].
  destruct (off <=? 1020) eqn:Hle.
  - destruct (Z.land off 7 =? 0) eqn:Hal.
    + bool_hyps. rewrite attribute_walk_step in Hw by (auto; lia).
      destruct (_ || _) eqn:Hb; [discriminate|].
      destruct (_ && _) eqn:Hc.
      * injection Hw as <-. bool_hyps.
        change 7 with (Z.ones 3) in Hal. rewrite Z.land_ones in Hal by lia.
        change (2 ^ 3) with 8 in Hal. repeat split; auto; lia.
      * bool_hyps. apply IH in Hw; [|lia]. intuition lia.
    + cbn [attribute_walk] in Hw. unfold sizeof_direntry, sizeof_attribute in Hw.
      change (1024 - 4) with 1020 in Hw. rewrite Hle, Hal in Hw. discriminate.
  - cbn [attribute_walk] in Hw. unfold sizeof_direntry, sizeof_attribute in Hw.
    change (1024 - 4) with 1020 in Hw. rewrite Hle in Hw. discriminate.
Qed.

Lemma get_direntry_attribute_sound (e : list byte) (attrid minsize a : Z) :
  get_direntry_attribute e attrid minsize = Some a ->
  0 <= a /\ a mod 8 = 0 /\
  4 <= attr_size e a /\ minsize <= attr_size e a /\
  a + attr_size e a <= 1024 /\ attr_type e a = attrid.
Proof.
  unfold get_direntry_attribute. intros H.
  destruct (attribute_walk _ _ _ _ _) as [r|] eqn:Hw; [|discriminate].
  subst r. apply attribute_walk_sound in Hw.
  - pose proof (le16_range e 28). unfold attributeOffset in Hw. intuition lia.
  - apply le16_range.
Qed.

(** C10.  Whatever the 1024 bytes of the entry hold, and for every attribute
    type and minimum size, [get_direntry_attribute] finishes within its
    iteration budget and either returns no attribute or returns one at an
    8-byte aligned offset [a] with [4 <= size], [minsize <= size] and
    [a + size <= 1024]: the attribute lies wholly inside the entry. *)
Theorem get_direntry_attribute_in_entry (e : list byte) (attrid minsize : Z) :
  attribute_walk walk_fuel e attrid minsize (attributeOffset e) <> None /\
  match get_direntry_attribute e attrid minsize with
  | None => True
  | Some a =>
      0 <= a /\ a mod 8 = 0 /\
      4 <= attr_size e a /\ minsize <= attr_size e a /\
      a + attr_size e a <= 1024
  end.
Proof.
  split.
  - pose proof (le16_range e 28) as H. fold (attributeOffset e) in H.
    apply attribute_walk_terminates; unfold walk_fuel; lia.
  - destruct (get_direntry_attribute e attrid minsize) as [a|] eqn:H; [|exact I].
    apply get_direntry_attribute_sound in H. intuition.
Qed.

(** ** The extent decoder *)

Lemma lor_shiftl8 (a b : Z) :
  0 <= b < 256 -> Z.lor (Z.shiftl a 8) b = a * 256 + b.
Proof.
  intros Hb.
  assert (Hland : Z.land (Z.shiftl a 8) b = 0).
  { apply Z.bits_inj'. intros i Hi.
    rewrite Z.land_spec, Z.bits_0.
    destruct (Z.ltb_spec i 8).
    - rewrite Z.shiftl_spec_low by lia. reflexivity.
    - replace b with (b mod 2 ^ 8) by (apply Z.mod_small; exact Hb).
      rewrite Z.mod_pow2_bits_high by lia. apply andb_false_r. }
  pose proof (Z.add_lor_land (Z.shiftl a 8) b) as Hadd.
  rewrite Hland, Z.shiftl_mul_pow2 in Hadd by lia.
  rewrite Z.shiftl_mul_pow2 by lia. change (2 ^ 8) with 256 in *. lia.
Qed.

Lemma be_step (a b : Z) :
  0 <= b < 256 ->
  u64 (Z.lor (Z.shiftl (u64 a) 8) b) = u64 (a * 256 + b).
Proof.
  intros Hb. rewrite lor_shiftl8 by exact Hb. unfold u64.
  rewrite <- Zplus_mod_idemp_l, Z.mul_mod_idemp_l by lia.
  rewrite Zplus_mod_idemp_l. reflexivity.
Qed.

Lemma be_accum_u64 (bs : list byte) :
  forall a : Z,
    be_accum (u64 a) bs = u64 (fold_left (fun x b => x * 256 + u8 b) bs a).
Proof.
  unfold be_accum.
  induction bs as [|b bs IH]; intros a; cbn [fold_left]; [reflexivity|].
  rewrite be_step by apply u8_range. apply IH.
Qed.

Lemma be_fold_shift (bs : list byte) :
  forall a : Z,
    fold_left (fun x b => x * 256 + u8 b) bs a
    = a * 256 ^ Z.of_nat (List.length bs) + be_unsigned bs.
Proof.
  unfold be_unsigned.
  induction bs as [|b bs IH]; intros a; cbn [fold_left List.length].
  - change (256 ^ Z.of_nat 0) with 1. lia.
  - rewrite IH, (IH (0 * 256 + u8 b)), Nat2Z.inj_succ, Z.pow_succ_r by lia. lia.
Qed.

Lemma be_unsigned_range (bs : list byte) :
  0 <= be_unsigned bs < 256 ^ Z.of_nat (List.length bs).
Proof.
  induction bs as [|b bs IH].
  - cbn. lia.
  - unfold be_unsigned in *. cbn [fold_left List.length].
    rewrite be_fold_shift, Nat2Z.inj_succ, Z.pow_succ_r by lia.
    unfold be_unsigned. pose proof (u8_range b). nia.
Qed.

Lemma be_unsigned_cons (b : byte) (bs : list byte) :
  be_unsigned (b :: bs) = u8 b * 256 ^ Z.of_nat (List.length bs) + be_unsigned bs.
Proof.
  unfold be_unsigned at 1. cbn [fold_left]. rewrite be_fold_shift. lia.
Qed.

Lemma top_bit (b : byte) : (Z.land (u8 b) 128 =? 0) = (u8 b <? 128).
Proof. destruct b; reflexivity. Qed.

Lemma pow256 (n : nat) : 256 ^ Z.of_nat n = 2 ^ (8 * Z.of_nat n).
Proof. change 256 with (2 ^ 8). rewrite <- Z.pow_mul_r by lia. reflexivity. Qed.

(** The accumulator seeded from the top bit computes the two's-complement
    value of the byte string, reduced modulo [2^64]. *)
Lemma decode_start_signed (bs : list byte) :
  bs <> [] -> decode_start bs = u64 (be_signed bs).
Proof.
  destruct bs as [|b bs]; [congruence|]. intros _.
  unfold decode_start, start_seed, be_signed, twos_complement.
  cbn [hd]. rewrite top_bit.
  set (n := List.length bs).
  assert (Hlen : Z.of_nat (List.length (b :: bs)) = Z.of_nat n + 1)
    by (cbn [List.length]; lia).
  rewrite Hlen.
  replace (8 * (Z.of_nat n + 1) - 1) with (7 + 8 * Z.of_nat n) by lia.
  replace (8 * (Z.of_nat n + 1)) with (8 + 8 * Z.of_nat n) by lia.
  rewrite !Z.pow_add_r by lia.
  pose proof (be_unsigned_range bs) as Hr. fold n in Hr.
  rewrite pow256 in Hr.
  pose proof (u8_range b) as Hb.
  assert (Hp : 0 < 2 ^ (8 * Z.of_nat n)) by (apply Z.pow_pos_nonneg; lia).
  rewrite be_unsigned_cons. fold n. rewrite pow256.
  change (2 ^ 7) with 128. change (2 ^ 8) with 256.
  destruct (u8 b <? 128) eqn:Htop; cbn [negb]; bool_hyps.
  - assert (u8 b * 2 ^ (8 * Z.of_nat n) <= 127 * 2 ^ (8 * Z.of_nat n))
      by (apply Z.mul_le_mono_nonneg_r; lia).
    replace (_ <? _) with true by (symmetry; apply Z.ltb_lt; lia).
    change 0 with (u64 0) at 1. rewrite be_accum_u64, be_fold_shift.
    rewrite be_unsigned_cons. fold n. rewrite !pow256. f_equal.
  - assert (128 * 2 ^ (8 * Z.of_nat n) <= u8 b * 2 ^ (8 * Z.of_nat n))
      by (apply Z.mul_le_mono_nonneg_r; lia).
    replace (_ <? _) with false by (symmetry; apply Z.ltb_ge; lia).
    change (2 ^ 64 - 1) with (u64 (-1)). rewrite be_accum_u64, be_fold_shift.
    rewrite be_unsigned_cons. cbn [List.length]. fold n.
    rewrite Nat2Z.inj_succ, Z.pow_succ_r, !pow256 by lia. f_equal. lia.
Qed.

Lemma decode_count_unsigned (bs : list byte) :
  (List.length bs <= 8)%nat -> decode_count bs = be_unsigned bs.
Proof.
  intros Hlen. unfold decode_count.
  change 0 with (u64 0) at 1. rewrite be_accum_u64.
  fold (be_unsigned bs). apply u64_small.
  pose proof (be_unsigned_range bs) as Hr. rewrite pow256 in Hr.
  assert (2 ^ (8 * Z.of_nat (List.length bs)) <= 2 ^ 64)
    by (apply Z.pow_le_mono_r; lia).
  lia.
Qed.

Lemma header_widths (h : Z) :
  0 <= h ->
  startBytes_of h = h mod 8 + 1 /\ countBytes_of h = (h / 8) mod 8 + 1 /\
  1 <= startBytes_of h <= 8 /\ 1 <= countBytes_of h <= 8.
Proof.
  intros Hh. unfold startBytes_of, countBytes_of.
  rewrite Z.shiftr_0_r, Z.shiftr_div_pow2 by lia.
  change 7 with (Z.ones 3). rewrite !Z.land_ones by lia.
  change (2 ^ 3) with 8.
  pose proof (Z.mod_pos_bound h 8). pose proof (Z.mod_pos_bound (h / 8) 8).
  lia.
Qed.

Lemma range_length (mem : Z -> byte) (n : nat) :
  forall a : Z, List.length (range mem a n) = n.
Proof.
  induction n as [|n IH]; intros a; cbn [range List.length];
    [reflexivity|rewrite IH; reflexivity].
Qed.

Lemma nth_range_app (mem : Z -> byte) (k : nat) :
  forall (n : nat) (a : Z) (rest : list byte),
    (k < n)%nat -> nth k (range mem a n ++ rest) x00 = mem (a + Z.of_nat k).
Proof.
  induction k as [|k IH]; intros n a rest Hlt;
    (destruct n as [|n]; [lia|]); cbn [range app nth].
  - rewrite Z.add_0_r. reflexivity.
  - rewrite IH by lia. f_equal. lia.
Qed.

Lemma node_bytes_length (node : grub_fshelp_node) (i n : Z) :
  List.length (node_bytes node i n) = Z.to_nat n.
Proof. unfold node_bytes. apply range_length. Qed.

(** C5.  For a record at attribute offset [ext_off] with header byte [h]:
    the widths are [startBytes = (h & 7) + 1] and
    [countBytes = ((h >> 3) & 7) + 1], both in 1..8; when the bound check
    passes, the decoder (whose accumulator starts from all ones if the top bit
    of the first delta byte is set) adds to the cursor the two's-complement
    value of the [startBytes] big-endian delta bytes, modulo [2^64], and
    yields the unsigned value of the [countBytes] big-endian count bytes. *)
Theorem decode_extent_spec (node : grub_fshelp_node)
    (d data_size ext_off cur_start : Z) :
  0 <= ext_off <= 65535 ->
  let h := u8 (node_mem node (d + ext_off)) in
  let startBytes := Z.land h 7 + 1 in
  let countBytes := Z.land (Z.shiftr h 3) 7 + 1 in
  let delta := be_signed (node_bytes node (d + (ext_off + 1)) startBytes) in
  let blocks :=
    be_unsigned (node_bytes node (d + (ext_off + 1 + startBytes)) countBytes) in
  1 <= startBytes <= 8 /\ 1 <= countBytes <= 8 /\
  decode_extent node d data_size ext_off cur_start =
    if ext_off + 1 + startBytes + countBytes >? data_size then None
    else Some (mkExtent (ext_off + 1 + startBytes + countBytes)
                        ((cur_start + delta) mod 2 ^ 64) blocks).
Proof.
  intros Hoff h startBytes countBytes delta blocks.
  pose proof (u8_range (node_mem node (d + ext_off))) as Hh. fold h in Hh.
  destruct (header_widths h) as (_ & _ & Hs & Hc); [lia|].
  unfold startBytes_of, countBytes_of in Hs, Hc.
  rewrite Z.shiftr_0_r in Hs. fold startBytes in Hs. fold countBytes in Hc.
  split; [exact Hs|]. split; [exact Hc|].
  unfold decode_extent. fold h.
  unfold startBytes_of, countBytes_of. rewrite Z.shiftr_0_r.
  fold startBytes. fold countBytes.
  rewrite (u32_small (ext_off + 1)) by lia.
  rewrite (u32_small (ext_off + 1 + startBytes)) by lia.
  rewrite (u32_small (ext_off + 1 + startBytes + countBytes)) by lia.
  destruct (_ >? _); [reflexivity|].
  f_equal. f_equal.
  - rewrite decode_start_signed.
    + fold delta. unfold u64. rewrite Zplus_mod_idemp_r. reflexivity.
    + intros Hnil. apply (f_equal (@List.length byte)) in Hnil.
      rewrite node_bytes_length in Hnil. cbn [List.length] in Hnil. lia.
  - apply decode_count_unsigned. rewrite node_bytes_length. lia.
Qed.

(** ** Device requests and the event log *)

Lemma requested_app (l1 l2 : list event) :
  requested (l1 ++ l2) = requested l1 + requested l2.
Proof.
  induction l1 as [|ev l1 IH]; cbn [requested app]; [reflexivity|].
  destruct ev; rewrite IH; lia.
Qed.

Lemma device_reads_app (l1 l2 : list event) :
  device_reads (l1 ++ l2) = (device_reads l1 + device_reads l2)%nat.
Proof.
  induction l1 as [|ev l1 IH]; cbn [device_reads app]; [reflexivity|].
  destruct ev; rewrite IH; reflexivity.
Qed.

Lemma visits_app (l1 l2 : list event) :
  visits (l1 ++ l2) = visits l1 ++ visits l2.
Proof.
  induction l1 as [|ev l1 IH]; cbn [visits app]; [reflexivity|].
  destruct ev; rewrite IH; reflexivity.
Qed.

Lemma hook_calls_app (hook hook_data : Z) (l1 l2 : list event) :
  hook_calls hook hook_data (l1 ++ l2)
  = (hook_calls hook hook_data l1 + hook_calls hook hook_data l2)%nat.
Proof.
  induction l1 as [|ev l1 IH]; cbn [hook_calls app]; [reflexivity|].
  destruct ev; try exact IH. destruct (_ && _); rewrite IH; reflexivity.
Qed.

(** What one device request adds to the log. *)
Lemma grub_disk_read_log (dsk : grub_disk) (sector offset size : Z)
    (buf : list byte) (w : world) :
  exists evs,
    log (snd (grub_disk_read dsk sector offset size buf w)) = log w ++ evs /\
    requested evs = size /\ device_reads evs = 1%nat /\ visits evs = [].
Proof.
  unfold grub_disk_read.
  destruct (status dsk sector offset size);
    [|exists [DiskRead sector offset size]; cbn; repeat split; lia ..].
  cbn [emit read_hook read_hook_data log].
  destruct (read_hook w =? 0); cbn [snd emit log].
  - exists [DiskRead sector offset size]. cbn. repeat split; lia.
  - exists [DiskRead sector offset size;
            HookCall (read_hook w) (read_hook_data w) sector offset size].
    rewrite <- app_assoc. cbn. repeat split; lia.
Qed.

Lemma grub_disk_read_ok (dsk : grub_disk) (sector offset size : Z)
    (buf : list byte) (w : world) :
  status dsk sector offset size = GRUB_ERR_NONE ->
  exists w1 evs,
    grub_disk_read dsk sector offset size buf w
    = (GRUB_ERR_NONE, blit (disk_bytes dsk sector offset size) buf, w1) /\
    grub_errno w1 = grub_errno w /\ grub_errmsg w1 = grub_errmsg w /\
    read_hook w1 = read_hook w /\ read_hook_data w1 = read_hook_data w /\
    log w1 = log w ++ DiskRead sector offset size :: evs /\
    device_reads evs = 0%nat /\ visits evs = [] /\
    evs = (if read_hook w =? 0 then []
           else [HookCall (read_hook w) (read_hook_data w) sector offset size]).
Proof.
  intros Hst. unfold grub_disk_read. rewrite Hst.
  cbn [emit read_hook read_hook_data log].
  destruct (read_hook w =? 0).
  - eexists; exists []. repeat (split; [reflexivity|]). reflexivity.
  - eexists; eexists. split; [reflexivity|].
    cbn [emit grub_errno grub_errmsg read_hook read_hook_data log].
    rewrite <- app_assoc. repeat (split; [reflexivity|]). reflexivity.
Qed.

Lemma grub_disk_read_fail (dsk : grub_disk) (sector offset size : Z)
    (buf : list byte) (w : world) :
  is_error (status dsk sector offset size) = true ->
  grub_disk_read dsk sector offset size buf w
  = (status dsk sector offset size, buf,
     grub_error (status dsk sector offset size) "disk read failed"
                (emit (DiskRead sector offset size) w)).
Proof.
  intros Hst. unfold grub_disk_read.
  destruct (status dsk sector offset size); [discriminate| reflexivity ..].
Qed.

Lemma blit_length (data buf : list byte) :
  (List.length data <= List.length (blit data buf))%nat.
Proof. unfold blit. rewrite length_app. lia. Qed.

Lemma disk_bytes_length (dsk : grub_disk) (sector offset size : Z) :
  List.length (disk_bytes dsk sector offset size) = Z.to_nat size.
Proof. unfold disk_bytes. apply range_length. Qed.

(** ** The file reader: bounds *)

(** The size of one request of the extent loop. *)
Lemma to_read_bounds (len already_read avail : Z) :
  0 <= already_read < len -> len < 2 ^ 64 ->
  let to_read := u64 (len - already_read) in
  let to_read := if to_read >? u64 avail then u64 avail else to_read in
  0 <= to_read <= len - already_read.
Proof.
  intros Har Hlen. cbv zeta.
  rewrite (u64_small (len - already_read)) by lia.
  pose proof (u64_range avail).
  destruct (_ >? _) eqn:Hc; bool_hyps; lia.
Qed.

(** The extent loop asks the device for no more than what is left of [len],
    and the count it returns is what it asked for. *)
Lemma extent_loop_bounded (n : nat) :
  forall (node : grub_fshelp_node) (d data_size hook hook_data pos len : Z)
         (ext_off cur_pos already_read cur_start : Z)
         (buf : list byte) (w : world),
    0 <= already_read <= len -> len < 2 ^ 64 ->
    exists evs,
      log (snd (extent_loop n node d data_size hook hook_data pos len
                            ext_off cur_pos already_read cur_start buf w))
      = log w ++ evs /\
      0 <= requested evs <= len - already_read /\
      match fst (fst (extent_loop n node d data_size hook hook_data pos len
                                  ext_off cur_pos already_read cur_start buf w))
      with
      | Bytes m => m = already_read + requested evs
      | Minus1 => True
      end.
Proof.
  induction n as [|n IH]; intros node d data_size hook hook_data pos len
    ext_off cur_pos already_read cur_start buf w Har Hlen.
  - exists []. cbn. rewrite app_nil_r. repeat split; lia.
  - cbn [extent_loop].
    destruct (already_read <? len) eqn:Hlt;
      [|exists []; cbn; rewrite app_nil_r; repeat split; lia].
    destruct (decode_extent _ _ _ _ _) as [x|];
      [|exists []; cbn; rewrite app_nil_r; repeat split; lia].
    destruct (_ <? pos) eqn:Hskip; [apply IH; assumption|].
    bool_hyps.
    match goal with
    | |- context [grub_disk_read ?dk ?s ?o ?sz ?b ?w0] =>
        pose proof (grub_disk_read_log dk s o sz b w0) as (evs1 & Hl1 & Hr1 & _);
        pose proof (to_read_bounds len already_read
                      (u64 (run_blocks x * data_bsize node)
                       - (if cur_pos <? pos then u64 (pos - cur_pos) else 0))
                      ltac:(lia) Hlen) as Hto;
        cbv zeta in Hto;
        set (to_read := sz) in *; clearbody to_read;
        destruct (grub_disk_read dk s o to_read b w0) as [[err b1] w1] eqn:Hrd
    end.
    cbn [snd] in Hl1. cbn [log set_read_hook set_read_hook_data] in Hl1.
    destruct (is_error err).
    + exists evs1. cbn [fst snd]. rewrite Hl1.
      repeat split; (reflexivity || lia).
    + rewrite (u64_small (already_read + to_read)) by lia.
      match goal with
      | |- context [extent_loop n ?a1 ?a2 ?a3 ?a4 ?a5 ?a6 ?a7 ?a8 ?a9 ?a10 ?a11 ?a12 ?a13] =>
          destruct (IH a1 a2 a3 a4 a5 a6 a7 a8 a9 a10 a11 a12 a13)
            as (evs2 & Hl2 & Hr2 & Hres); [lia|exact Hlen|]
      end.
      exists (evs1 ++ evs2). rewrite Hl2. cbn [log set_read_hook].
      rewrite Hl1, app_assoc, requested_app.
      repeat split; [lia|lia|].
      destruct (fst (fst _)); [exact I|lia].
Qed.

Lemma clamp_to_file_min (file_size pos len : Z) :
  0 <= pos <= file_size -> file_size < 2 ^ 64 ->
  0 <= len -> len + pos < 2 ^ 64 ->
  clamp_to_file file_size pos len = Z.min len (file_size - pos).
Proof.
  intros Hpos Hfs Hlen Hsum. unfold clamp_to_file.
  rewrite (u64_small (len + pos)), (u64_small (file_size - pos)) by lia.
  destruct (_ >? _) eqn:Hc; bool_hyps; lia.
Qed.

(** C1, as amended.  Whenever [len + pos] does not wrap around [2^64],
    [grub_esfs_read_file] asks the device for at most
    [min (len, fileSize - pos)] bytes in total and, when it returns a count,
    the count lies in [0 .. min (len, fileSize - pos)], so the range
    [pos, pos + count) ends at or before [fileSize]; this holds whichever
    path (DIRECT or L1) the DATA attribute selects. *)
Theorem read_file_within_file_size (node : grub_fshelp_node)
    (hook hook_data pos len : Z) (buf : list byte) (w : world)
    (r : read_result) (buf' : list byte) (w' : world) :
  0 <= pos -> 0 <= len -> len + pos < 2 ^ 64 ->
  grub_esfs_read_file node hook hook_data pos len buf w = (r, buf', w') ->
  (exists evs,
      log w' = log w ++ evs /\
      requested evs <= Z.max 0 (Z.min len (fileSize (direntry node) - pos))) /\
  match r with
  | Bytes n =>
      0 <= n <= Z.min len (fileSize (direntry node) - pos) /\
      pos + n <= fileSize (direntry node)
  | Minus1 => True
  end.
Proof.
  intros Hpos Hlen Hsum.
  unfold grub_esfs_read_file.
  pose proof (le64_range (direntry node) 56) as Hfs.
  change (le64 (direntry node) 56) with (fileSize (direntry node)) in Hfs.
  set (file_size := fileSize (direntry node)) in *. clearbody file_size.
  assert (Hnil : forall w0 : world, exists evs,
             log w0 = log w0 ++ evs /\
             requested evs <= Z.max 0 (Z.min len (file_size - pos))).
  { intros w0. exists []. rewrite app_nil_r. cbn. split; [reflexivity|lia]. }
  destruct (get_direntry_attribute _ _ _) as [d|] eqn:Hattr.
  2:{ intros Hrun. injection Hrun as Hw Hb Hr; subst r buf' w'. split; [|exact I].
      cbn [grub_error log]. apply Hnil. }
  destruct (dataOffset _ d >? attr_size _ d) eqn:Hoff.
  { intros Hrun. injection Hrun as Hw Hb Hr; subst r buf' w'. split; [|exact I].
    cbn [grub_error log]. apply Hnil. }
  destruct (pos >? file_size) eqn:Heof.
  { intros Hrun. injection Hrun as Hw Hb Hr; subst r buf' w'. split; [|exact I]. apply Hnil. }
  bool_hyps.
  rewrite clamp_to_file_min by lia.
  set (len1 := Z.min len (file_size - pos)) in *.
  assert (Hlen1 : 0 <= len1 < 2 ^ 64 /\ pos + len1 <= file_size) by lia.
  clearbody len1.
  pose proof (byte_at_range (direntry node) (d + 5)) as Hdo.
  change (byte_at (direntry node) (d + 5))
    with (dataOffset (direntry node) d) in Hdo.
  pose proof (le16_range (direntry node) (d + 2)) as Hsz.
  change (le16 (direntry node) (d + 2))
    with (attr_size (direntry node) d) in Hsz.
  pose proof (le16_range (direntry node) (d + 6)) as Hcnt.
  change (le16 (direntry node) (d + 6))
    with (data_count (direntry node) d) in Hcnt.
  rewrite u32_small by lia.
  destruct (indirection _ d =? ESFS_INDIRECTION_DIRECT).
  - unfold read_direct.
    set (max_size := if _ <? _ then _ else data_count (direntry node) d).
    assert (Hm : 0 <= max_size < 2 ^ 16)
      by (subst max_size; destruct (_ <? _); lia).
    clearbody max_size.
    destruct (pos >? max_size) eqn:Hcap.
    + intros Hrun. injection Hrun as Hw Hb Hr; subst r buf' w'. split; [|exact I]. apply Hnil.
    + bool_hyps. rewrite (u64_small (max_size - pos)) by lia.
      intros Hrun. injection Hrun as Hw Hb Hr; subst r buf' w'. split; [apply Hnil|].
      destruct (_ >? _) eqn:E; bool_hyps; lia.
  - destruct (negb _).
    + intros Hrun. injection Hrun as Hw Hb Hr; subst r buf' w'. split; [|exact I].
      cbn [grub_error log]. apply Hnil.
    + unfold read_l1.
      match goal with
      | |- extent_loop ?n ?a1 ?a2 ?a3 ?a4 ?a5 ?a6 ?a7 ?a8 ?a9 ?a10 ?a11 ?a12 ?a13 = _ -> _ =>
          destruct (extent_loop_bounded n a1 a2 a3 a4 a5 a6 a7 a8 a9 a10 a11 a12 a13)
            as (evs & Hl & Hreq & Hres); [lia|lia|]
      end.
      intros Hrun. rewrite Hrun in Hl, Hres. cbn [fst snd] in Hl, Hres.
      split.
      * exists evs. split; [exact Hl|]. lia.
      * destruct r; [exact I|]. lia.
Qed.

(** C4.  On a node whose DATA attribute is DIRECT, with
    [embedded_cap = max (count, size - dataOffset)]: no request reaches the
    device (the log and the hook slot are left as they were), whatever the
    outcome; and once the earlier gates of the function are passed
    ([dataOffset <= size], [pos <= fileSize]), the call returns [-1] without
    an error when [pos > embedded_cap], and otherwise returns
    [n = min (len', embedded_cap - pos)] where [len'] is [len] after the
    file-size clamp, and leaves the state as it was.  The buffer then holds,
    byte for byte, the [n] bytes that follow offset [dataOffset + pos] of the
    attribute: byte [i] of the buffer is byte [d + dataOffset + pos + i] of
    the entry (of the memory behind the entry from index 1024 on); the bytes
    of the buffer from index [n] on are the ones it held before. *)
Theorem read_file_direct (node : grub_fshelp_node)
    (hook hook_data pos len : Z) (buf : list byte) (w : world) (d : Z) :
  get_direntry_attribute (direntry node) ESFS_ATTRIBUTE_DATA
                         sizeof_attribute_data = Some d ->
  indirection (direntry node) d = ESFS_INDIRECTION_DIRECT ->
  0 <= pos ->
  let e := direntry node in
  let embedded_cap := Z.max (data_count e d) (attr_size e d - dataOffset e d) in
  let len' := clamp_to_file (fileSize e) pos len in
  let n := Z.min len' (embedded_cap - pos) in
  let out := grub_esfs_read_file node hook hook_data pos len buf w in
  (log (snd out) = log w /\ read_hook (snd out) = read_hook w) /\
  (dataOffset e d <= attr_size e d -> pos <= fileSize e ->
   out = (if pos >? embedded_cap then (Minus1, buf, w)
          else (Bytes n,
                blit (node_bytes node (d + dataOffset e d + pos) n) buf, w)) /\
   (pos <= embedded_cap ->
    fst (fst out) = Bytes n /\ snd out = w /\
    List.length (snd (fst out)) = Nat.max (Z.to_nat n) (List.length buf) /\
    (forall i : Z,
        0 <= i < n ->
        nth (Z.to_nat i) (snd (fst out)) x00
        = (if d + dataOffset e d + pos + i <? 1024
           then nth (Z.to_nat (d + dataOffset e d + pos + i)) e x00
           else after node (d + dataOffset e d + pos + i - 1024))) /\
    skipn (Z.to_nat n) (snd (fst out)) = skipn (Z.to_nat n) buf)).
Proof.
  intros Hattr Hind Hpos e embedded_cap len' n out.
  pose proof (byte_at_range e (d + 5)) as Hdo.
  change (byte_at e (d + 5)) with (dataOffset e d) in Hdo.
  pose proof (le16_range e (d + 2)) as Hsz.
  change (le16 e (d + 2)) with (attr_size e d) in Hsz.
  pose proof (le16_range e (d + 6)) as Hcnt.
  change (le16 e (d + 6)) with (data_count e d) in Hcnt.
  assert (Hlog : log (snd out) = log w /\ read_hook (snd out) = read_hook w).
  { subst out. unfold grub_esfs_read_file. rewrite Hattr, Hind. fold e.
    change (ESFS_INDIRECTION_DIRECT =? ESFS_INDIRECTION_DIRECT) with true.
    cbv iota. unfold read_direct. fold e.
    destruct (dataOffset e d >? attr_size e d); [split; reflexivity|].
    destruct (pos >? fileSize e); [split; reflexivity|].
    destruct (pos >? _); split; reflexivity. }
  assert (Heq : dataOffset e d <= attr_size e d -> pos <= fileSize e ->
                out = (if pos >? embedded_cap then (Minus1, buf, w)
                       else (Bytes n,
                             blit (node_bytes node (d + dataOffset e d + pos) n)
                                  buf, w))).
  { intros Hoff Hfs.
    subst out. unfold grub_esfs_read_file. rewrite Hattr, Hind. fold e.
    change (ESFS_INDIRECTION_DIRECT =? ESFS_INDIRECTION_DIRECT) with true.
    cbv iota. fold len'. unfold read_direct. fold e.
    replace (dataOffset e d >? attr_size e d) with false
      by (symmetry; rewrite Z.gtb_ltb; apply Z.ltb_ge; exact Hoff).
    replace (pos >? fileSize e) with false
      by (symmetry; rewrite Z.gtb_ltb; apply Z.ltb_ge; exact Hfs).
    rewrite u32_small by lia.
    assert (Hmax : (if data_count e d <? attr_size e d - dataOffset e d
                    then attr_size e d - dataOffset e d else data_count e d)
                   = embedded_cap)
      by (subst embedded_cap; destruct (_ <? _) eqn:E; bool_hyps; lia).
    rewrite Hmax.
    destruct (pos >? embedded_cap) eqn:Hcap; [reflexivity|]. bool_hyps.
    assert (Hcapr : embedded_cap < 2 ^ 16) by (subst embedded_cap; lia).
    rewrite (u64_small (embedded_cap - pos)) by lia.
    assert (Hn : (if len' >? embedded_cap - pos then embedded_cap - pos else len')
                 = n)
      by (subst n; destruct (_ >? _) eqn:E; bool_hyps; lia).
    rewrite Hn. reflexivity. }
  split; [exact Hlog|].
  intros Hoff Hfs. specialize (Heq Hoff Hfs). split; [exact Heq|].
  intros Hcap. rewrite Heq.
  replace (pos >? embedded_cap) with false
    by (symmetry; rewrite Z.gtb_ltb; apply Z.ltb_ge; exact Hcap).
  cbn [fst snd].
  split; [reflexivity|]. split; [reflexivity|].
  split.
  { unfold blit. rewrite length_app, length_skipn, node_bytes_length. lia. }
  split.
  { intros i Hi. unfold blit, node_bytes.
    rewrite nth_range_app by lia.
    unfold node_mem, sizeof_direntry. fold e.
    rewrite Z2Nat.id by lia. reflexivity. }
  unfold blit.
  rewrite skipn_app, node_bytes_length.
  rewrite <- (node_bytes_length node (d + dataOffset e d + pos) n) at 1.
  rewrite skipn_all, Nat.sub_diag. reflexivity.
Qed.

Lemma extent_loop_nothing_left (n : nat) (node : grub_fshelp_node)
    (d data_size hook hook_data pos ext_off cur_pos cur_start : Z)
    (buf : list byte) (w : world) :
  extent_loop n node d data_size hook hook_data pos 0
              ext_off cur_pos 0 cur_start buf w = (Bytes 0, buf, w).
Proof. destruct n; reflexivity. Qed.

(** C6, as amended.  For every node and every [pos > fileSize] the call
    returns [-1] and reads nothing: the buffer, the device log and the hook
    slot are unchanged.  For [0 <= pos <= fileSize] and [len + pos] not
    wrapping around [2^64], [len] is replaced by
    [len' = min (len, fileSize - pos)] before anything is read: the call is
    the call made with [len'], the embedded path returns [-1] past its cap
    and otherwise the count [min (len', cap - pos)], the extent path is the
    extent loop run with [len'], and a count returned is never above [len'].
    At [pos = fileSize] the clamped length is 0 and the call is told exit by
    exit: it returns 0, with buffer and state untouched, on the extent path
    and on the embedded path up to its cap; it returns [-1] only from the
    other exits (no DATA attribute, [dataOffset > size], an unknown
    indirection, the cap of the embedded path), never as an end-of-file
    answer to [pos = fileSize]. *)
Theorem read_file_eof_and_clamp (node : grub_fshelp_node)
    (hook hook_data pos len : Z) (buf : list byte) (w : world) :
  let e := direntry node in
  let out := grub_esfs_read_file node hook hook_data pos len buf w in
  (fileSize e < pos ->
   fst out = (Minus1, buf) /\ log (snd out) = log w /\
   read_hook (snd out) = read_hook w) /\
  (0 <= pos <= fileSize e -> 0 <= len -> len + pos < 2 ^ 64 ->
   let len' := Z.min len (fileSize e - pos) in
   out = grub_esfs_read_file node hook hook_data pos len' buf w /\
   forall d : Z,
     get_direntry_attribute e ESFS_ATTRIBUTE_DATA sizeof_attribute_data
     = Some d ->
     dataOffset e d <= attr_size e d ->
     let data_size := attr_size e d - dataOffset e d in
     let cap := Z.max (data_count e d) data_size in
     (indirection e d = ESFS_INDIRECTION_DIRECT ->
      fst (fst out)
      = if pos >? cap then Minus1 else Bytes (Z.min len' (cap - pos))) /\
     (indirection e d = ESFS_INDIRECTION_L1 ->
      out = read_l1 node d data_size hook hook_data pos len' buf w) /\
     match fst (fst out) with
     | Bytes m => 0 <= m <= len'
     | Minus1 => True
     end) /\
  (pos = fileSize e -> 0 <= len -> len + pos < 2 ^ 64 ->
   out
   = match get_direntry_attribute e ESFS_ATTRIBUTE_DATA sizeof_attribute_data
     with
     | None =>
         (Minus1, buf, grub_error GRUB_ERR_BAD_FS "extents are missing" w)
     | Some d =>
         if dataOffset e d >? attr_size e d
         then (Minus1, buf,
               grub_error GRUB_ERR_BAD_FS "data offset is too large" w)
         else if indirection e d =? ESFS_INDIRECTION_DIRECT
         then if pos >? Z.max (data_count e d)
                              (attr_size e d - dataOffset e d)
              then (Minus1, buf, w)
              else (Bytes 0, buf, w)
         else if indirection e d =? ESFS_INDIRECTION_L1
         then (Bytes 0, buf, w)
         else (Minus1, buf,
               grub_error GRUB_ERR_BAD_FS "unknown redirection" w)
     end).
Proof.
  intros e out.
  pose proof (le64_range e 56) as Hfs.
  change (le64 e 56) with (fileSize e) in Hfs.
  assert (Hcap : forall d,
             dataOffset e d <= attr_size e d ->
             (if data_count e d <? u32 (attr_size e d - dataOffset e d)
              then u32 (attr_size e d - dataOffset e d) else data_count e d)
             = Z.max (data_count e d) (attr_size e d - dataOffset e d)
             /\ 0 <= Z.max (data_count e d) (attr_size e d - dataOffset e d)
                < 2 ^ 16
             /\ u32 (attr_size e d - dataOffset e d)
                = attr_size e d - dataOffset e d).
  { intros d Hoff.
    pose proof (byte_at_range e (d + 5)) as Hdo.
    change (byte_at e (d + 5)) with (dataOffset e d) in Hdo.
    pose proof (le16_range e (d + 2)) as Hsz.
    change (le16 e (d + 2)) with (attr_size e d) in Hsz.
    pose proof (le16_range e (d + 6)) as Hcnt.
    change (le16 e (d + 6)) with (data_count e d) in Hcnt.
    rewrite u32_small by lia.
    split; [destruct (_ <? _) eqn:E; bool_hyps; lia|]. split; lia. }
  split; [|split].
  - intros Hgt. subst out. unfold grub_esfs_read_file. fold e.
    destruct (get_direntry_attribute _ _ _) as [d|]; [|repeat split].
    destruct (dataOffset e d >? attr_size e d); [repeat split|].
    replace (pos >? fileSize e) with true
      by (symmetry; rewrite Z.gtb_ltb; apply Z.ltb_lt; exact Hgt).
    repeat split.
  - intros Hpos Hlen Hsum len'.
    split.
    { subst out. unfold grub_esfs_read_file. fold e.
      destruct (get_direntry_attribute _ _ _) as [d|]; [|reflexivity].
      destruct (dataOffset e d >? attr_size e d); [reflexivity|].
      rewrite !clamp_to_file_min by (subst len'; lia).
      fold len'. rewrite (Z.min_l len' (fileSize e - pos)) by (subst len'; lia).
      reflexivity. }
    intros d Hattr Hoff data_size cap.
    destruct (Hcap d Hoff) as (Hmax & Hcapr & Hds).
    fold data_size in Hmax, Hcapr, Hds. rewrite Hds in Hmax.
    fold cap in Hmax, Hcapr.
    assert (Hbody : out
                    = if indirection e d =? ESFS_INDIRECTION_DIRECT
                      then read_direct node d data_size pos len' buf w
                      else if negb (indirection e d =? ESFS_INDIRECTION_L1)
                      then (Minus1, buf,
                            grub_error GRUB_ERR_BAD_FS "unknown redirection" w)
                      else read_l1 node d data_size hook hook_data pos len'
                                   buf w).
    { subst out. unfold grub_esfs_read_file. fold e. rewrite Hattr.
      replace (dataOffset e d >? attr_size e d) with false
        by (symmetry; rewrite Z.gtb_ltb; apply Z.ltb_ge; exact Hoff).
      replace (pos >? fileSize e) with false
        by (symmetry; rewrite Z.gtb_ltb; apply Z.ltb_ge; lia).
      rewrite clamp_to_file_min by lia. fold len'.
      fold data_size. rewrite Hds. reflexivity. }
    assert (Hdirect : read_direct node d data_size pos len' buf w
                      = if pos >? cap then (Minus1, buf, w)
                        else (Bytes (Z.min len' (cap - pos)),
                              blit (node_bytes node (d + dataOffset e d + pos)
                                               (Z.min len' (cap - pos))) buf,
                              w)).
    { unfold read_direct. fold e. rewrite Hmax.
      destruct (pos >? cap) eqn:Hc; [reflexivity|]. bool_hyps.
      rewrite (u64_small (cap - pos)) by lia.
      assert (Hn : (if len' >? cap - pos then cap - pos else len')
                   = Z.min len' (cap - pos))
        by (destruct (_ >? _) eqn:E; bool_hyps; lia).
      rewrite Hn. reflexivity. }
    split; [|split].
    + intros Hind. rewrite Hbody, Hind.
      change (ESFS_INDIRECTION_DIRECT =? ESFS_INDIRECTION_DIRECT) with true.
      cbv iota. rewrite Hdirect. destruct (pos >? cap); reflexivity.
    + intros Hind. rewrite Hbody, Hind. reflexivity.
    + rewrite Hbody.
      destruct (indirection e d =? ESFS_INDIRECTION_DIRECT).
      * rewrite Hdirect. destruct (pos >? cap) eqn:Hc; [exact I|]. bool_hyps.
        cbn [fst]. subst len'. lia.
      * destruct (negb _); [exact I|]. unfold read_l1.
        match goal with
        | |- context [extent_loop ?n ?a1 ?a2 ?a3 ?a4 ?a5 ?a6 ?a7 ?a8 ?a9 ?a10 ?a11 ?a12 ?a13] =>
            destruct (extent_loop_bounded n a1 a2 a3 a4 a5 a6 a7 a8 a9 a10
                        a11 a12 a13) as (evs & _ & Hreq & Hres);
              [subst len'; lia|subst len'; lia|];
            destruct (fst (fst (extent_loop n a1 a2 a3 a4 a5 a6 a7 a8 a9 a10
                                            a11 a12 a13))) as [|m]
        end; [exact I|lia].
  - intros Hpos Hlen Hsum. subst out. unfold grub_esfs_read_file. fold e.
    destruct (get_direntry_attribute _ _ _) as [d|]; [|reflexivity].
    destruct (dataOffset e d >? attr_size e d) eqn:Hoff; [reflexivity|].
    rewrite Z.gtb_ltb in Hoff. apply Z.ltb_ge in Hoff.
    destruct (Hcap d Hoff) as (Hmax & Hcapr & Hds).
    replace (pos >? fileSize e) with false
      by (symmetry; rewrite Z.gtb_ltb; apply Z.ltb_ge; lia).
    rewrite clamp_to_file_min by lia.
    replace (Z.min len (fileSize e - pos)) with 0 by lia.
    destruct (indirection e d =? ESFS_INDIRECTION_DIRECT).
    + unfold read_direct. fold e. rewrite Hmax.
      destruct (pos >? _) eqn:Hc; [reflexivity|]. bool_hyps.
      rewrite (u64_small (_ - pos)) by lia.
      replace (0 >? _) with false
        by (symmetry; rewrite Z.gtb_ltb; apply Z.ltb_ge; lia).
      reflexivity.
    + destruct (indirection e d =? ESFS_INDIRECTION_L1); cbn [negb];
        [|reflexivity].
      unfold read_l1. apply extent_loop_nothing_left.
Qed.

(** ** The read hook on the extent path *)

(** With a caller's hook, every request of the extent loop that the device
    serves fires the hook once.  The loop returns a count only after it has
    cleared the slot behind its last request; it returns [-1] only when a
    request failed, and then the hook stays installed. *)
Lemma extent_loop_hook_calls (n : nat) :
  forall (node : grub_fshelp_node) (d data_size hook hook_data pos len : Z)
         (ext_off cur_pos already_read cur_start : Z)
         (buf : list byte) (w : world),
    hook <> 0 ->
    exists evs,
      log (snd (extent_loop n node d data_size hook hook_data pos len
                            ext_off cur_pos already_read cur_start buf w))
      = log w ++ evs /\
      match fst (fst (extent_loop n node d data_size hook hook_data pos len
                                  ext_off cur_pos already_read cur_start buf w))
      with
      | Bytes _ =>
          device_reads evs = hook_calls hook hook_data evs /\
          read_hook (snd (extent_loop n node d data_size hook hook_data pos
                                      len ext_off cur_pos already_read
                                      cur_start buf w))
          = match device_reads evs with
            | O => read_hook w
            | S _ => 0
            end
      | Minus1 =>
          device_reads evs = S (hook_calls hook hook_data evs) /\
          read_hook (snd (extent_loop n node d data_size hook hook_data pos len
                                      ext_off cur_pos already_read cur_start
                                      buf w)) = hook
      end.
Proof.
  induction n as [|n IH]; intros node d data_size hook hook_data pos len
    ext_off cur_pos already_read cur_start buf w Hhook.
  - exists []. cbn. rewrite app_nil_r. repeat split; reflexivity.
  - cbn [extent_loop].
    destruct (already_read <? len);
      [|exists []; cbn; rewrite app_nil_r; repeat split; reflexivity].
    destruct (decode_extent _ _ _ _ _) as [x|];
      [|exists []; cbn; rewrite app_nil_r; repeat split; reflexivity].
    destruct (_ <? pos); [apply IH; exact Hhook|].
    match goal with
    | |- context [grub_disk_read ?dk ?s ?o ?sz buf _] =>
        set (sector := s); set (offset := o); set (to_read := sz);
        destruct (is_error (status dk sector offset to_read)) eqn:Hst
    end.
    + rewrite grub_disk_read_fail by exact Hst.
      cbv beta iota zeta. rewrite Hst.
      exists [DiskRead sector offset to_read].
      cbn [fst snd grub_error emit log read_hook set_read_hook
           set_read_hook_data device_reads hook_calls].
      repeat split; reflexivity.
    + assert (Hok : status (data_disk node) sector offset to_read
                    = GRUB_ERR_NONE)
        by (destruct (status _ _ _ _); [reflexivity|discriminate ..]).
      destruct (grub_disk_read_ok (data_disk node) sector offset to_read buf
                  (set_read_hook_data hook_data (set_read_hook hook w)) Hok)
        as (w1 & evs1 & Hrd & _ & _ & _ & _ & Hlog & _ & _ & Hevs).
      cbn [set_read_hook set_read_hook_data read_hook read_hook_data log]
        in Hlog, Hevs.
      replace (hook =? 0) with false in Hevs
        by (symmetry; apply Z.eqb_neq; exact Hhook).
      rewrite Hrd. cbv beta iota zeta. cbn [is_error].
      match goal with
      | |- context [extent_loop n ?a1 ?a2 ?a3 ?a4 ?a5 ?a6 ?a7 ?a8 ?a9 ?a10 ?a11 ?a12 ?a13] =>
          destruct (IH a1 a2 a3 a4 a5 a6 a7 a8 a9 a10 a11 a12 a13 Hhook)
            as (evs2 & Hl2 & Hres);
          destruct (extent_loop n a1 a2 a3 a4 a5 a6 a7 a8 a9 a10 a11 a12 a13)
            as [[r b] w2]
      end.
      cbn [fst snd] in Hl2, Hres |- *.
      exists ((DiskRead sector offset to_read :: evs1) ++ evs2).
      split.
      { rewrite Hl2. cbn [set_read_hook log]. rewrite Hlog, <- app_assoc.
        reflexivity. }
      subst evs1.
      assert (Hone : hook_calls hook hook_data
                       [HookCall hook hook_data sector offset to_read] = 1%nat).
      { cbn [hook_calls]. rewrite !Z.eqb_refl. reflexivity. }
      rewrite device_reads_app, hook_calls_app.
      cbn [device_reads].
      change (DiskRead sector offset to_read
                :: [HookCall hook hook_data sector offset to_read])
        with ([DiskRead sector offset to_read]
              ++ [HookCall hook hook_data sector offset to_read]).
      rewrite hook_calls_app, Hone. cbn [hook_calls Nat.add].
      destruct r.
      * destruct Hres as [Hc Hh]. split; [lia|exact Hh].
      * destruct Hres as [Hc Hh]. split; [lia|].
        rewrite Hh. cbn [set_read_hook read_hook].
        destruct (device_reads evs2); reflexivity.
Qed.

(** ** The reader does not depend on the state it starts from *)

(** The extent loop computes its result and the buffer from the node and
    the device alone; on the state it only appends device events and either
    reports an error or leaves [grub_errno] as it was. *)
Lemma extent_loop_frame (n : nat) :
  forall (node : grub_fshelp_node) (d data_size hook hook_data pos len : Z)
         (ext_off cur_pos already_read cur_start : Z) (buf : list byte),
  exists (r : read_result) (b : list byte) (failed : bool),
  forall w : world,
    let out := extent_loop n node d data_size hook hook_data pos len
                           ext_off cur_pos already_read cur_start buf w in
    fst out = (r, b) /\
    visits (log (snd out)) = visits (log w) /\
    (if failed then is_error (grub_errno (snd out)) = true
     else grub_errno (snd out) = grub_errno w).
Proof.
  induction n as [|n IH]; intros node d data_size hook hook_data pos len
    ext_off cur_pos already_read cur_start buf.
  - exists (Bytes already_read), buf, false. intros w. cbn.
    repeat split; reflexivity.
  - cbn [extent_loop].
    destruct (already_read <? len);
      [|exists (Bytes already_read), buf, false; intros w; cbn;
        repeat split; reflexivity].
    destruct (decode_extent _ _ _ _ _) as [x|];
      [|exists (Bytes already_read), buf, false; intros w; cbn;
        repeat split; reflexivity].
    destruct (_ <? pos); [apply IH|].
    match goal with
    | |- context [grub_disk_read ?dk ?s ?o ?sz buf _] =>
        set (sector := s); set (offset := o); set (to_read := sz);
        destruct (is_error (status dk sector offset to_read)) eqn:Hst
    end.
    + exists Minus1, buf, true. intros w.
      rewrite grub_disk_read_fail by exact Hst.
      cbv beta iota zeta. rewrite Hst.
      cbn [fst snd grub_error grub_errno emit log set_read_hook
           set_read_hook_data].
      rewrite visits_app. cbn [visits]. rewrite app_nil_r.
      split; [reflexivity|]. split; [reflexivity|exact Hst].
    + assert (Hok : status (data_disk node) sector offset to_read
                    = GRUB_ERR_NONE)
        by (destruct (status _ _ _ _); [reflexivity|discriminate ..]).
      match goal with
      | |- context [extent_loop n ?a1 ?a2 ?a3 ?a4 ?a5 ?a6 ?a7 ?a8 ?a9 ?a10 ?a11 _ _] =>
          destruct (IH a1 a2 a3 a4 a5 a6 a7 a8 a9 a10 a11
                       (blit (disk_bytes (data_disk node) sector offset to_read)
                             buf))
            as (r & b & failed & Hrec)
      end.
      exists r, b, failed. intros w.
      destruct (grub_disk_read_ok (data_disk node) sector offset to_read buf
                  (set_read_hook_data hook_data (set_read_hook hook w)) Hok)
        as (w1 & evs & Hrd & He & _ & _ & _ & Hlog & _ & Hv & _).
      rewrite Hrd. cbv beta iota zeta. cbn [is_error].
      specialize (Hrec (set_read_hook 0 w1)). cbv zeta in Hrec.
      destruct Hrec as (H1 & H2 & H3).
      split; [exact H1|]. split.
      * rewrite H2. cbn [set_read_hook log]. rewrite Hlog, visits_app.
        cbn [visits set_read_hook set_read_hook_data log]. rewrite Hv.
        apply app_nil_r.
      * destruct failed; [exact H3|]. rewrite H3.
        cbn [set_read_hook grub_errno]. rewrite He. reflexivity.
Qed.

Lemma read_file_frame (node : grub_fshelp_node) (hook hook_data pos len : Z)
    (buf : list byte) :
  exists (r : read_result) (b : list byte) (failed : bool),
  forall w : world,
    let out := grub_esfs_read_file node hook hook_data pos len buf w in
    fst out = (r, b) /\
    visits (log (snd out)) = visits (log w) /\
    (if failed then is_error (grub_errno (snd out)) = true
     else grub_errno (snd out) = grub_errno w).
Proof.
  unfold grub_esfs_read_file.
  destruct (get_direntry_attribute _ _ _) as [d|].
  2:{ exists Minus1, buf, true. intros w. cbn. repeat split; reflexivity. }
  destruct (dataOffset _ d >? attr_size _ d).
  { exists Minus1, buf, true. intros w. cbn. repeat split; reflexivity. }
  destruct (pos >? _).
  { exists Minus1, buf, false. intros w. cbn. repeat split; reflexivity. }
  destruct (indirection _ d =? ESFS_INDIRECTION_DIRECT).
  - unfold read_direct. destruct (pos >? _).
    + exists Minus1, buf, false. intros w. cbn. repeat split; reflexivity.
    + eexists; eexists; exists false. intros w. cbv zeta. cbn [fst snd].
      repeat split; reflexivity.
  - destruct (negb _).
    + exists Minus1, buf, true. intros w. cbn. repeat split; reflexivity.
    + unfold read_l1. apply extent_loop_frame.
Qed.

(** ** Signatures *)

Lemma u8_inj (a b : byte) : u8 a = u8 b -> a = b.
Proof.
  unfold u8. intros H. apply N2Z.inj in H.
  pose proof (Byte.of_to_N a) as Ha. rewrite H, Byte.of_to_N in Ha.
  congruence.
Qed.

(** [grub_memcmp] returns 0 exactly when the first [n] bytes agree. *)
Lemma grub_memcmp_zero (n : nat) :
  forall a b : list byte,
    (n <= List.length a)%nat -> (n <= List.length b)%nat ->
    (grub_memcmp a b n = 0 <-> firstn n a = firstn n b).
Proof.
  induction n as [|n IH]; intros a b Ha Hb; cbn [grub_memcmp firstn].
  - split; reflexivity.
  - destruct a as [|x a]; [cbn in Ha; lia|].
    destruct b as [|y b]; [cbn in Hb; lia|].
    cbn [hd tl List.length] in *.
    destruct (u8 x =? u8 y) eqn:E; bool_hyps.
    + apply u8_inj in E. subst y.
      rewrite IH by lia. split; intros H; [f_equal; exact H|].
      injection H as H. exact H.
    + split; intros H; [lia|]. injection H as H _. congruence.
Qed.

Lemma check_direntry_iff (e : list byte) :
  (8 <= List.length e)%nat ->
  (esfs_check_direntry e = true <-> firstn 8 e = ESFS_DIRECTORY_ENTRY_SIGNATURE).
Proof.
  intros Hlen. unfold esfs_check_direntry.
  pose proof (grub_memcmp_zero 8 e ESFS_DIRECTORY_ENTRY_SIGNATURE Hlen
                ltac:(cbn; lia)) as H.
  change (firstn 8 ESFS_DIRECTORY_ENTRY_SIGNATURE)
    with ESFS_DIRECTORY_ENTRY_SIGNATURE in H.
  rewrite <- H.
  destruct (grub_memcmp _ _ _ =? 0) eqn:E; bool_hyps; cbn [negb].
  - split; auto.
  - split; [discriminate|]. intros H0. contradiction.
Qed.

(** An offset that is misaligned or past 1020 ends the lookup at once. *)
Lemma attribute_walk_bad_offset (fuel : nat) (e : list byte)
    (attrid minsize off : Z) :
  off mod 8 <> 0 \/ 1020 < off ->
  attribute_walk (S fuel) e attrid minsize off = Some None.
Proof.
  intros Hbad. cbn [attribute_walk].
  unfold sizeof_direntry, sizeof_attribute. change (1024 - 4) with 1020.
  destruct (off <=? 1020) eqn:Hle; [|reflexivity].
  bool_hyps. destruct Hbad as [Hbad|Hbad]; [|lia].
  change 7 with (Z.ones 3). rewrite Z.land_ones by lia.
  change (2 ^ 3) with 8.
  replace (off mod 8 =? 0) with false
    by (symmetry; apply Z.eqb_neq; exact Hbad).
  reflexivity.
Qed.

Lemma lookup_none_on_bad_offset (e : list byte) (attrid minsize : Z) :
  attributeOffset e mod 8 <> 0 \/ 1020 < attributeOffset e ->
  get_direntry_attribute e attrid minsize = None.
Proof.
  intros Hbad. unfold get_direntry_attribute, walk_fuel.
  rewrite attribute_walk_bad_offset by exact Hbad. reflexivity.
Qed.

(** C9, as amended.  For every 1024-byte buffer, [esfs_check_direntry]
    accepts the entry exactly when its first 8 bytes are "DirEntry"; it does
    not look at [attributeOffset].  An accepted entry whose
    [attributeOffset] is not 8-byte aligned or exceeds 1020 yields no
    attribute in any later lookup. *)
Theorem check_direntry_signature_only (e : list byte) :
  List.length e = 1024%nat ->
  (esfs_check_direntry e = true <->
   firstn 8 e = ESFS_DIRECTORY_ENTRY_SIGNATURE) /\
  (forall e' : list byte,
      firstn 8 e' = firstn 8 e -> List.length e' = 1024%nat ->
      esfs_check_direntry e' = esfs_check_direntry e) /\
  (attributeOffset e mod 8 <> 0 \/ 1020 < attributeOffset e ->
   forall attrid minsize : Z, get_direntry_attribute e attrid minsize = None).
Proof.
  intros Hlen. split; [apply check_direntry_iff; lia|]. split.
  - intros e' Hsame Hlen'.
    pose proof (check_direntry_iff e ltac:(lia)) as H.
    pose proof (check_direntry_iff e' ltac:(lia)) as H'.
    rewrite Hsame in H'.
    destruct (esfs_check_direntry e), (esfs_check_direntry e'); intuition congruence.
  - intros Hbad attrid minsize. apply lookup_none_on_bad_offset. exact Hbad.
Qed.

(** ** Mount *)

(** The mask test reads: a multiple of 512 below [2^28]. *)
Lemma block_size_mask_spec (bs : Z) :
  0 <= bs < 2 ^ 64 ->
  (Z.land bs block_size_mask = 0 <-> bs mod 512 = 0 /\ bs < 2 ^ 28).
Proof.
  intros Hbs.
  change block_size_mask with (Z.lor (Z.ones 9) (Z.shiftl (Z.ones 36) 28)).
  rewrite Z.land_lor_distr_r, Z.lor_eq_0_iff, Z.land_ones by lia.
  change (2 ^ 9) with 512.
  assert (Hhigh : Z.land bs (Z.shiftl (Z.ones 36) 28)
                  = Z.shiftl (Z.shiftr bs 28) 28).
  { apply Z.bits_inj'. intros i Hi. rewrite Z.land_spec.
    destruct (Z.ltb_spec i 28).
    - rewrite !Z.shiftl_spec_low by lia. apply andb_false_r.
    - rewrite !Z.shiftl_spec, Z.shiftr_spec by lia.
      replace (i - 28 + 28) with i by lia.
      destruct (Z.ltb_spec i 64).
      + rewrite Z.ones_spec_low by lia. apply andb_true_r.
      + rewrite Z.ones_spec_high by lia.
        replace bs with (bs mod 2 ^ 64) by (apply Z.mod_small; exact Hbs).
        rewrite Z.mod_pow2_bits_high by lia. reflexivity. }
  rewrite Hhigh, Z.shiftl_mul_pow2, Z.shiftr_div_pow2 by lia.
  pose proof (Z.div_mod bs (2 ^ 28) ltac:(lia)) as Hdm.
  pose proof (Z.mod_pos_bound bs (2 ^ 28) ltac:(lia)) as Hmb.
  split; intros [H1 H2]; (split; [exact H1|]).
  - assert (bs / 2 ^ 28 = 0) by lia. lia.
  - rewrite Z.div_small by lia. reflexivity.
Qed.

(** The guard of "not an esfs filesystem", condition by condition. *)
Lemma superblock_rejected_iff (sb : list byte) :
  (16 <= List.length sb)%nat ->
  (superblock_rejected sb = true <->
   firstn 16 sb <> ESFS_SIGNATURE_STRING \/
   requiredReadVersion sb > 10 \/
   blockSize sb = 0 \/
   Z.land (blockSize sb) block_size_mask <> 0 \/
   blockCount sb = 0).
Proof.
  intros Hlen. unfold superblock_rejected, ESFS_DRIVER_VERSION.
  pose proof (grub_memcmp_zero 16 sb ESFS_SIGNATURE_STRING Hlen
                ltac:(cbn; lia)) as Hsig.
  change (firstn 16 ESFS_SIGNATURE_STRING) with ESFS_SIGNATURE_STRING in Hsig.
  rewrite <- Hsig.
  rewrite !orb_true_iff, !negb_true_iff, !Z.eqb_neq, !Z.eqb_eq,
          Z.gtb_ltb, Z.ltb_lt.
  intuition lia.
Qed.

(** What mount does once the superblock has been read. *)
Lemma mount_after_superblock (dsk : grub_disk) (blk : grub_esfs_data) (w : world) :
  grub_errno w = GRUB_ERR_NONE ->
  status dsk 16 0 sizeof_superblock = GRUB_ERR_NONE ->
  let sb := blit (disk_bytes dsk 16 0 sizeof_superblock) (sblock blk) in
  let sector := u64 (root_block sb * Z.shiftr (blockSize sb) 9) in
  let offset := root_offset_into_block sb in
  exists w1 evs,
    log w1 = log w ++ DiskRead 16 0 sizeof_superblock :: evs /\
    device_reads evs = 0%nat /\
    grub_esfs_mount dsk (Some blk) w =
      if superblock_rejected sb
      then (None, grub_error GRUB_ERR_BAD_FS "not an esfs filesystem" w1)
      else
        let '(err, de, w2) :=
          grub_disk_read dsk sector offset sizeof_direntry
                         (direntry (diropen blk)) w1 in
        if is_error err then mount_fail w2
        else if negb (esfs_check_direntry de)
        then (None,
              grub_error GRUB_ERR_BAD_FS "incorrect directory signature" w2)
        else (Some (mkData sb (blockSize sb) dsk
                           (mkNode (blockSize sb) dsk de (after (diropen blk)))),
              w2).
Proof.
  intros Hw Hst sb sector offset.
  destruct (grub_disk_read_ok dsk 16 0 sizeof_superblock (sblock blk) w Hst)
    as (w1 & evs & Hrd & He & _ & _ & _ & Hlog & Hdr & _).
  exists w1, evs. split; [exact Hlog|]. split; [exact Hdr|].
  unfold grub_esfs_mount. rewrite Hrd. cbv beta iota.
  rewrite He, Hw. cbv beta iota delta [is_error].
  fold sb.
  destruct (superblock_rejected sb); [reflexivity|].
  fold sector. fold offset.
  destruct (grub_disk_read dsk sector offset sizeof_direntry _ w1)
    as [[err de] w2].
  destruct (is_error err); [reflexivity|].
  destruct (negb (esfs_check_direntry de)); reflexivity.
Qed.

(** The branch of [mount_superblock_check] where the request for the root
    entry fails. *)
Ltac root_read_failed Hroot Hout Hreads :=
  rewrite grub_disk_read_fail in Hout by (rewrite Hroot; reflexivity);
  rewrite Hroot in Hout; rewrite Hout;
  cbn [is_error mount_fail grub_error grub_errno emit log is_out_of_range
       fst snd grub_errmsg];
  rewrite device_reads_app, Hreads; cbn [device_reads];
  split; [split; [intros Hx; contradiction|intros [_ Hx]; lia]|];
  intros _; split; [lia|];
  split; [apply in_or_app; right; left; reflexivity|];
  split;
  [ intros (_ & Hx & Hy);
    first [discriminate Hx | discriminate Hy | reflexivity]
  | first [discriminate | intros _; repeat split; reflexivity] ].

(** C2, as amended.  For every superblock successfully read from device
    byte offset 8192: mount stops before the root entry is read, with
    "not an esfs filesystem", exactly when the first 16 bytes differ from
    the signature, or [requiredReadVersion > 10], or [blockSize = 0], or
    [blockSize & ~0x0ffffe00 <> 0], or [blockCount = 0].  When none of these
    holds, mount goes on to request the root directory entry, and then ends
    in "not an esfs filesystem" exactly when that request reports
    out-of-range. *)
Theorem mount_superblock_check (dsk : grub_disk) (blk : grub_esfs_data)
    (w : world) :
  grub_errno w = GRUB_ERR_NONE ->
  status dsk 16 0 sizeof_superblock = GRUB_ERR_NONE ->
  let sb := blit (disk_bytes dsk 16 0 sizeof_superblock) (sblock blk) in
  let rejected :=
    firstn 16 sb <> ESFS_SIGNATURE_STRING \/
    requiredReadVersion sb > 10 \/
    blockSize sb = 0 \/
    Z.land (blockSize sb) block_size_mask <> 0 \/
    blockCount sb = 0 in
  let sector := u64 (root_block sb * Z.shiftr (blockSize sb) 9) in
  let offset := root_offset_into_block sb in
  let out := grub_esfs_mount dsk (Some blk) w in
  let not_esfs :=
    fst out = None /\ grub_errno (snd out) = GRUB_ERR_BAD_FS /\
    grub_errmsg (snd out) = "not an esfs filesystem" in
  (rejected <->
   not_esfs /\ device_reads (log (snd out)) = S (device_reads (log w))) /\
  (~ rejected ->
   device_reads (log (snd out)) = S (S (device_reads (log w))) /\
   In (DiskRead sector offset sizeof_direntry) (log (snd out)) /\
   (not_esfs <->
    status dsk sector offset sizeof_direntry = GRUB_ERR_OUT_OF_RANGE)).
Proof.
  intros Hw Hst sb rejected sector offset out not_esfs.
  destruct (mount_after_superblock dsk blk w Hw Hst)
    as (w1 & evs & Hlog & Hdr & Hout).
  fold sb sector offset out in Hout.
  assert (Hlen : (16 <= List.length sb)%nat).
  { pose proof (blit_length (disk_bytes dsk 16 0 sizeof_superblock) (sblock blk))
      as Hb.
    rewrite disk_bytes_length in Hb. fold sb in Hb.
    change (Z.to_nat sizeof_superblock) with (Z.to_nat 16 + Z.to_nat 8176)%nat in Hb.
    change (Z.to_nat 16) with 16%nat in Hb. lia. }
  pose proof (superblock_rejected_iff sb Hlen) as Hrej. fold rejected in Hrej.
  assert (Hreads1 : device_reads (log w1) = S (device_reads (log w))).
  { rewrite Hlog, device_reads_app. cbn [device_reads]. rewrite Hdr. lia. }
  subst not_esfs.
  destruct (superblock_rejected sb) eqn:Hsr.
  - assert (Hr : rejected) by (apply Hrej; reflexivity).
    rewrite Hout. cbn [fst snd grub_error grub_errno grub_errmsg log].
    split; [|intros Hn; contradiction].
    split; [intros _|intros _; exact Hr].
    repeat split; [reflexivity .. | exact Hreads1].
  - assert (Hr : ~ rejected) by (intros Hr; apply Hrej in Hr; discriminate).
    destruct (status dsk sector offset sizeof_direntry) eqn:Hroot;
      [|root_read_failed Hroot Hout Hreads1 ..].
    destruct (grub_disk_read_ok dsk sector offset sizeof_direntry
                (direntry (diropen blk)) w1 Hroot)
      as (w2 & evs2 & Hrd2 & He2 & Hm2 & _ & _ & Hlog2 & Hdr2 & _).
    rewrite Hrd2 in Hout. cbv beta iota delta [is_error] in Hout.
    assert (Hreads2 : device_reads (log w2) = S (S (device_reads (log w)))).
    { rewrite Hlog2, device_reads_app. cbn [device_reads].
      rewrite Hdr2, Hreads1. lia. }
    assert (Hin : In (DiskRead sector offset sizeof_direntry) (log w2)).
    { rewrite Hlog2. apply in_or_app. right. left. reflexivity. }
    destruct (negb (esfs_check_direntry _)); rewrite Hout;
      cbn [fst snd grub_error grub_errno grub_errmsg log].
    + split; [split; [intros Hx; contradiction|intros [_ Hx]; lia]|].
      intros _. split; [exact Hreads2|]. split; [exact Hin|].
      split; [intros (_ & _ & Hx); discriminate|discriminate].
    + split; [split; [intros Hx; contradiction|intros [_ Hx]; lia]|].
      intros _. split; [exact Hreads2|]. split; [exact Hin|].
      split; [intros (Hx & _); discriminate|discriminate].
Qed.

(** ** The directory iterator *)

(** C7, at the failing input.  A directory of two slots whose data stream
    is a free slot followed by the valid entry of the file "a".  Its two
    extent records name blocks 4 to 6 and block 7, so the second slot lies
    across both.  The walk reads the first slot with one request and skips
    it; for the second slot the reader makes two requests of 512 bytes and
    writes both at the start of the child's buffer, so the buffer holds the
    second half of the entry followed by what it held before, and not the
    slot.  The reader returns 1024 all the same, the entry fails the
    signature test and the walk ends with 0, no error and no call of the
    visitor: the valid slot behind the free one is not visited.  With the
    same blocks named by one record the visitor is given "a". *)
Theorem iterate_dir_misses_slot_across_extents :
  (decode_extent two_record_dir 96 48 32 0 = Some (mkExtent 35 4 3) /\
   decode_extent two_record_dir 96 48 35 4 = Some (mkExtent 38 7 1)) /\
  (data_stream two_record_dir 96 = slot_free ++ slot_a /\
   stream_slot (data_stream two_record_dir 96) 0 = slot_free /\
   stream_slot (data_stream two_record_dir 96) 1 = slot_a /\
   esfs_check_direntry slot_free = false /\
   child_visit slot_a
   = Some (bytes_of_string "a", GRUB_FSHELP_REG, slot_a)) /\
  grub_esfs_read_file two_record_dir 0 0 1024 1024 (zeros 1024) idle
  = (Bytes 1024,
     skipn 512 slot_a ++ zeros 512,
     mkWorld GRUB_ERR_NONE "" 0 0 [DiskRead 6 0 512; DiskRead 7 0 512]) /\
  walk_outcome (grub_esfs_iterate_dir (list (list byte)) recording_hook
                  plain_alloc two_record_dir [] idle)
  = Some (Return0, [], GRUB_ERR_NONE, [],
          [DiskRead 4 0 1024; DiskRead 6 0 512; DiskRead 7 0 512]) /\
  (data_stream one_record_dir 96 = slot_free ++ slot_a /\
   walk_outcome (grub_esfs_iterate_dir (list (list byte)) recording_hook
                   plain_alloc one_record_dir [] idle)
   = Some (Return0, [bytes_of_string "a"], GRUB_ERR_NONE,
           [(bytes_of_string "a", GRUB_FSHELP_REG, slot_a)],
           [DiskRead 4 0 1024; DiskRead 6 0 1024;
            Visit (bytes_of_string "a") GRUB_FSHELP_REG slot_a])).
Proof.
  split; [split; vm_compute; reflexivity|].
  split; [repeat (split; [vm_compute; reflexivity|]); vm_compute; reflexivity|].
  split; [vm_compute; reflexivity|].
  split; [vm_compute; reflexivity|].
  split; vm_compute; reflexivity.
Qed.

(** ** The claims at concrete inputs *)

(** C1, counterexample.  The file is 16 bytes long.  With [pos = 1] and
    [len = 2^64 - 1] the sum [len + pos] wraps to 0, the clamp to the file
    size is skipped, and the DIRECT path returns 31 bytes: more than
    [min (len, fileSize - pos) = 15]. *)
Lemma read_file_len_wraps :
  fileSize (direntry direct_node) = 16 /\
  fst (fst (grub_esfs_read_file direct_node 0 0 1 (2 ^ 64 - 1) [] idle))
  = Bytes 31 /\
  ~ 31 <= Z.min (2 ^ 64 - 1) (fileSize (direntry direct_node) - 1).
Proof.
  split; [vm_compute; reflexivity|].
  split; [vm_compute; reflexivity|].
  vm_compute. intros H. apply H. reflexivity.
Qed.

(** C3, at the failing input.  [count] is 5 and the attribute has room for
    32 bytes after [dataOffset], so [min (count, size - dataOffset) = 5];
    a 16-byte read at [pos = 0] returns 16 and copies the bytes at offsets
    5..15 past [dataOffset] as well. *)
Theorem read_direct_past_count :
  get_direntry_attribute direct_entry ESFS_ATTRIBUTE_DATA sizeof_attribute_data
  = Some 96 /\
  indirection direct_entry 96 = ESFS_INDIRECTION_DIRECT /\
  Z.min (data_count direct_entry 96)
        (attr_size direct_entry 96 - dataOffset direct_entry 96) = 5 /\
  grub_esfs_read_file direct_node 0 0 0 16 (zeros 16) idle
  = (Bytes 16, bytes_of_string "world-and-what-f", idle).
Proof. repeat (split; [vm_compute; reflexivity|]); vm_compute; reflexivity. Qed.

(** C6, counterexample.  At [pos = fileSize = 16] the call does not return
    [-1]: it returns 0. *)
Lemma read_file_at_end_returns_zero :
  fileSize (direntry direct_node) = 16 /\
  ssize_of (fst (fst (grub_esfs_read_file direct_node 0 0 16 4 [] idle))) = 0.
Proof. split; vm_compute; reflexivity. Qed.

(** C8, at the failing input.  One extent, a device whose read fails, a
    caller's hook 7 with data 9, the slot empty before the call: the call
    returns [-1] and the hook is still installed on the device. *)
Theorem read_file_leaves_hook_on_error :
  read_hook idle = 0 /\
  grub_esfs_read_file l1_node_bad_disk 7 9 0 512 [] idle
  = (Minus1, [],
     mkWorld GRUB_ERR_READ_ERROR "disk read failed" 7 9 [DiskRead 5 0 512]).
Proof. split; vm_compute; reflexivity. Qed.

(** C9, counterexample.  A 1024-byte entry with the right signature and
    [attributeOffset = 0], outside [96, 1020], is accepted. *)
Lemma check_direntry_accepts_offset_zero :
  List.length zero_offset_entry = 1024%nat /\
  attributeOffset zero_offset_entry = 0 /\
  esfs_check_direntry zero_offset_entry = true.
Proof. repeat (split; [vm_compute; reflexivity|]); vm_compute; reflexivity. Qed.

(** C2, counterexample.  The superblock read from byte 8192 has the right
    signature, version 10, block size 512 and 4096 blocks, so none of the
    listed conditions holds; the root entry lies outside the device, the
    second request reports out-of-range, and mount fails with
    "not an esfs filesystem" all the same. *)
Lemma mount_root_out_of_range :
  disk_bytes short_disk 16 0 sizeof_superblock = sample_superblock /\
  firstn 16 sample_superblock = ESFS_SIGNATURE_STRING /\
  requiredReadVersion sample_superblock = 10 /\
  blockSize sample_superblock = 512 /\
  Z.land (blockSize sample_superblock) block_size_mask = 0 /\
  blockCount sample_superblock = 4096 /\
  grub_esfs_mount short_disk (Some blank_data) idle
  = (None,
     mkWorld GRUB_ERR_BAD_FS "not an esfs filesystem" 0 0
             [DiskRead 16 0 8192; DiskRead (2 ^ 40) 0 1024]).
Proof. repeat (split; [vm_compute; reflexivity|]); vm_compute; reflexivity. Qed.

(** ** The theorems at sample inputs *)

(** A 600-byte read at 0 of the 512-byte one-extent file. *)
Lemma read_file_within_file_size_witness :
  (0 <= 0 /\ 0 <= 600 /\ 600 + 0 < 2 ^ 64) /\
  ((exists evs,
       [DiskRead 5 0 512; HookCall 7 9 5 0 512] = log idle ++ evs /\
       requested evs
       <= Z.max 0 (Z.min 600 (fileSize (direntry l1_node) - 0))) /\
   (0 <= 512 <= Z.min 600 (fileSize (direntry l1_node) - 0) /\
    0 + 512 <= fileSize (direntry l1_node))).
Proof.
  split; [lia|].
  apply (read_file_within_file_size l1_node 7 9 0 600 [] idle (Bytes 512)
           (zeros 512)
           (mkWorld GRUB_ERR_NONE "" 0 9
                    [DiskRead 5 0 512; HookCall 7 9 5 0 512]));
    [lia|lia|lia|vm_compute; reflexivity].
Defined.

(** A 16-byte read at 0 of the embedded file: the buffer of zeros comes
    back holding the first 16 bytes of the payload, its last 4 bytes as
    they were. *)
Lemma read_file_direct_witness :
  (get_direntry_attribute (direntry direct_node) ESFS_ATTRIBUTE_DATA
                          sizeof_attribute_data = Some 96 /\
   indirection (direntry direct_node) 96 = ESFS_INDIRECTION_DIRECT /\
   0 <= 0 /\
   dataOffset (direntry direct_node) 96 <= attr_size (direntry direct_node) 96 /\
   0 <= fileSize (direntry direct_node)) /\
  log (snd (grub_esfs_read_file direct_node 0 0 0 16 (zeros 20) idle))
  = log idle /\
  fst (fst (grub_esfs_read_file direct_node 0 0 0 16 (zeros 20) idle))
  = Bytes 16 /\
  nth 0 (snd (fst (grub_esfs_read_file direct_node 0 0 0 16 (zeros 20) idle)))
      x00 = x77 /\
  nth 15 (snd (fst (grub_esfs_read_file direct_node 0 0 0 16 (zeros 20) idle)))
      x00 = x66 /\
  skipn 16 (snd (fst (grub_esfs_read_file direct_node 0 0 0 16 (zeros 20) idle)))
  = zeros 4 /\
  snd (fst (grub_esfs_read_file direct_node 0 0 0 16 (zeros 20) idle))
  = bytes_of_string "world-and-what-f" ++ zeros 4.
Proof.
  assert (Hattr : get_direntry_attribute (direntry direct_node)
                    ESFS_ATTRIBUTE_DATA sizeof_attribute_data = Some 96)
    by (vm_compute; reflexivity).
  assert (Hind : indirection (direntry direct_node) 96
                 = ESFS_INDIRECTION_DIRECT) by (vm_compute; reflexivity).
  assert (Hoff : dataOffset (direntry direct_node) 96
                 <= attr_size (direntry direct_node) 96)
    by (vm_compute; discriminate).
  assert (Hfs : 0 <= fileSize (direntry direct_node))
    by (vm_compute; discriminate).
  destruct (read_file_direct direct_node 0 0 0 16 (zeros 20) idle 96
              Hattr Hind ltac:(lia)) as [[Hlog _] Hrun].
  destruct (Hrun Hoff Hfs) as [_ Hbytes].
  assert (Hcap : 0 <= Z.max (data_count (direntry direct_node) 96)
                            (attr_size (direntry direct_node) 96
                             - dataOffset (direntry direct_node) 96))
    by (vm_compute; discriminate).
  destruct (Hbytes Hcap) as (Hcount & _ & _ & Hnth & Hrest).
  assert (Hn : Z.min (clamp_to_file (fileSize (direntry direct_node)) 0 16)
                     (Z.max (data_count (direntry direct_node) 96)
                            (attr_size (direntry direct_node) 96
                             - dataOffset (direntry direct_node) 96) - 0)
               = 16) by (vm_compute; reflexivity).
  rewrite Hn in Hcount, Hnth, Hrest.
  split; [repeat (split; [assumption || lia|]); exact Hfs|].
  split; [exact Hlog|]. split; [exact Hcount|].
  pose proof (Hnth 0 ltac:(lia)) as Hfirst.
  pose proof (Hnth 15 ltac:(lia)) as Hlast.
  change (Z.to_nat 0) with 0%nat in Hfirst.
  change (Z.to_nat 15) with 15%nat in Hlast.
  change (Z.to_nat 16) with 16%nat in Hrest.
  split; [rewrite Hfirst; vm_compute; reflexivity|].
  split; [rewrite Hlast; vm_compute; reflexivity|].
  split; [rewrite Hrest; vm_compute; reflexivity|].
  vm_compute. reflexivity.
Defined.

(** The one record of the sample extent list. *)
Lemma decode_extent_spec_witness :
  0 <= 32 <= 65535 /\
  decode_extent l1_node 96 48 32 0 = Some (mkExtent 35 5 1).
Proof.
  split; [lia|].
  destruct (decode_extent_spec l1_node 96 48 32 0 ltac:(lia)) as (_ & _ & Heq).
  rewrite Heq. vm_compute. reflexivity.
Defined.

(** Past the end of the 16-byte embedded file; a read of 100 bytes at 4
    that is clamped to 12; a read of 100 bytes at 500 of the 512-byte file
    of one extent, clamped to 12 and served by one request; and the two
    files read at their end. *)
Lemma read_file_eof_and_clamp_witness :
  (fileSize (direntry direct_node) < 20 /\
   fst (grub_esfs_read_file direct_node 0 0 20 4 [] idle) = (Minus1, [])) /\
  ((0 <= 4 <= fileSize (direntry direct_node) /\ 0 <= 100 /\
    100 + 4 < 2 ^ 64 /\
    get_direntry_attribute (direntry direct_node) ESFS_ATTRIBUTE_DATA
                           sizeof_attribute_data = Some 96 /\
    dataOffset (direntry direct_node) 96 <= attr_size (direntry direct_node) 96 /\
    indirection (direntry direct_node) 96 = ESFS_INDIRECTION_DIRECT) /\
   fst (fst (grub_esfs_read_file direct_node 0 0 4 100 [] idle)) = Bytes 12) /\
  ((0 <= 500 <= fileSize (direntry l1_node) /\ 0 <= 100 /\
    100 + 500 < 2 ^ 64 /\
    get_direntry_attribute (direntry l1_node) ESFS_ATTRIBUTE_DATA
                           sizeof_attribute_data = Some 96 /\
    dataOffset (direntry l1_node) 96 <= attr_size (direntry l1_node) 96 /\
    indirection (direntry l1_node) 96 = ESFS_INDIRECTION_L1) /\
   fst (fst (grub_esfs_read_file l1_node 0 0 500 100 [] idle)) = Bytes 12 /\
   log (snd (grub_esfs_read_file l1_node 0 0 500 100 [] idle))
   = [DiskRead 5 500 12]) /\
  ((512 = fileSize (direntry l1_node) /\ 0 <= 4 /\ 4 + 512 < 2 ^ 64) /\
   grub_esfs_read_file l1_node 0 0 512 4 [] idle = (Bytes 0, [], idle)) /\
  ((16 = fileSize (direntry direct_node) /\ 0 <= 4 /\ 4 + 16 < 2 ^ 64) /\
   grub_esfs_read_file direct_node 0 0 16 4 [] idle = (Bytes 0, [], idle)).
Proof.
  assert (Hfs : fileSize (direntry direct_node) = 16)
    by (vm_compute; reflexivity).
  assert (Hfl : fileSize (direntry l1_node) = 512)
    by (vm_compute; reflexivity).
  assert (Hattr : get_direntry_attribute (direntry direct_node)
                    ESFS_ATTRIBUTE_DATA sizeof_attribute_data = Some 96)
    by (vm_compute; reflexivity).
  assert (Hoff : dataOffset (direntry direct_node) 96
                 <= attr_size (direntry direct_node) 96)
    by (vm_compute; discriminate).
  assert (Hind : indirection (direntry direct_node) 96
                 = ESFS_INDIRECTION_DIRECT) by (vm_compute; reflexivity).
  assert (Hattrl : get_direntry_attribute (direntry l1_node)
                     ESFS_ATTRIBUTE_DATA sizeof_attribute_data = Some 96)
    by (vm_compute; reflexivity).
  assert (Hoffl : dataOffset (direntry l1_node) 96
                  <= attr_size (direntry l1_node) 96)
    by (vm_compute; discriminate).
  assert (Hindl : indirection (direntry l1_node) 96 = ESFS_INDIRECTION_L1)
    by (vm_compute; reflexivity).
  destruct (read_file_eof_and_clamp direct_node 0 0 20 4 [] idle) as (H1 & _ & _).
  destruct (read_file_eof_and_clamp direct_node 0 0 4 100 [] idle)
    as (_ & H2 & _).
  destruct (read_file_eof_and_clamp l1_node 0 0 500 100 [] idle)
    as (_ & H3 & _).
  destruct (read_file_eof_and_clamp l1_node 0 0 512 4 [] idle) as (_ & _ & H4).
  destruct (read_file_eof_and_clamp direct_node 0 0 16 4 [] idle)
    as (_ & _ & H5).
  split.
  { split; [rewrite Hfs; lia|]. apply H1. rewrite Hfs. lia. }
  split.
  { split; [rewrite Hfs; repeat split; auto; lia|].
    destruct H2 as [_ H2]; [rewrite Hfs; lia|lia|lia|].
    destruct (H2 96 Hattr Hoff) as (Hcount & _ & _).
    rewrite (Hcount Hind). vm_compute. reflexivity. }
  split.
  { split; [rewrite Hfl; repeat split; auto; lia|].
    destruct H3 as [_ H3]; [rewrite Hfl; lia|lia|lia|].
    destruct (H3 96 Hattrl Hoffl) as (_ & Hloop & _).
    rewrite (Hloop Hindl). split; vm_compute; reflexivity. }
  split.
  { split; [rewrite Hfl; repeat split; lia|].
    rewrite H4 by (rewrite ?Hfl; lia). vm_compute. reflexivity. }
  split; [rewrite Hfs; repeat split; lia|].
  rewrite H5 by (rewrite ?Hfs; lia). vm_compute. reflexivity.
Defined.

(** The entry with [attributeOffset = 0]. *)
Lemma check_direntry_signature_only_witness :
  List.length zero_offset_entry = 1024%nat /\
  (esfs_check_direntry zero_offset_entry = true <->
   firstn 8 zero_offset_entry = ESFS_DIRECTORY_ENTRY_SIGNATURE).
Proof.
  assert (Hlen : List.length zero_offset_entry = 1024%nat)
    by (vm_compute; reflexivity).
  split; [exact Hlen|].
  exact (proj1 (check_direntry_signature_only zero_offset_entry Hlen)).
Defined.

(** Mount on the device whose root entry is out of range. *)
Lemma mount_superblock_check_witness :
  (grub_errno idle = GRUB_ERR_NONE /\
   status short_disk 16 0 sizeof_superblock = GRUB_ERR_NONE) /\
  device_reads (log (snd (grub_esfs_mount short_disk (Some blank_data) idle)))
  = S (S (device_reads (log idle))).
Proof.
  assert (Hst : status short_disk 16 0 sizeof_superblock = GRUB_ERR_NONE)
    by reflexivity.
  split; [split; [reflexivity|exact Hst]|].
  destruct (mount_superblock_check short_disk blank_data idle eq_refl Hst)
    as [_ H2].
  match type of H2 with
  | ?P -> _ => assert (Hnr : P)
  end.
  { intros Hr. apply superblock_rejected_iff in Hr.
    - revert Hr. vm_compute. discriminate.
    - apply Nat.leb_le. vm_compute. reflexivity. }
  destruct (H2 Hnr) as [Hd _]. exact Hd.
Defined.

(** ** The attribute list as a list *)

Lemma attr_ok_iff (e : list byte) (off : Z) :
  attr_ok e off = true <->
  0 <= off <= 1020 /\ Z.land off 7 = 0 /\
  4 <= attr_size e off /\ off + attr_size e off <= 1024.
Proof.
  unfold attr_ok. rewrite !andb_true_iff, !Z.leb_le, Z.eqb_eq.
  change 7 with (Z.ones 3). rewrite Z.land_ones by lia.
  change (2 ^ 3) with 8. intuition.
Qed.

Lemma attr_chain_ok (fuel : nat) (e : list byte) :
  forall off : Z, Forall (fun a => attr_ok e a = true) (attr_chain fuel e off).
Proof.
  induction fuel as [|fuel IH]; intros off; cbn [attr_chain]; [constructor|].
  destruct (attr_ok e off) eqn:Hok; constructor; [exact Hok|apply IH].
Qed.

Lemma attribute_walk_find (fuel : nat) (e : list byte) (attrid minsize : Z) :
  forall (off : Z) (r : option Z),
    0 <= off ->
    attribute_walk fuel e attrid minsize off = Some r ->
    r = find (fun a => (attr_type e a =? attrid) && (minsize <=? attr_size e a))
             (attr_chain fuel e off).
Proof.
  induction fuel as [|fuel IH]; intros off r H0 Hw; [discriminate|].
  cbn [attr_chain].
  destruct (attr_ok e off) eqn:Hok.
  - apply attr_ok_iff in Hok. destruct Hok as (Hoff & Hal & Hsz & Hend).
    rewrite attribute_walk_step in Hw by assumption.
    replace (_ || _) with false in Hw
      by (symmetry; apply orb_false_iff; split;
          [apply Z.ltb_ge|rewrite Z.gtb_ltb; apply Z.ltb_ge]; lia).
    cbn [find]. rewrite Z.geb_leb in Hw.
    destruct (_ && _).
    + congruence.
    + apply IH; [lia|exact Hw].
  - cbn [find].
    destruct (off <=? 1020) eqn:Hle.
    + destruct (Z.land off 7 =? 0) eqn:Hal.
      * bool_hyps. rewrite attribute_walk_step in Hw by (auto; lia).
        destruct (_ || _) eqn:Hb; [congruence|]. bool_hyps.
        assert (attr_ok e off = true) by (apply attr_ok_iff; lia).
        congruence.
      * bool_hyps. rewrite attribute_walk_bad_offset in Hw; [congruence|].
        left. change 7 with (Z.ones 3) in Hal.
        rewrite Z.land_ones in Hal by lia. exact Hal.
    + bool_hyps. rewrite attribute_walk_bad_offset in Hw; [congruence|].
      right. lia.
Qed.

(** More fuel than the entry has room for does not lengthen the chain. *)
Lemma attr_chain_fuel (fuel : nat) (e : list byte) :
  forall (off : Z) (k : nat),
    1024 - off < 4 * Z.of_nat fuel ->
    attr_chain (fuel + k) e off = attr_chain fuel e off.
Proof.
  induction fuel as [|fuel IH]; intros off k Hm.
  - cbn [Nat.add attr_chain]. destruct k; cbn [attr_chain]; [reflexivity|].
    destruct (attr_ok e off) eqn:Hok; [|reflexivity].
    apply attr_ok_iff in Hok. lia.
  - cbn [Nat.add attr_chain].
    destruct (attr_ok e off) eqn:Hok; [|reflexivity].
    apply attr_ok_iff in Hok. f_equal. apply IH. lia.
Qed.

(** X1.  The lookup returns the first attribute of the list, in list
    order, that has the requested type and at least the requested size, and
    no attribute when the list holds none; the list is the chain of
    well-formed attribute headers from [attributeOffset] on, each starting
    where the previous one ends (a chain that the iteration budget does not
    cut short). *)
Theorem get_direntry_attribute_first_match (e : list byte)
    (attrid minsize : Z) :
  get_direntry_attribute e attrid minsize
  = find (fun a => (attr_type e a =? attrid) && (minsize <=? attr_size e a))
         (attributes e) /\
  Forall (fun a => attr_ok e a = true) (attributes e) /\
  (forall k : nat,
      attr_chain (walk_fuel + k) e (attributeOffset e) = attributes e).
Proof.
  pose proof (le16_range e 28) as H. fold (attributeOffset e) in H.
  split; [|split; [apply attr_chain_ok|]].
  - unfold get_direntry_attribute, attributes.
    destruct (attribute_walk walk_fuel e attrid minsize (attributeOffset e))
      as [r|] eqn:Hw.
    + apply attribute_walk_find in Hw; [exact Hw|lia].
    + exfalso. revert Hw.
      apply attribute_walk_terminates; unfold walk_fuel; lia.
  - intros k. apply attr_chain_fuel. unfold walk_fuel. lia.
Qed.

(** ** Names *)

Lemma u8_zero (b : byte) : u8 b = 0 <-> b = x00.
Proof.
  split; intros H; [|subst b; reflexivity].
  apply u8_inj. rewrite H. reflexivity.
Qed.

(** [grub_strndup (s, n)] yields a prefix of [s] of at most [n] bytes
    without a NUL byte; when it is shorter than both [n] and [s], the byte
    of [s] that follows it is NUL. *)
Lemma grub_strndup_prefix (s : list byte) (n : nat) :
  (List.length (grub_strndup s n) <= n)%nat /\
  (List.length (grub_strndup s n) <= List.length s)%nat /\
  grub_strndup s n = firstn (List.length (grub_strndup s n)) s /\
  ~ In x00 (grub_strndup s n) /\
  ((List.length (grub_strndup s n) < n)%nat ->
   (List.length (grub_strndup s n) < List.length s)%nat ->
   nth (List.length (grub_strndup s n)) s x00 = x00).
Proof.
  revert s. induction n as [|n IH]; intros s.
  - destruct s; cbn; repeat split; auto; intros; lia.
  - destruct s as [|b s]; [cbn; repeat split; auto; intros; lia|].
    cbn [grub_strndup].
    destruct (u8 b =? 0) eqn:Hb; bool_hyps.
    + apply u8_zero in Hb. subst b. cbn. repeat split; auto; intros; lia.
    + destruct (IH s) as (H1 & H2 & H3 & H4 & H5).
      cbn [List.length firstn nth].
      repeat split; try lia.
      * f_equal. exact H3.
      * intros [Hx|Hx]; [|contradiction].
        subst b. apply Hb. reflexivity.
      * intros Hn Hs. apply H5; lia.
Qed.

Lemma child_visit_well_formed (e : list byte)
    (v : list byte * grub_fshelp_filetype * list byte) :
  child_visit e = Some v -> snd v = e /\ visit_well_formed v.
Proof.
  unfold child_visit.
  destruct (esfs_check_direntry e) eqn:Hsig; [|discriminate].
  destruct (get_direntry_attribute _ _ _) as [a|] eqn:Hattr; [|discriminate].
  destruct (_ && _) eqn:Hlen; [|discriminate].
  apply get_direntry_attribute_sound in Hattr as Hs.
  destruct Hs as (Ha0 & _ & _ & _ & Hend & _).
  bool_hyps.
  set (name := grub_strndup _ _).
  destruct (grub_strndup_prefix (skipn (Z.to_nat (a + 8)) e)
              (Z.to_nat (filename_length e a))) as (Hn & _ & Hpre & Hnul & _).
  fold name in Hn, Hpre, Hnul.
  pose proof (le16_range e (a + 4)) as Hfl. fold (filename_length e a) in Hfl.
  assert (Hwf : forall t,
             (t = GRUB_FSHELP_DIR /\ nodeType e = ESFS_NODE_TYPE_DIRECTORY \/
              t = GRUB_FSHELP_REG /\ nodeType e = ESFS_NODE_TYPE_FILE) ->
             visit_well_formed (name, t, e)).
  { intros t Ht. cbn. split; [exact Hsig|]. split; [exact Ht|].
    exists a. repeat split; try assumption; lia. }
  destruct (nodeType e =? ESFS_NODE_TYPE_DIRECTORY) eqn:Hd; bool_hyps.
  - intros Hv. injection Hv as <-. split; [reflexivity|]. apply Hwf. auto.
  - destruct (nodeType e =? ESFS_NODE_TYPE_FILE) eqn:Hf; bool_hyps;
      [|discriminate].
    intros Hv. injection Hv as <-. split; [reflexivity|]. apply Hwf. auto.
Qed.

(** ** The directory iterator, for every visitor and allocator *)

Section IterateAlways.

Variable HookData : Type.
Variable hook :
  list byte -> grub_fshelp_filetype -> grub_fshelp_node -> HookData ->
  bool * HookData.
Variable alloc : allocator.

(** One iteration after the read: it continues or returns 1, it calls the
    visitor at most once, on a well-formed slot, and it returns 1 only
    right after such a call. *)
Lemma visit_child_cases (fdiro : grub_fshelp_node) (fpos : Z)
    (hd : HookData) (w : world) :
  exists r hd' w' vs,
    visit_child HookData hook alloc fdiro fpos hd w = (r, hd', w') /\
    (r = None \/ r = Some Return1) /\
    visits (log w') = visits (log w) ++ vs /\
    Forall visit_well_formed vs /\
    device_reads (log w') = device_reads (log w) /\
    (r = Some Return1 ->
     exists l name t e, log w' = l ++ [Visit name t e]).
Proof.
  unfold visit_child.
  assert (Hskip : forall w0 : world,
             device_reads (log w0) = device_reads (log w) ->
             visits (log w0) = visits (log w) ->
             exists r hd' w' vs,
               (@None dir_result, hd, w0) = (r, hd', w') /\
               (r = None \/ r = Some Return1) /\
               visits (log w') = visits (log w) ++ vs /\
               Forall visit_well_formed vs /\
               device_reads (log w') = device_reads (log w) /\
               (r = Some Return1 ->
                exists l name t e, log w' = l ++ [Visit name t e])).
  { intros w0 Hd Hv. exists None, hd, w0, []. rewrite app_nil_r.
    repeat split; auto. discriminate. }
  destruct (esfs_check_direntry (direntry fdiro)) eqn:Hsig; cbn [negb];
    [|apply Hskip; reflexivity].
  destruct (get_direntry_attribute _ _ _) as [a|] eqn:Hattr;
    [|apply Hskip; reflexivity].
  destruct (_ || _) eqn:Hlen; [apply Hskip; reflexivity|].
  assert (Hcall : forall t,
             (t = GRUB_FSHELP_DIR /\
              nodeType (direntry fdiro) = ESFS_NODE_TYPE_DIRECTORY \/
              t = GRUB_FSHELP_REG /\
              nodeType (direntry fdiro) = ESFS_NODE_TYPE_FILE) ->
             child_visit (direntry fdiro)
             = Some (grub_strndup (skipn (Z.to_nat (a + 8)) (direntry fdiro))
                                  (Z.to_nat (filename_length (direntry fdiro) a)),
                     t, direntry fdiro)).
  { intros t Ht. unfold child_visit. rewrite Hsig, Hattr.
    rewrite Z.gtb_ltb, !Z.ltb_antisym, <- negb_andb in Hlen.
    apply negb_false_iff in Hlen. rewrite Hlen.
    destruct Ht as [[-> Hn]|[-> Hn]]; rewrite Hn; reflexivity. }
  assert (Hdo : forall t,
             (t = GRUB_FSHELP_DIR /\
              nodeType (direntry fdiro) = ESFS_NODE_TYPE_DIRECTORY \/
              t = GRUB_FSHELP_REG /\
              nodeType (direntry fdiro) = ESFS_NODE_TYPE_FILE) ->
             exists r hd' w' vs,
               (if negb (dup_ok alloc fpos)
                then (@None dir_result, hd,
                      grub_error GRUB_ERR_OUT_OF_MEMORY "out of memory" w)
                else
                  let filename :=
                    grub_strndup (skipn (Z.to_nat (a + 8)) (direntry fdiro))
                      (Z.to_nat (filename_length (direntry fdiro) a)) in
                  let w0 := emit (Visit filename t (direntry fdiro)) w in
                  let '(stop, hd0) := hook filename t fdiro hd in
                  if stop then (Some Return1, hd0, w0) else (None, hd0, w0))
               = (r, hd', w') /\
               (r = None \/ r = Some Return1) /\
               visits (log w') = visits (log w) ++ vs /\
               Forall visit_well_formed vs /\
               device_reads (log w') = device_reads (log w) /\
               (r = Some Return1 ->
                exists l name t e, log w' = l ++ [Visit name t e])).
  { intros t Ht. destruct (dup_ok alloc fpos); cbn [negb];
      [|apply Hskip; reflexivity].
    cbv zeta.
    set (name := grub_strndup _ _).
    pose proof (Hcall t Ht) as Hcv. fold name in Hcv.
    apply child_visit_well_formed in Hcv. destruct Hcv as [_ Hwf].
    destruct (hook name t fdiro hd) as [stop hd0].
    exists (if stop then Some Return1 else None), hd0,
           (emit (Visit name t (direntry fdiro)) w),
           [(name, t, direntry fdiro)].
    cbn [emit log]. rewrite visits_app, device_reads_app. cbn [visits device_reads].
    split; [destruct stop; reflexivity|].
    split; [destruct stop; auto|].
    split; [reflexivity|]. split; [constructor; [exact Hwf|constructor]|].
    split; [lia|]. intros _. eauto. }
  destruct (nodeType _ =? ESFS_NODE_TYPE_DIRECTORY) eqn:Hd; bool_hyps;
    [apply Hdo; auto|].
  destruct (nodeType _ =? ESFS_NODE_TYPE_FILE) eqn:Hf; bool_hyps;
    [apply Hdo; auto|apply Hskip; reflexivity].
Qed.

(** The loop from [fpos] on: it ends within its fuel, returns 0 or 1, adds
    only well-formed visitor calls, and returns 1 only right after one. *)
Lemma iterate_loop_always (fuel : nat) :
  forall (diro : grub_fshelp_node) (dirSize fpos : Z) (hd : HookData)
         (w : world),
    0 <= fpos < dirSize + 1024 -> dirSize < 2 ^ 31 ->
    dirSize - fpos <= 1024 * (Z.of_nat fuel - 1) ->
    exists r hd' w' vs,
      iterate_loop HookData hook alloc fuel diro dirSize fpos hd w
      = Some (r, hd', w') /\
      (r = Return0 \/ r = Return1) /\
      visits (log w') = visits (log w) ++ vs /\
      Forall visit_well_formed vs /\
      (r = Return1 -> exists l name t e, log w' = l ++ [Visit name t e]).
Proof.
  induction fuel as [|fuel IH]; intros diro dirSize fpos hd w Hpos Hsz Hfuel.
  - exfalso. cbn in Hfuel. lia.
  - cbn [iterate_loop].
    assert (Hstop : forall w0 : world,
               visits (log w0) = visits (log w) ->
               exists r hd' w' vs,
                 Some (Return0, hd, w0) = Some (r, hd', w') /\
                 (r = Return0 \/ r = Return1) /\
                 visits (log w') = visits (log w) ++ vs /\
                 Forall visit_well_formed vs /\
                 (r = Return1 ->
                  exists l name t e, log w' = l ++ [Visit name t e])).
    { intros w0 Hv. exists Return0, hd, w0, []. rewrite app_nil_r.
      repeat split; auto. discriminate. }
    destruct (fpos <? dirSize) eqn:Hlt; [|apply Hstop; reflexivity].
    bool_hyps.
    destruct (new_node alloc fpos) as [blk|]; [|apply Hstop; reflexivity].
    destruct (read_file_frame diro 0 0 fpos sizeof_direntry (direntry blk))
      as (r0 & b0 & failed & Hfr).
    specialize (Hfr w). cbv zeta in Hfr.
    destruct (grub_esfs_read_file diro 0 0 fpos sizeof_direntry
                (direntry blk) w) as [[r1 b1] w1].
    cbn [fst snd] in Hfr. destruct Hfr as (_ & Hv1 & _).
    destruct (is_error (grub_errno w1)); [apply Hstop; exact Hv1|].
    match goal with
    | |- context [visit_child _ _ _ ?f ?p hd w1] =>
        destruct (visit_child_cases f p hd w1)
          as (r2 & hd2 & w2 & vs2 & Hvc & Hr2 & Hv2 & Hwf2 & _ & Hlast)
    end.
    rewrite Hvc.
    destruct Hr2 as [-> | ->].
    + replace (u64 (fpos + sizeof_direntry)) with (fpos + 1024)
        by (rewrite u64_small; unfold sizeof_direntry; lia).
      destruct (IH diro dirSize (fpos + 1024) hd2 w2)
        as (r3 & hd3 & w3 & vs3 & Hloop & Hr3 & Hv3 & Hwf3 & Hl3);
        [lia|lia|lia|].
      exists r3, hd3, w3, (vs2 ++ vs3).
      split; [exact Hloop|]. split; [exact Hr3|].
      split; [rewrite Hv3, Hv2, Hv1, app_assoc; reflexivity|].
      split; [apply Forall_app; split; assumption|exact Hl3].
    + exists Return1, hd2, w2, vs2.
      split; [reflexivity|]. split; [auto|].
      split; [rewrite Hv2, Hv1; reflexivity|].
      split; [exact Hwf2|]. intros _. apply Hlast. reflexivity.
Qed.

End IterateAlways.

(** X2.  For every node, visitor, allocator and state,
    [grub_esfs_iterate_dir] comes to an end.  It returns an error code
    exactly when the node is not a directory (BAD_FILE_TYPE) or its
    [fileSize] is [2^31] or more (BAD_FS, "directory too large"), and it
    then leaves the log as it was; otherwise it returns 0 or 1.  Every visitor
    call it makes is well-formed, and it returns 1 only right after a
    visitor call: nothing is read once the visitor has asked to stop. *)
Theorem iterate_dir_always (HookData : Type)
    (hook : list byte -> grub_fshelp_filetype -> grub_fshelp_node ->
            HookData -> bool * HookData)
    (alloc : allocator) (diro : grub_fshelp_node) (hd : HookData) (w : world) :
  exists r hd' w' vs,
    grub_esfs_iterate_dir HookData hook alloc diro hd w = Some (r, hd', w') /\
    visits (log w') = visits (log w) ++ vs /\
    Forall visit_well_formed vs /\
    match r with
    | ReturnErr err =>
        log w' = log w /\ hd' = hd /\ grub_errno w' = err /\
        (err = GRUB_ERR_BAD_FILE_TYPE /\
         nodeType (direntry diro) <> ESFS_NODE_TYPE_DIRECTORY \/
         err = GRUB_ERR_BAD_FS /\
         nodeType (direntry diro) = ESFS_NODE_TYPE_DIRECTORY /\
         2 ^ 31 <= fileSize (direntry diro))
    | Return1 =>
        nodeType (direntry diro) = ESFS_NODE_TYPE_DIRECTORY /\
        fileSize (direntry diro) < 2 ^ 31 /\
        exists l name t e, log w' = l ++ [Visit name t e]
    | Return0 =>
        nodeType (direntry diro) = ESFS_NODE_TYPE_DIRECTORY /\
        fileSize (direntry diro) < 2 ^ 31
    end.
Proof.
  pose proof (le64_range (direntry diro) 56) as Hfs.
  change (le64 (direntry diro) 56) with (fileSize (direntry diro)) in Hfs.
  unfold grub_esfs_iterate_dir.
  destruct (nodeType (direntry diro) =? ESFS_NODE_TYPE_DIRECTORY) eqn:Hd;
    bool_hyps; cbn [negb].
  2:{ eexists; eexists; eexists; exists []. split; [reflexivity|].
      cbn [grub_error log grub_errno]. rewrite app_nil_r.
      repeat split; auto. }
  destruct (fileSize (direntry diro) >=? 0x80000000) eqn:Hbig; bool_hyps.
  { eexists; eexists; eexists; exists []. split; [reflexivity|].
    cbn [grub_error log grub_errno]. rewrite app_nil_r.
    split; [reflexivity|]. split; [constructor|].
    split; [reflexivity|]. split; [reflexivity|]. split; [reflexivity|].
    right. change (2 ^ 31) with 0x80000000. repeat split; auto; lia. }
  change 0x80000000 with (2 ^ 31) in Hbig.
  destruct (iterate_loop_always HookData hook alloc
              (iterate_fuel (fileSize (direntry diro))) diro
              (fileSize (direntry diro)) 0 hd w)
    as (r & hd' & w' & vs & Hloop & Hr & Hv & Hwf & Hlast); [lia|lia| |].
  { unfold iterate_fuel, sizeof_direntry.
    pose proof (Z.div_mod (fileSize (direntry diro)) 1024 ltac:(lia)).
    pose proof (Z.mod_pos_bound (fileSize (direntry diro)) 1024 ltac:(lia)).
    assert (0 <= fileSize (direntry diro) / 1024) by (apply Z.div_pos; lia).
    rewrite Nat2Z.inj_add, Z2Nat.id by lia. change (Z.of_nat 2) with 2. lia. }
  exists r, hd', w', vs. split; [exact Hloop|]. split; [exact Hv|].
  split; [exact Hwf|].
  destruct Hr as [-> | ->]; [auto|]. repeat split; auto.
Qed.

(** ** Mounting: what a returned volume satisfies *)

(** The [fail] label never hands back [GRUB_ERR_OUT_OF_RANGE], and keeps
    an error an error. *)
Lemma mount_fail_errno (w : world) :
  is_error (grub_errno w) = true ->
  fst (mount_fail w) = None /\
  is_error (grub_errno (snd (mount_fail w))) = true /\
  grub_errno (snd (mount_fail w)) <> GRUB_ERR_OUT_OF_RANGE.
Proof.
  unfold mount_fail. intros He. split; [reflexivity|]. cbn [snd].
  destruct (is_out_of_range (grub_errno w)) eqn:Hr.
  - cbn [grub_error grub_errno is_error]. split; [reflexivity|discriminate].
  - split; [exact He|]. intros Heq. rewrite Heq in Hr. discriminate.
Qed.

Lemma status_not_error (e : grub_err_t) :
  is_error e = false -> e = GRUB_ERR_NONE.
Proof. destruct e; cbn; intros H; first [reflexivity|discriminate]. Qed.

(** The two outcomes of [grub_esfs_mount]. *)
Lemma mount_cases (dsk : grub_disk) (fresh : option grub_esfs_data)
    (w : world) :
  let out := grub_esfs_mount dsk fresh w in
  match fst out with
  | None =>
      is_error (grub_errno (snd out)) = true /\
      grub_errno (snd out) <> GRUB_ERR_OUT_OF_RANGE
  | Some data =>
      grub_errno w = GRUB_ERR_NONE /\
      grub_errno (snd out) = GRUB_ERR_NONE /\
      grub_errmsg (snd out) = grub_errmsg w /\
      exists blk,
        fresh = Some blk /\
        sblock data = blit (disk_bytes dsk 16 0 sizeof_superblock) (sblock blk) /\
        firstn 16 (sblock data) = ESFS_SIGNATURE_STRING /\
        requiredReadVersion (sblock data) <= ESFS_DRIVER_VERSION /\
        bsize data = blockSize (sblock data) /\
        512 <= bsize data <= 2 ^ 28 - 512 /\ bsize data mod 512 = 0 /\
        blockCount (sblock data) <> 0 /\
        disk data = dsk /\
        data_disk (diropen data) = dsk /\
        data_bsize (diropen data) = bsize data /\
        after (diropen data) = after (diropen blk) /\
        direntry (diropen data)
        = blit (disk_bytes dsk
                  (u64 (root_block (sblock data) * Z.shiftr (bsize data) 9))
                  (root_offset_into_block (sblock data)) sizeof_direntry)
               (direntry (diropen blk)) /\
        firstn 8 (direntry (diropen data)) = ESFS_DIRECTORY_ENTRY_SIGNATURE
  end.
Proof.
  intros out. subst out.
  destruct fresh as [blk|];
    [|cbn; split; [reflexivity|discriminate]].
  unfold grub_esfs_mount.
  destruct (is_error (status dsk 16 0 sizeof_superblock)) eqn:Hst.
  { rewrite grub_disk_read_fail by exact Hst. cbv beta iota.
    cbn [grub_error grub_errno]. rewrite Hst.
    match goal with
    | |- context [mount_fail ?x] =>
        destruct (mount_fail_errno x) as (Hn & Hrest); [exact Hst|]
    end.
    rewrite Hn. exact Hrest. }
  apply status_not_error in Hst.
  destruct (grub_disk_read_ok dsk 16 0 sizeof_superblock (sblock blk) w Hst)
    as (w1 & evs1 & Hrd1 & He1 & Hm1 & _).
  rewrite Hrd1. cbv beta iota.
  set (sb := blit (disk_bytes dsk 16 0 sizeof_superblock) (sblock blk)).
  destruct (is_error (grub_errno w1)) eqn:Herr1.
  { destruct (mount_fail_errno w1 Herr1) as (Hn & Hrest).
    rewrite Hn. exact Hrest. }
  apply status_not_error in Herr1.
  destruct (superblock_rejected sb) eqn:Hrej.
  { match goal with
    | |- context [mount_fail ?x] =>
        destruct (mount_fail_errno x) as (Hn & Hrest); [reflexivity|]
    end.
    rewrite Hn. exact Hrest. }
  cbv zeta.
  set (sector := u64 (root_block sb * Z.shiftr (blockSize sb) 9)).
  set (offset := root_offset_into_block sb).
  destruct (is_error (status dsk sector offset sizeof_direntry)) eqn:Hst2.
  { rewrite grub_disk_read_fail by exact Hst2. cbv beta iota. rewrite Hst2.
    match goal with
    | |- context [mount_fail ?x] =>
        destruct (mount_fail_errno x) as (Hn & Hrest); [exact Hst2|]
    end.
    rewrite Hn. exact Hrest. }
  apply status_not_error in Hst2.
  destruct (grub_disk_read_ok dsk sector offset sizeof_direntry
              (direntry (diropen blk)) w1 Hst2)
    as (w2 & evs2 & Hrd2 & He2 & Hm2 & _).
  rewrite Hrd2. cbv beta iota. cbn [is_error].
  set (de := blit (disk_bytes dsk sector offset sizeof_direntry)
                  (direntry (diropen blk))).
  destruct (esfs_check_direntry de) eqn:Hde; cbn [negb].
  2:{ match goal with
      | |- context [mount_fail ?x] =>
          destruct (mount_fail_errno x) as (Hn & Hrest); [reflexivity|]
      end.
      rewrite Hn. exact Hrest. }
  cbn [fst snd sblock bsize disk diropen data_disk data_bsize direntry after].
  assert (Hsblen : (16 <= List.length sb)%nat).
  { subst sb. eapply Nat.le_trans; [|apply blit_length].
    rewrite disk_bytes_length. apply Nat.leb_le. vm_compute. reflexivity. }
  assert (Hdelen : (1024 <= List.length de)%nat).
  { subst de. eapply Nat.le_trans; [|apply blit_length].
    rewrite disk_bytes_length. apply Nat.leb_le. vm_compute. reflexivity. }
  pose proof (le64_range sb 64) as Hbsr.
  change (le64 sb 64) with (blockSize sb) in Hbsr.
  unfold superblock_rejected in Hrej. bool_hyps.
  match goal with
  | H : grub_memcmp sb _ _ = 0 |- _ =>
      apply grub_memcmp_zero in H; [|lia|cbn; lia];
      change (firstn 16 ESFS_SIGNATURE_STRING) with ESFS_SIGNATURE_STRING in H;
      rename H into Hsig
  end.
  match goal with
  | H : Z.land (blockSize sb) block_size_mask = 0 |- _ =>
      apply block_size_mask_spec in H; [destruct H as [Hmod Hlt]|exact Hbsr]
  end.
  apply check_direntry_iff in Hde; [|lia].
  split; [congruence|]. split; [congruence|]. split; [congruence|].
  exists blk. split; [reflexivity|]. split; [reflexivity|].
  split; [exact Hsig|]. split; [assumption|]. split; [reflexivity|].
  split.
  { pose proof (Z.div_mod (blockSize sb) 512 ltac:(lia)) as Hdm.
    assert (blockSize sb <> 0) by assumption. lia. }
  split; [exact Hmod|]. split; [assumption|].
  repeat (split; [reflexivity|]). exact Hde.
Qed.

Lemma mount_fail_log (w : world) :
  fst (mount_fail w) = None /\ log (snd (mount_fail w)) = log w.
Proof.
  unfold mount_fail. split; [reflexivity|]. cbn [snd].
  destruct (is_out_of_range (grub_errno w)); reflexivity.
Qed.

(** X3.  [grub_esfs_mount] asks the device for the superblock and for the
    root entry and for nothing else: a returned volume has cost exactly
    these two requests, 8192 + 1024 bytes, and a failed mount at most
    these; when the allocator fails the device is not asked.  It returns no
    volume only with [grub_errno] set, and never set to
    [GRUB_ERR_OUT_OF_RANGE].  When it returns a volume, [grub_errno] was
    clear at entry and still is, the superblock is the 8192 bytes at device
    sector 16 and passes every check (signature, read version at most 10,
    block size a multiple of 512 between 512 and [2^28 - 512], block count
    not 0), [bsize] is its block size, the root node points at the same
    device and block size, and the root entry is the 1024 bytes read at the
    root coordinates and carries the entry signature. *)
Theorem mount_result (dsk : grub_disk) (fresh : option grub_esfs_data)
    (w : world) :
  let out := grub_esfs_mount dsk fresh w in
  (exists evs,
      log (snd out) = log w ++ evs /\ visits evs = [] /\
      match fst out with
      | Some _ =>
          device_reads evs = 2%nat /\
          requested evs = sizeof_superblock + sizeof_direntry
      | None => (device_reads evs <= 2)%nat /\ (fresh = None -> evs = [])
      end) /\
  match fst out with
  | None =>
      is_error (grub_errno (snd out)) = true /\
      grub_errno (snd out) <> GRUB_ERR_OUT_OF_RANGE
  | Some data =>
      grub_errno w = GRUB_ERR_NONE /\
      grub_errno (snd out) = GRUB_ERR_NONE /\
      grub_errmsg (snd out) = grub_errmsg w /\
      exists blk,
        fresh = Some blk /\
        sblock data = blit (disk_bytes dsk 16 0 sizeof_superblock) (sblock blk) /\
        firstn 16 (sblock data) = ESFS_SIGNATURE_STRING /\
        requiredReadVersion (sblock data) <= ESFS_DRIVER_VERSION /\
        bsize data = blockSize (sblock data) /\
        512 <= bsize data <= 2 ^ 28 - 512 /\ bsize data mod 512 = 0 /\
        blockCount (sblock data) <> 0 /\
        disk data = dsk /\
        data_disk (diropen data) = dsk /\
        data_bsize (diropen data) = bsize data /\
        after (diropen data) = after (diropen blk) /\
        direntry (diropen data)
        = blit (disk_bytes dsk
                  (u64 (root_block (sblock data) * Z.shiftr (bsize data) 9))
                  (root_offset_into_block (sblock data)) sizeof_direntry)
               (direntry (diropen blk)) /\
        firstn 8 (direntry (diropen data)) = ESFS_DIRECTORY_ENTRY_SIGNATURE
  end.
Proof.
  intros out. subst out. split; [|exact (mount_cases dsk fresh w)].
  destruct fresh as [blk|].
  2:{ exists []. cbn. rewrite app_nil_r. repeat split; auto. }
  unfold grub_esfs_mount.
  destruct (grub_disk_read_log dsk 16 0 sizeof_superblock (sblock blk) w)
    as (evs1 & Hl1 & Hq1 & Hr1 & Hv1).
  destruct (grub_disk_read dsk 16 0 sizeof_superblock (sblock blk) w)
    as [[e1 sb] w1].
  cbn [snd] in Hl1.
  assert (Hfail1 : forall w0 : world,
             log w0 = log w1 ->
             exists evs,
               log (snd (mount_fail w0)) = log w ++ evs /\ visits evs = [] /\
               match fst (mount_fail w0) with
               | Some _ =>
                   device_reads evs = 2%nat /\
                   requested evs = sizeof_superblock + sizeof_direntry
               | None =>
                   (device_reads evs <= 2)%nat /\
                   (Some blk = None -> evs = [])
               end).
  { intros w0 Hw0. destruct (mount_fail_log w0) as [Hn Hl].
    exists evs1. rewrite Hn, Hl, Hw0, Hl1, Hr1.
    repeat split; [exact Hv1|lia|discriminate]. }
  destruct (is_error (grub_errno w1)); [apply Hfail1; reflexivity|].
  destruct (superblock_rejected sb); [apply Hfail1; reflexivity|].
  cbv zeta.
  match goal with
  | |- context [grub_disk_read dsk ?s ?o ?sz ?b w1] =>
      destruct (grub_disk_read_log dsk s o sz b w1)
        as (evs2 & Hl2 & Hq2 & Hr2 & Hv2);
      destruct (grub_disk_read dsk s o sz b w1) as [[e2 de] w2]
  end.
  cbn [snd] in Hl2.
  assert (Hfail2 : forall w0 : world,
             log w0 = log w2 ->
             exists evs,
               log (snd (mount_fail w0)) = log w ++ evs /\ visits evs = [] /\
               match fst (mount_fail w0) with
               | Some _ =>
                   device_reads evs = 2%nat /\
                   requested evs = sizeof_superblock + sizeof_direntry
               | None =>
                   (device_reads evs <= 2)%nat /\
                   (Some blk = None -> evs = [])
               end).
  { intros w0 Hw0. destruct (mount_fail_log w0) as [Hn Hl].
    exists (evs1 ++ evs2).
    rewrite Hn, Hl, Hw0, Hl2, Hl1, app_assoc, visits_app, device_reads_app,
            Hv1, Hv2, Hr1, Hr2.
    repeat split; [lia|discriminate]. }
  destruct (is_error e2); [apply Hfail2; reflexivity|].
  destruct (esfs_check_direntry de); cbn [negb];
    [|apply Hfail2; reflexivity].
  exists (evs1 ++ evs2). cbn [fst snd].
  rewrite Hl2, Hl1, app_assoc, visits_app, device_reads_app, requested_app,
          Hv1, Hv2, Hr1, Hr2, Hq1, Hq2.
  repeat split; reflexivity.
Qed.

(** ** The extent loop when every request is served *)

Lemma covered_nonneg (n : nat) :
  forall (node : grub_fshelp_node) (d data_size ext_off cur_start : Z),
    0 <= covered n node d data_size ext_off cur_start.
Proof.
  induction n as [|n IH]; intros node d data_size ext_off cur_start;
    cbn [covered]; [lia|].
  destruct (decode_extent _ _ _ _ _) as [x|]; [|lia].
  pose proof (u64_range (run_blocks x * data_bsize node)).
  pose proof (IH node d data_size (next_off x) (new_start x)). lia.
Qed.

(** With [already_read] the part of the request that lies below [cur_pos],
    the loop returns the part that lies below the end of the extents. *)
Lemma extent_loop_count (n : nat) :
  forall (node : grub_fshelp_node) (d data_size hook hook_data pos len : Z)
         (ext_off cur_pos already_read cur_start : Z)
         (buf : list byte) (w : world),
    (forall s o k, status (data_disk node) s o k = GRUB_ERR_NONE) ->
    0 <= pos -> 0 <= len < 2 ^ 64 -> 0 <= cur_pos ->
    cur_pos + covered n node d data_size ext_off cur_start < 2 ^ 64 ->
    already_read = Z.min len (Z.max 0 (cur_pos - pos)) ->
    exists b w',
      extent_loop n node d data_size hook hook_data pos len
                  ext_off cur_pos already_read cur_start buf w
      = (Bytes (Z.min len
                  (Z.max 0 (cur_pos
                            + covered n node d data_size ext_off cur_start
                            - pos))), b, w') /\
      grub_errno w' = grub_errno w /\ grub_errmsg w' = grub_errmsg w.
Proof.
  induction n as [|n IH]; intros node d data_size hook hook_data pos len
    ext_off cur_pos already_read cur_start buf w Hok Hpos Hlen Hcur Hcov Hinv.
  - cbn [extent_loop covered]. exists buf, w.
    rewrite Z.add_0_r, <- Hinv. auto.
  - cbn [extent_loop]. cbn [covered] in Hcov |- *.
    destruct (already_read <? len) eqn:Hlt; bool_hyps.
    2:{ exists buf, w. split; [|auto]. f_equal. f_equal. f_equal.
        destruct (decode_extent _ _ _ _ _) as [x|]; [|lia].
        pose proof (u64_range (run_blocks x * data_bsize node)).
        pose proof (covered_nonneg n node d data_size (next_off x) (new_start x)).
        lia. }
    destruct (decode_extent _ _ _ _ _) as [x|].
    2:{ exists buf, w. split; [|auto]. f_equal. f_equal. f_equal. lia. }
    pose proof (u64_range (run_blocks x * data_bsize node)) as Hcb.
    pose proof (covered_nonneg n node d data_size (next_off x) (new_start x))
      as Hrest.
    set (cb := u64 (run_blocks x * data_bsize node)) in *. clearbody cb.
    set (rest := covered n node d data_size (next_off x) (new_start x)) in *.
    rewrite (u64_small (cur_pos + cb)) by lia.
    destruct (cur_pos + cb <? pos) eqn:Hskip; bool_hyps.
    { destruct (IH node d data_size hook hook_data pos len (next_off x)
                  (cur_pos + cb) already_read (new_start x) buf w)
        as (b & w' & Heq & He & Hm); try assumption; try lia.
      exists b, w'. rewrite Heq. fold rest.
      replace (cur_pos + cb + rest - pos) with (cur_pos + (cb + rest) - pos)
        by lia.
      auto. }
    assert (Hadd : 0 <= (if cur_pos <? pos then u64 (pos - cur_pos) else 0) <= cb
                   /\ (if cur_pos <? pos then u64 (pos - cur_pos) else 0)
                      = Z.max 0 (pos - cur_pos)).
    { destruct (cur_pos <? pos) eqn:Hc; bool_hyps;
        [rewrite u64_small by lia|]; lia. }
    set (add_off := if cur_pos <? pos then u64 (pos - cur_pos) else 0) in *.
    clearbody add_off. destruct Hadd as [Hadd Haddv].
    rewrite (u64_small (len - already_read)), (u64_small (cb - add_off)) by lia.
    assert (Hto : (if len - already_read >? cb - add_off
                   then cb - add_off else len - already_read)
                  = Z.min (len - already_read) (cb - add_off)).
    { destruct (_ >? _) eqn:Hc; bool_hyps; lia. }
    rewrite Hto.
    set (to_read := Z.min (len - already_read) (cb - add_off)) in *.
    match goal with
    | |- context [grub_disk_read ?dk ?s ?o ?sz ?b0 ?w0] =>
        destruct (grub_disk_read_ok dk s o sz b0 w0 (Hok s o sz))
          as (w1 & evs1 & Hrd & He1 & Hm1 & _);
        rewrite Hrd
    end.
    cbv beta iota. cbn [is_error].
    cbn [grub_errno grub_errmsg set_read_hook set_read_hook_data] in He1, Hm1.
    rewrite (u64_small (already_read + to_read)) by lia.
    match goal with
    | |- context [extent_loop n ?a1 ?a2 ?a3 ?a4 ?a5 ?a6 ?a7 ?a8 ?a9 ?a10 ?a11 ?a12 ?a13] =>
        destruct (IH a1 a2 a3 a4 a5 a6 a7 a8 a9 a10 a11 a12 a13)
          as (b & w' & Heq & He & Hm); try assumption; try lia
    end.
    exists b, w'. rewrite Heq. fold rest.
    replace (cur_pos + cb + rest - pos) with (cur_pos + (cb + rest) - pos)
      by lia.
    cbn [grub_errno grub_errmsg set_read_hook] in He, Hm.
    split; [reflexivity|]. split; congruence.
Qed.

(** X4.  A file stored in extents (the DATA attribute is found, has
    [dataOffset <= size] and indirection L1), read at [0 <= pos <= fileSize]
    with [0 <= len] and [len + pos] below [2^64], on a device that serves
    every request, and with the bytes that the decodable extent records
    cover (the sum of their [blocks * bsize], each taken modulo [2^64])
    below [2^64] in total, so that the logical cursor does not wrap: the
    reader returns the part of the clamped request that the records cover,
    that is [min (min len (fileSize - pos)) (max 0 (covered - pos))], and
    leaves [grub_errno] as it was.  Under these conditions the read is not
    short when the records cover the file; what lies beyond the records is
    not filled in. *)
Theorem read_file_l1_count (node : grub_fshelp_node)
    (hook hook_data pos len : Z) (buf : list byte) (w : world) (d : Z) :
  let e := direntry node in
  let total :=
    covered (Z.to_nat (data_count e d)) node d
            (u32 (attr_size e d - dataOffset e d)) (dataOffset e d) 0 in
  get_direntry_attribute e ESFS_ATTRIBUTE_DATA sizeof_attribute_data = Some d ->
  dataOffset e d <= attr_size e d ->
  indirection e d = ESFS_INDIRECTION_L1 ->
  (forall s o k, status (data_disk node) s o k = GRUB_ERR_NONE) ->
  0 <= pos <= fileSize e -> 0 <= len -> len + pos < 2 ^ 64 ->
  total < 2 ^ 64 ->
  exists b w',
    grub_esfs_read_file node hook hook_data pos len buf w
    = (Bytes (Z.min (Z.min len (fileSize e - pos)) (Z.max 0 (total - pos))),
       b, w') /\
    grub_errno w' = grub_errno w /\ grub_errmsg w' = grub_errmsg w /\
    (fileSize e <= total ->
     grub_esfs_read_file node hook hook_data pos len buf w
     = (Bytes (Z.min len (fileSize e - pos)), b, w')).
Proof.
  intros e total Hattr Hoff Hind Hok Hpos Hlen Hsum Htotal.
  pose proof (le64_range e 56) as Hfs.
  change (le64 e 56) with (fileSize e) in Hfs.
  assert (Hrun : exists b w',
             grub_esfs_read_file node hook hook_data pos len buf w
             = (Bytes (Z.min (Z.min len (fileSize e - pos))
                             (Z.max 0 (total - pos))), b, w') /\
             grub_errno w' = grub_errno w /\ grub_errmsg w' = grub_errmsg w).
  { unfold grub_esfs_read_file. fold e. rewrite Hattr.
    replace (dataOffset e d >? attr_size e d) with false
      by (symmetry; rewrite Z.gtb_ltb; apply Z.ltb_ge; exact Hoff).
    replace (pos >? fileSize e) with false
      by (symmetry; rewrite Z.gtb_ltb; apply Z.ltb_ge; lia).
    rewrite Hind.
    change (ESFS_INDIRECTION_L1 =? ESFS_INDIRECTION_DIRECT) with false.
    change (ESFS_INDIRECTION_L1 =? ESFS_INDIRECTION_L1) with true.
    cbv iota zeta. cbn [negb].
    rewrite clamp_to_file_min by lia.
    unfold read_l1. fold e.
    destruct (extent_loop_count (Z.to_nat (data_count e d)) node d
                (u32 (attr_size e d - dataOffset e d)) hook hook_data pos
                (Z.min len (fileSize e - pos)) (dataOffset e d) 0 0 0 buf w)
      as (b & w' & Heq & He & Hm); try assumption; try lia.
    exists b, w'. rewrite Heq. fold total. auto. }
  destruct Hrun as (b & w' & Heq & He & Hm).
  exists b, w'. split; [exact Heq|]. split; [exact He|]. split; [exact Hm|].
  intros Hcover. rewrite Heq. f_equal. f_equal. f_equal. lia.
Qed.

(** The 512-byte file of one extent, read whole. *)
Lemma read_file_l1_count_witness :
  (get_direntry_attribute (direntry l1_node) ESFS_ATTRIBUTE_DATA
                          sizeof_attribute_data = Some 96 /\
   dataOffset (direntry l1_node) 96 <= attr_size (direntry l1_node) 96 /\
   indirection (direntry l1_node) 96 = ESFS_INDIRECTION_L1 /\
   (forall s o k, status (data_disk l1_node) s o k = GRUB_ERR_NONE) /\
   0 <= 0 <= fileSize (direntry l1_node) /\ 0 <= 512 /\ 512 + 0 < 2 ^ 64 /\
   covered (Z.to_nat (data_count (direntry l1_node) 96)) l1_node 96
           (u32 (attr_size (direntry l1_node) 96
                 - dataOffset (direntry l1_node) 96))
           (dataOffset (direntry l1_node) 96) 0 < 2 ^ 64) /\
  fst (fst (grub_esfs_read_file l1_node 0 0 0 512 (zeros 512) idle))
  = Bytes 512.
Proof.
  assert (Hattr : get_direntry_attribute (direntry l1_node)
                    ESFS_ATTRIBUTE_DATA sizeof_attribute_data = Some 96)
    by (vm_compute; reflexivity).
  assert (Hoff : dataOffset (direntry l1_node) 96
                 <= attr_size (direntry l1_node) 96)
    by (vm_compute; discriminate).
  assert (Hind : indirection (direntry l1_node) 96 = ESFS_INDIRECTION_L1)
    by (vm_compute; reflexivity).
  assert (Hok : forall s o k, status (data_disk l1_node) s o k = GRUB_ERR_NONE)
    by (intros s o k; reflexivity).
  assert (Hpos : 0 <= 0 <= fileSize (direntry l1_node))
    by (split; vm_compute; discriminate).
  assert (Hcov : covered (Z.to_nat (data_count (direntry l1_node) 96)) l1_node
                   96 (u32 (attr_size (direntry l1_node) 96
                            - dataOffset (direntry l1_node) 96))
                   (dataOffset (direntry l1_node) 96) 0 < 2 ^ 64)
    by (vm_compute; reflexivity).
  split; [repeat (split; [assumption || lia|]); exact Hcov|].
  destruct (read_file_l1_count l1_node 0 0 0 512 (zeros 512) idle 96
              Hattr Hoff Hind Hok Hpos ltac:(lia) ltac:(lia) Hcov)
    as (b & w' & Heq & _).
  rewrite Heq. cbn [fst]. vm_compute. reflexivity.
Defined.

(** ** What a return value says about [grub_errno] and the hook slot *)

(** The loop returns a count with [grub_errno] untouched and the hook slot
    cleared behind the last request; it returns -1 only behind a request
    that the device refused, with the caller's hook still installed. *)
Lemma extent_loop_outcome (n : nat) :
  forall (node : grub_fshelp_node) (d data_size hook hook_data pos len : Z)
         (ext_off cur_pos already_read cur_start : Z)
         (buf : list byte) (w : world),
    let out := extent_loop n node d data_size hook hook_data pos len
                           ext_off cur_pos already_read cur_start buf w in
    exists evs,
      log (snd out) = log w ++ evs /\
      match fst (fst out) with
      | Bytes _ =>
          grub_errno (snd out) = grub_errno w /\
          grub_errmsg (snd out) = grub_errmsg w /\
          read_hook (snd out)
          = match device_reads evs with
            | O => read_hook w
            | S _ => 0
            end /\
          read_hook_data (snd out)
          = match device_reads evs with
            | O => read_hook_data w
            | S _ => hook_data
            end
      | Minus1 =>
          exists l s o k,
            evs = l ++ [DiskRead s o k] /\
            is_error (status (data_disk node) s o k) = true /\
            grub_errno (snd out) = status (data_disk node) s o k /\
            read_hook (snd out) = hook /\
            read_hook_data (snd out) = hook_data
      end.
Proof.
  induction n as [|n IH]; intros node d data_size hook hook_data pos len
    ext_off cur_pos already_read cur_start buf w.
  - exists []. cbn. rewrite app_nil_r. auto.
  - cbn [extent_loop].
    destruct (already_read <? len);
      [|exists []; cbn; rewrite app_nil_r; auto].
    destruct (decode_extent _ _ _ _ _) as [x|];
      [|exists []; cbn; rewrite app_nil_r; auto].
    destruct (_ <? pos); [apply IH|].
    match goal with
    | |- context [grub_disk_read ?dk ?s ?o ?sz ?b ?w0] =>
        set (sector := s); set (offset := o); set (to_read := sz);
        destruct (is_error (status dk sector offset to_read)) eqn:Hst
    end.
    + rewrite grub_disk_read_fail by exact Hst.
      cbv beta iota zeta. rewrite Hst.
      exists [DiskRead sector offset to_read]. cbn [fst snd].
      split; [reflexivity|].
      exists [], sector, offset, to_read.
      split; [reflexivity|]. split; [exact Hst|].
      split; [reflexivity|]. split; reflexivity.
    + apply status_not_error in Hst.
      match goal with
      | |- context [grub_disk_read ?dk sector offset to_read ?b ?w0] =>
          destruct (grub_disk_read_ok dk sector offset to_read b w0 Hst)
            as (w1 & evs1 & Hrd & He1 & Hm1 & Hh1 & Hd1 & Hl1 & Hr1 & _)
      end.
      cbv zeta. rewrite Hrd. cbv beta iota. cbn [is_error].
      cbn [grub_errno grub_errmsg read_hook read_hook_data log
           set_read_hook set_read_hook_data] in He1, Hm1, Hh1, Hd1, Hl1.
      match goal with
      | |- context [extent_loop n ?a1 ?a2 ?a3 ?a4 ?a5 ?a6 ?a7 ?a8 ?a9 ?a10 ?a11 ?a12 ?a13] =>
          destruct (IH a1 a2 a3 a4 a5 a6 a7 a8 a9 a10 a11 a12 a13)
            as (evs2 & Hl2 & Hres);
          destruct (extent_loop n a1 a2 a3 a4 a5 a6 a7 a8 a9 a10 a11 a12 a13)
            as [[r2 b2] w2]
      end.
      cbn [fst snd] in *.
      cbn [grub_errno grub_errmsg read_hook read_hook_data log set_read_hook]
        in Hl2, Hres.
      exists ((DiskRead sector offset to_read :: evs1) ++ evs2).
      split; [rewrite Hl2, Hl1, app_assoc; reflexivity|].
      destruct r2 as [|m].
      * destruct Hres as (l & s & o & k & Hev & Hrest).
        exists ((DiskRead sector offset to_read :: evs1) ++ l), s, o, k.
        split; [rewrite Hev, app_assoc; reflexivity|exact Hrest].
      * destruct Hres as (He2 & Hm2 & Hh2 & Hd2).
        rewrite device_reads_app. cbn [device_reads Nat.add].
        split; [congruence|]. split; [congruence|].
        split; [destruct (device_reads evs2); [exact Hh2|exact Hh2]|].
        destruct (device_reads evs2); congruence.
Qed.

(** X5.  What the return value of [grub_esfs_read_file] says, for every
    input.  A count means that [grub_errno] and its message are untouched
    and that the hook slot is cleared if the device was asked at all.  A -1
    comes either from an exit that asks nothing from the device and leaves
    the buffer and the hook slot alone (the silent end-of-file exits, which
    change nothing at all, and the BAD_FS exits), or from a request that
    the device refused: that request is the last one, [grub_errno] is the
    error of the device, and the caller's hook is still installed. *)
Theorem read_file_outcome (node : grub_fshelp_node)
    (hook hook_data pos len : Z) (buf : list byte) (w : world) :
  let out := grub_esfs_read_file node hook hook_data pos len buf w in
  exists evs,
    log (snd out) = log w ++ evs /\
    match fst (fst out) with
    | Bytes _ =>
        grub_errno (snd out) = grub_errno w /\
        grub_errmsg (snd out) = grub_errmsg w /\
        read_hook (snd out)
        = match device_reads evs with
          | O => read_hook w
          | S _ => 0
          end
    | Minus1 =>
        (evs = [] /\ snd (fst out) = buf /\
         read_hook (snd out) = read_hook w /\
         read_hook_data (snd out) = read_hook_data w /\
         (snd out = w \/ grub_errno (snd out) = GRUB_ERR_BAD_FS)) \/
        (exists l s o k,
            evs = l ++ [DiskRead s o k] /\
            is_error (status (data_disk node) s o k) = true /\
            grub_errno (snd out) = status (data_disk node) s o k /\
            read_hook (snd out) = hook /\
            read_hook_data (snd out) = hook_data)
    end.
Proof.
  intros out. subst out. unfold grub_esfs_read_file.
  assert (Hbad : forall msg,
             exists evs,
               log (snd (Minus1, buf, grub_error GRUB_ERR_BAD_FS msg w))
               = log w ++ evs /\
               ((evs = [] /\
                 snd (fst (Minus1, buf, grub_error GRUB_ERR_BAD_FS msg w)) = buf /\
                 read_hook (snd (Minus1, buf, grub_error GRUB_ERR_BAD_FS msg w))
                 = read_hook w /\
                 read_hook_data
                   (snd (Minus1, buf, grub_error GRUB_ERR_BAD_FS msg w))
                 = read_hook_data w /\
                 (snd (Minus1, buf, grub_error GRUB_ERR_BAD_FS msg w) = w \/
                  grub_errno (snd (Minus1, buf, grub_error GRUB_ERR_BAD_FS msg w))
                  = GRUB_ERR_BAD_FS)) \/
                (exists l s o k,
                    evs = l ++ [DiskRead s o k] /\
                    is_error (status (data_disk node) s o k) = true /\
                    grub_errno
                      (snd (Minus1, buf, grub_error GRUB_ERR_BAD_FS msg w))
                    = status (data_disk node) s o k /\
                    read_hook (snd (Minus1, buf, grub_error GRUB_ERR_BAD_FS msg w))
                    = hook /\
                    read_hook_data
                      (snd (Minus1, buf, grub_error GRUB_ERR_BAD_FS msg w))
                    = hook_data))).
  { intros msg. exists []. cbn. rewrite app_nil_r.
    split; [reflexivity|]. left. repeat split; auto. }
  assert (Hsilent :
            exists evs,
              log (snd (Minus1, buf, w)) = log w ++ evs /\
              ((evs = [] /\ snd (fst (Minus1, buf, w)) = buf /\
                read_hook (snd (Minus1, buf, w)) = read_hook w /\
                read_hook_data (snd (Minus1, buf, w)) = read_hook_data w /\
                (snd (Minus1, buf, w) = w \/
                 grub_errno (snd (Minus1, buf, w)) = GRUB_ERR_BAD_FS)) \/
               (exists l s o k,
                   evs = l ++ [DiskRead s o k] /\
                   is_error (status (data_disk node) s o k) = true /\
                   grub_errno (snd (Minus1, buf, w))
                   = status (data_disk node) s o k /\
                   read_hook (snd (Minus1, buf, w)) = hook /\
                   read_hook_data (snd (Minus1, buf, w)) = hook_data))).
  { exists []. cbn. rewrite app_nil_r.
    split; [reflexivity|]. left. repeat split; auto. }
  destruct (get_direntry_attribute _ _ _) as [d|]; [|apply Hbad].
  destruct (dataOffset _ _ >? attr_size _ _); [apply Hbad|].
  destruct (pos >? fileSize _); [exact Hsilent|].
  cbv zeta.
  destruct (indirection _ _ =? ESFS_INDIRECTION_DIRECT).
  { unfold read_direct. cbv zeta.
    destruct (pos >? _); [exact Hsilent|].
    exists []. cbn. rewrite app_nil_r. auto. }
  destruct (indirection _ _ =? ESFS_INDIRECTION_L1); cbn [negb];
    [|apply Hbad].
  unfold read_l1.
  match goal with
  | |- context [extent_loop ?n ?a1 ?a2 ?a3 ?a4 ?a5 ?a6 ?a7 ?a8 ?a9 ?a10 ?a11 ?a12 ?a13] =>
      destruct (extent_loop_outcome n a1 a2 a3 a4 a5 a6 a7 a8 a9 a10 a11 a12 a13)
        as (evs & Hl & Hres);
      destruct (extent_loop n a1 a2 a3 a4 a5 a6 a7 a8 a9 a10 a11 a12 a13)
        as [[r b] w']
  end.
  cbn [fst snd] in *. exists evs. split; [exact Hl|].
  destruct r as [|m]; [right; exact Hres|].
  destruct Hres as (He & Hm & Hh & _). auto.
Qed.

(** ** Where the data of a request lands *)

Lemma last_request_app (l1 l2 : list event) :
  last_request (l1 ++ l2)
  = match last_request l2 with
    | Some r => Some r
    | None => last_request l1
    end.
Proof.
  induction l1 as [|ev l1 IH]; cbn [last_request app].
  - destruct (last_request l2); reflexivity.
  - destruct ev; rewrite IH; destruct (last_request l2); reflexivity.
Qed.

Lemma firstn_blit (dsk : grub_disk) (s o k : Z) (buf : list byte) :
  firstn (Z.to_nat k) (blit (disk_bytes dsk s o k) buf) = disk_bytes dsk s o k.
Proof.
  unfold blit.
  rewrite <- (disk_bytes_length dsk s o k) at 1.
  rewrite firstn_app, Nat.sub_diag, firstn_all. cbn [firstn].
  apply app_nil_r.
Qed.

Lemma extent_loop_buffer (n : nat) :
  forall (node : grub_fshelp_node) (d data_size hook hook_data pos len : Z)
         (ext_off cur_pos already_read cur_start : Z)
         (buf : list byte) (w : world),
    let out := extent_loop n node d data_size hook hook_data pos len
                           ext_off cur_pos already_read cur_start buf w in
    exists evs,
      log (snd out) = log w ++ evs /\
      match fst (fst out) with
      | Bytes _ =>
          match last_request evs with
          | None => snd (fst out) = buf
          | Some (s, o, k) =>
              firstn (Z.to_nat k) (snd (fst out))
              = disk_bytes (data_disk node) s o k
          end
      | Minus1 => True
      end.
Proof.
  induction n as [|n IH]; intros node d data_size hook hook_data pos len
    ext_off cur_pos already_read cur_start buf w.
  - exists []. cbn. rewrite app_nil_r. auto.
  - cbn [extent_loop].
    destruct (already_read <? len);
      [|exists []; cbn; rewrite app_nil_r; auto].
    destruct (decode_extent _ _ _ _ _) as [x|];
      [|exists []; cbn; rewrite app_nil_r; auto].
    destruct (_ <? pos); [apply IH|].
    match goal with
    | |- context [grub_disk_read ?dk ?s ?o ?sz ?b ?w0] =>
        set (sector := s); set (offset := o); set (to_read := sz);
        destruct (is_error (status dk sector offset to_read)) eqn:Hst
    end.
    + rewrite grub_disk_read_fail by exact Hst.
      cbv beta iota zeta. rewrite Hst.
      exists [DiskRead sector offset to_read]. cbn [fst snd].
      split; [reflexivity|exact I].
    + apply status_not_error in Hst.
      match goal with
      | |- context [grub_disk_read ?dk sector offset to_read ?b ?w0] =>
          destruct (grub_disk_read_ok dk sector offset to_read b w0 Hst)
            as (w1 & evs1 & Hrd & _ & _ & _ & _ & Hl1 & _ & _ & Hevs1)
      end.
      cbv zeta. rewrite Hrd. cbv beta iota. cbn [is_error].
      cbn [log set_read_hook set_read_hook_data] in Hl1.
      match goal with
      | |- context [extent_loop n ?a1 ?a2 ?a3 ?a4 ?a5 ?a6 ?a7 ?a8 ?a9 ?a10 ?a11 ?a12 ?a13] =>
          destruct (IH a1 a2 a3 a4 a5 a6 a7 a8 a9 a10 a11 a12 a13)
            as (evs2 & Hl2 & Hres);
          destruct (extent_loop n a1 a2 a3 a4 a5 a6 a7 a8 a9 a10 a11 a12 a13)
            as [[r2 b2] w2]
      end.
      cbn [fst snd] in *. cbn [log set_read_hook] in Hl2.
      exists ((DiskRead sector offset to_read :: evs1) ++ evs2).
      split; [rewrite Hl2, Hl1, app_assoc; reflexivity|].
      destruct r2 as [|m]; [exact I|].
      rewrite last_request_app.
      destruct (last_request evs2) as [[[s o] k]|]; [exact Hres|].
      cbn [last_request].
      assert (Hnone : last_request evs1 = None).
      { rewrite Hevs1. destruct (_ =? 0); reflexivity. }
      rewrite Hnone, Hres. apply firstn_blit.
Qed.

(** X6.  Every request of the reader is written at the start of the
    caller's buffer, not behind the bytes already read: whenever
    [grub_esfs_read_file] returns a count after asking the device, the
    buffer starts with the data of the last request, whatever earlier
    requests had put there. *)
Theorem read_file_buffer_last_request (node : grub_fshelp_node)
    (hook hook_data pos len : Z) (buf : list byte) (w : world) :
  let out := grub_esfs_read_file node hook hook_data pos len buf w in
  exists evs,
    log (snd out) = log w ++ evs /\
    match fst (fst out), last_request evs with
    | Bytes _, Some (s, o, k) =>
        firstn (Z.to_nat k) (snd (fst out))
        = disk_bytes (data_disk node) s o k
    | _, _ => True
    end.
Proof.
  intros out. subst out. unfold grub_esfs_read_file.
  assert (Hnone : forall out : read_result * list byte * world,
             log (snd out) = log w ->
             exists evs,
               log (snd out) = log w ++ evs /\
               match fst (fst out), last_request evs with
               | Bytes _, Some (s, o, k) =>
                   firstn (Z.to_nat k) (snd (fst out))
                   = disk_bytes (data_disk node) s o k
               | _, _ => True
               end).
  { intros out Hl. exists []. rewrite app_nil_r. split; [exact Hl|].
    cbn [last_request]. destruct (fst (fst out)); exact I. }
  destruct (get_direntry_attribute _ _ _) as [d|]; [|apply Hnone; reflexivity].
  destruct (dataOffset _ _ >? attr_size _ _); [apply Hnone; reflexivity|].
  destruct (pos >? fileSize _); [apply Hnone; reflexivity|].
  cbv zeta.
  destruct (indirection _ _ =? ESFS_INDIRECTION_DIRECT).
  { apply Hnone. unfold read_direct. cbv zeta.
    destruct (pos >? _); reflexivity. }
  destruct (indirection _ _ =? ESFS_INDIRECTION_L1); cbn [negb];
    [|apply Hnone; reflexivity].
  unfold read_l1.
  match goal with
  | |- context [extent_loop ?n ?a1 ?a2 ?a3 ?a4 ?a5 ?a6 ?a7 ?a8 ?a9 ?a10 ?a11 ?a12 ?a13] =>
      destruct (extent_loop_buffer n a1 a2 a3 a4 a5 a6 a7 a8 a9 a10 a11 a12 a13)
        as (evs & Hl & Hres);
      destruct (extent_loop n a1 a2 a3 a4 a5 a6 a7 a8 a9 a10 a11 a12 a13)
        as [[r b] w']
  end.
  cbn [fst snd] in *. exists evs. split; [exact Hl|].
  destruct r as [|m]; [exact I|].
  destruct (last_request evs) as [[[s o] k]|]; [exact Hres|exact I].
Qed.

(** ** A read inside the first extent *)

Lemma extent_loop_done (n : nat) (node : grub_fshelp_node)
    (d data_size hook hook_data pos len ext_off cur_pos already_read
       cur_start : Z)
    (buf : list byte) (w : world) :
  len <= already_read ->
  extent_loop n node d data_size hook hook_data pos len
              ext_off cur_pos already_read cur_start buf w
  = (Bytes already_read, buf, w).
Proof.
  intros Hdone. destruct n; cbn [extent_loop]; [reflexivity|].
  replace (already_read <? len) with false
    by (symmetry; apply Z.ltb_ge; exact Hdone).
  reflexivity.
Qed.

Lemma sector_address (start bs pos : Z) :
  bs mod 512 = 0 ->
  (start * Z.shiftr bs 9 + Z.shiftr pos 9) * 512 + Z.land pos 511
  = start * bs + pos.
Proof.
  intros Hbs.
  change 511 with (Z.ones 9).
  rewrite Z.land_ones, !Z.shiftr_div_pow2 by lia. change (2 ^ 9) with 512.
  pose proof (Z.div_mod bs 512 ltac:(lia)).
  pose proof (Z.div_mod pos 512 ltac:(lia)).
  nia.
Qed.

(** The one request of a read inside the first extent. *)
Lemma first_extent_request (node : grub_fshelp_node)
    (hook hook_data pos len : Z) (buf : list byte) (w : world)
    (d : Z) (x : extent) :
  let e := direntry node in
  let bs := data_bsize node in
  let sector := new_start x * Z.shiftr bs 9 + Z.shiftr pos 9 in
  get_direntry_attribute e ESFS_ATTRIBUTE_DATA sizeof_attribute_data = Some d ->
  dataOffset e d <= attr_size e d ->
  indirection e d = ESFS_INDIRECTION_L1 ->
  1 <= data_count e d ->
  decode_extent node d (u32 (attr_size e d - dataOffset e d))
                (dataOffset e d) 0 = Some x ->
  bs mod 512 = 0 ->
  0 <= run_blocks x * bs < 2 ^ 64 ->
  0 <= sector < 2 ^ 64 ->
  0 <= pos -> 0 < len ->
  pos + len <= fileSize e -> pos + len <= run_blocks x * bs ->
  status (data_disk node) sector (Z.land pos 511) len = GRUB_ERR_NONE ->
  exists w',
    grub_esfs_read_file node hook hook_data pos len buf w
    = (Bytes len,
       blit (range (content (data_disk node)) (new_start x * bs + pos)
                   (Z.to_nat len)) buf,
       w') /\
    device_reads (log w') = S (device_reads (log w)) /\
    requested (log w') = requested (log w) + len.
Proof.
  intros e bs sector Hattr Hoff Hind Hcnt Hdec Hbs Hcb Hsec Hpos Hlen Hfile
    Hext Hst.
  pose proof (le64_range e 56) as Hfs.
  change (le64 e 56) with (fileSize e) in Hfs.
  unfold grub_esfs_read_file. fold e. rewrite Hattr.
  replace (dataOffset e d >? attr_size e d) with false
    by (symmetry; rewrite Z.gtb_ltb; apply Z.ltb_ge; exact Hoff).
  replace (pos >? fileSize e) with false
    by (symmetry; rewrite Z.gtb_ltb; apply Z.ltb_ge; lia).
  rewrite Hind.
  change (ESFS_INDIRECTION_L1 =? ESFS_INDIRECTION_DIRECT) with false.
  change (ESFS_INDIRECTION_L1 =? ESFS_INDIRECTION_L1) with true.
  cbv iota zeta. cbn [negb].
  rewrite clamp_to_file_min by lia.
  rewrite Z.min_l by lia.
  unfold read_l1. fold e.
  destruct (Z.to_nat (data_count e d)) as [|n] eqn:Hn; [lia|].
  cbn [extent_loop].
  replace (0 <? len) with true by (symmetry; apply Z.ltb_lt; exact Hlen).
  rewrite Hdec. cbv zeta. fold bs.
  rewrite !Z.add_0_l, !Z.sub_0_r.
  rewrite !(u64_small (run_blocks x * bs)) by exact Hcb.
  replace (run_blocks x * bs <? pos) with false
    by (symmetry; apply Z.ltb_ge; lia).
  assert (Hadd : (if 0 <? pos then u64 pos else 0) = pos).
  { destruct (0 <? pos) eqn:Hc; bool_hyps;
      [rewrite u64_small by lia; reflexivity|lia]. }
  rewrite Hadd.
  rewrite (u64_small len), (u64_small (run_blocks x * bs - pos)) by lia.
  replace (len >? run_blocks x * bs - pos) with false
    by (symmetry; rewrite Z.gtb_ltb; apply Z.ltb_ge; lia).
  fold sector. rewrite (u64_small sector) by exact Hsec.
  match goal with
  | |- context [grub_disk_read ?dk ?s ?o ?sz ?b ?w0] =>
      destruct (grub_disk_read_ok dk s o sz b w0 Hst)
        as (w1 & evs1 & Hrd & _ & _ & _ & _ & Hl1 & Hr1 & _ & Hevs1)
  end.
  rewrite Hrd. cbv beta iota. cbn [is_error].
  rewrite extent_loop_done by (rewrite u64_small; lia).
  rewrite (u64_small len) by lia.
  cbn [log set_read_hook set_read_hook_data] in Hl1.
  eexists. split.
  - unfold disk_bytes, sector. rewrite sector_address by exact Hbs.
    reflexivity.
  - cbn [log set_read_hook]. rewrite Hl1.
    rewrite device_reads_app, requested_app.
    cbn [device_reads requested]. rewrite Hr1.
    assert (Hq : requested evs1 = 0).
    { rewrite Hevs1. destruct (_ =? 0); reflexivity. }
    rewrite Hq. split; lia.
Qed.

(** X7.  On a file stored in extents (the DATA attribute is found, has
    [dataOffset <= size], indirection L1 and at least one record, and the
    first record decodes to [start] and [blocks]), with [bsize] a multiple
    of 512, and with [blocks * bsize] and the sector number
    [start * (bsize / 512) + pos / 512] both from 0 to [2^64 - 1]: a read
    with [0 <= pos] and [0 < len] that lies inside the first extent
    ([pos + len <= blocks * bsize]) and inside the file
    ([pos + len <= fileSize]), and whose one request the device serves,
    makes exactly that request, of [len] bytes, and returns [len]; the
    first [len] bytes of the buffer are then the [len] bytes that the
    device holds at byte [start * bsize + pos], and the bytes of the buffer
    behind them are the ones it held before. *)
Theorem read_file_first_extent (node : grub_fshelp_node)
    (hook hook_data pos len : Z) (buf : list byte) (w : world)
    (d : Z) (x : extent) :
  let e := direntry node in
  let bs := data_bsize node in
  let sector := new_start x * Z.shiftr bs 9 + Z.shiftr pos 9 in
  get_direntry_attribute e ESFS_ATTRIBUTE_DATA sizeof_attribute_data = Some d ->
  dataOffset e d <= attr_size e d ->
  indirection e d = ESFS_INDIRECTION_L1 ->
  1 <= data_count e d ->
  decode_extent node d (u32 (attr_size e d - dataOffset e d))
                (dataOffset e d) 0 = Some x ->
  bs mod 512 = 0 ->
  0 <= run_blocks x * bs < 2 ^ 64 ->
  0 <= sector < 2 ^ 64 ->
  0 <= pos -> 0 < len ->
  pos + len <= fileSize e -> pos + len <= run_blocks x * bs ->
  status (data_disk node) sector (Z.land pos 511) len = GRUB_ERR_NONE ->
  exists w',
    grub_esfs_read_file node hook hook_data pos len buf w
    = (Bytes len,
       blit (range (content (data_disk node)) (new_start x * bs + pos)
                   (Z.to_nat len)) buf,
       w') /\
    device_reads (log w') = S (device_reads (log w)) /\
    requested (log w') = requested (log w) + len /\
    firstn (Z.to_nat len)
           (snd (fst (grub_esfs_read_file node hook hook_data pos len buf w)))
    = range (content (data_disk node)) (new_start x * bs + pos)
            (Z.to_nat len) /\
    skipn (Z.to_nat len)
          (snd (fst (grub_esfs_read_file node hook hook_data pos len buf w)))
    = skipn (Z.to_nat len) buf.
Proof.
  intros e bs sector Hattr Hoff Hind Hcnt Hdec Hbs Hcb Hsec Hpos Hlen Hfile
    Hext Hst.
  destruct (first_extent_request node hook hook_data pos len buf w d x
              Hattr Hoff Hind Hcnt Hdec Hbs Hcb Hsec Hpos Hlen Hfile Hext Hst)
    as (w' & Heq & Hreads & Hreq).
  fold e in Heq. fold bs in Heq.
  exists w'. split; [exact Heq|]. split; [exact Hreads|].
  split; [exact Hreq|].
  rewrite Heq. cbn [fst snd]. unfold blit. rewrite range_length.
  set (data := range (content (data_disk node)) (new_start x * bs + pos)
                     (Z.to_nat len)).
  assert (Hlen' : List.length data = Z.to_nat len) by apply range_length.
  split.
  - rewrite <- Hlen'. rewrite firstn_app, Nat.sub_diag, firstn_all.
    cbn [firstn]. apply app_nil_r.
  - rewrite <- Hlen' at 1. rewrite skipn_app, Nat.sub_diag, skipn_all.
    reflexivity.
Qed.

(** The second slot of the sample directory, read through the extent. *)
Lemma read_file_first_extent_witness :
  (get_direntry_attribute (direntry dir_node) ESFS_ATTRIBUTE_DATA
                          sizeof_attribute_data = Some 96 /\
   dataOffset (direntry dir_node) 96 <= attr_size (direntry dir_node) 96 /\
   indirection (direntry dir_node) 96 = ESFS_INDIRECTION_L1 /\
   1 <= data_count (direntry dir_node) 96 /\
   decode_extent dir_node 96
     (u32 (attr_size (direntry dir_node) 96 - dataOffset (direntry dir_node) 96))
     (dataOffset (direntry dir_node) 96) 0 = Some (mkExtent 35 4 6) /\
   data_bsize dir_node mod 512 = 0 /\
   0 <= 6 * data_bsize dir_node < 2 ^ 64 /\
   0 <= 4 * Z.shiftr (data_bsize dir_node) 9 + Z.shiftr 1024 9 < 2 ^ 64 /\
   0 <= 1024 /\ 0 < 1024 /\
   1024 + 1024 <= fileSize (direntry dir_node) /\
   1024 + 1024 <= 6 * data_bsize dir_node /\
   status (data_disk dir_node)
          (4 * Z.shiftr (data_bsize dir_node) 9 + Z.shiftr 1024 9)
          (Z.land 1024 511) 1024 = GRUB_ERR_NONE) /\
  fst (grub_esfs_read_file dir_node 0 0 1024 1024 (zeros 1024) idle)
  = (Bytes 1024, slot_free).
Proof.
  assert (Hattr : get_direntry_attribute (direntry dir_node)
                    ESFS_ATTRIBUTE_DATA sizeof_attribute_data = Some 96)
    by (vm_compute; reflexivity).
  assert (Hoff : dataOffset (direntry dir_node) 96
                 <= attr_size (direntry dir_node) 96)
    by (vm_compute; discriminate).
  assert (Hind : indirection (direntry dir_node) 96 = ESFS_INDIRECTION_L1)
    by (vm_compute; reflexivity).
  assert (Hcnt : 1 <= data_count (direntry dir_node) 96)
    by (vm_compute; discriminate).
  assert (Hdec : decode_extent dir_node 96
                   (u32 (attr_size (direntry dir_node) 96
                         - dataOffset (direntry dir_node) 96))
                   (dataOffset (direntry dir_node) 96) 0
                 = Some (mkExtent 35 4 6))
    by (vm_compute; reflexivity).
  assert (Hbs : data_bsize dir_node mod 512 = 0) by reflexivity.
  assert (Hcb : 0 <= 6 * data_bsize dir_node < 2 ^ 64)
    by (split; vm_compute; [discriminate|reflexivity]).
  assert (Hsec : 0 <= 4 * Z.shiftr (data_bsize dir_node) 9 + Z.shiftr 1024 9
                 < 2 ^ 64)
    by (split; vm_compute; [discriminate|reflexivity]).
  assert (Hfile : 1024 + 1024 <= fileSize (direntry dir_node))
    by (vm_compute; discriminate).
  assert (Hext : 1024 + 1024 <= 6 * data_bsize dir_node)
    by (vm_compute; discriminate).
  assert (Hst : status (data_disk dir_node)
                  (4 * Z.shiftr (data_bsize dir_node) 9 + Z.shiftr 1024 9)
                  (Z.land 1024 511) 1024 = GRUB_ERR_NONE)
    by reflexivity.
  split; [repeat (split; [assumption || lia|]); exact Hst|].
  destruct (read_file_first_extent dir_node 0 0 1024 1024 (zeros 1024) idle
              96 (mkExtent 35 4 6) Hattr Hoff Hind Hcnt Hdec Hbs Hcb Hsec
              ltac:(lia) ltac:(lia) Hfile Hext Hst) as (w' & Heq & _).
  rewrite Heq. cbn [fst]. vm_compute. reflexivity.
Defined.

(** ** The facade: open, close, label, uuid *)

Lemma firstn_range_app (mem : Z -> byte) (m : nat) :
  forall (n : nat) (a : Z) (rest : list byte),
    (m <= n)%nat -> firstn m (range mem a n ++ rest) = range mem a m.
Proof.
  induction m as [|m IH]; intros n a rest Hle; [reflexivity|].
  destruct n as [|n]; [lia|].
  cbn [range app firstn]. rewrite IH by lia. reflexivity.
Qed.

Lemma skipn_range_app (mem : Z -> byte) (k : nat) :
  forall (n : nat) (a : Z) (rest : list byte),
    (k <= n)%nat ->
    skipn k (range mem a n ++ rest)
    = range mem (a + Z.of_nat k) (n - k) ++ rest.
Proof.
  induction k as [|k IH]; intros n a rest Hle.
  - cbn [skipn]. rewrite Z.add_0_r, Nat.sub_0_r. reflexivity.
  - destruct n as [|n]; [lia|].
    cbn [range app skipn]. rewrite IH by lia.
    replace (a + 1 + Z.of_nat k) with (a + Z.of_nat (S k)) by lia.
    reflexivity.
Qed.

(** The part of the superblock that mount has read from the device. *)
Lemma superblock_field (dsk : grub_disk) (old : list byte) (off len : Z) :
  0 <= off -> 0 <= len -> off + len <= sizeof_superblock ->
  firstn (Z.to_nat len)
         (skipn (Z.to_nat off)
                (blit (disk_bytes dsk 16 0 sizeof_superblock) old))
  = disk_bytes dsk 16 off len.
Proof.
  intros Hoff Hlen Hsum. unfold blit, disk_bytes.
  rewrite skipn_range_app by lia.
  rewrite firstn_range_app by lia.
  f_equal. lia.
Qed.

Lemma superblock_byte (dsk : grub_disk) (old : list byte) (off : Z) :
  0 <= off < sizeof_superblock ->
  nth (Z.to_nat off) (blit (disk_bytes dsk 16 0 sizeof_superblock) old) x00
  = content dsk (16 * 512 + off).
Proof.
  intros Hoff. unfold blit, disk_bytes.
  rewrite nth_range_app by lia. f_equal. lia.
Qed.

Lemma grub_strndup_firstn (n : nat) :
  forall s : list byte, grub_strndup s n = grub_strndup (firstn n s) n.
Proof.
  induction n as [|n IH]; intros s; [destruct s; reflexivity|].
  destruct s as [|b s]; [reflexivity|].
  cbn [firstn grub_strndup]. rewrite <- IH. reflexivity.
Qed.

Lemma grub_strndup_stop (text : list byte) :
  forall (n : nat) (rest : list byte),
    ~ In x00 text -> (List.length text < n)%nat ->
    grub_strndup (text ++ x00 :: rest) n = text.
Proof.
  induction text as [|b text IH]; intros n rest Hnul Hlen;
    (destruct n as [|n]; [cbn in Hlen; lia|]); cbn [app grub_strndup].
  - reflexivity.
  - destruct (u8 b =? 0) eqn:Hb; bool_hyps.
    + apply u8_zero in Hb. subst b. exfalso. apply Hnul. left. reflexivity.
    + rewrite IH; [reflexivity| |cbn in Hlen; lia].
      intros Hin. apply Hnul. right. exact Hin.
Qed.

Lemma hex_digit_facts (v : Z) :
  0 <= v < 16 ->
  is_hex_digit (hex_digit v) /\ hex_digit v <> x00 /\
  hex_value (hex_digit v) = v.
Proof.
  intros Hv.
  assert (Hcases : v = 0 \/ v = 1 \/ v = 2 \/ v = 3 \/ v = 4 \/ v = 5 \/ v = 6
                   \/ v = 7 \/ v = 8 \/ v = 9 \/ v = 10 \/ v = 11 \/ v = 12
                   \/ v = 13 \/ v = 14 \/ v = 15) by lia.
  unfold is_hex_digit.
  repeat (destruct Hcases as [->|Hcases];
          [split; [cbn; tauto|split; [discriminate|reflexivity]]|]).
  subst v. split; [cbn; tauto|split; [discriminate|reflexivity]].
Qed.

Lemma hex_pairs_facts (n : nat) :
  forall (i : Z) (sb : list byte),
    List.length (hex_pairs n i sb) = (2 * n)%nat /\
    Forall is_hex_digit (hex_pairs n i sb) /\
    ~ In x00 (hex_pairs n i sb) /\
    unhex (hex_pairs n i sb)
    = map u8 (range (fun a => nth (Z.to_nat a) sb x00) (identifier_offset + i) n).
Proof.
  induction n as [|n IH]; intros i sb.
  - cbn. repeat split; auto.
  - cbn [hex_pairs range map unhex List.length].
    destruct (IH (i + 1) sb) as (Hlen & Hhex & Hnul & Hun).
    pose proof (byte_at_range sb (identifier_offset + i)) as Hb.
    assert (Hv : Z.land (byte_at sb (identifier_offset + i)) 255
                 = byte_at sb (identifier_offset + i)).
    { change 255 with (Z.ones 8). rewrite Z.land_ones by lia.
      apply Z.mod_small. exact Hb. }
    rewrite Hv.
    set (v := byte_at sb (identifier_offset + i)) in *.
    destruct (hex_digit_facts (v / 16)) as (Hh1 & Hn1 & Hv1).
    { split; [apply Z.div_pos; lia|apply Z.div_lt_upper_bound; lia]. }
    destruct (hex_digit_facts (v mod 16)) as (Hh2 & Hn2 & Hv2).
    { apply Z.mod_pos_bound. lia. }
    split; [rewrite Hlen; lia|].
    split; [constructor; [exact Hh1|constructor; [exact Hh2|exact Hhex]]|].
    split.
    { intros [Hin|[Hin|Hin]];
        [apply Hn1; exact Hin|apply Hn2; exact Hin|apply Hnul; exact Hin]. }
    rewrite Hun, Hv1, Hv2.
    replace (identifier_offset + i + 1) with (identifier_offset + (i + 1))
      by lia.
    f_equal. subst v. unfold byte_at.
    pose proof (Z.div_mod (u8 (nth (Z.to_nat (identifier_offset + i)) sb x00))
                  16 ltac:(lia)).
    lia.
Qed.

Lemma poke_length (buf : list byte) (off : Z) (data : list byte) :
  (Z.to_nat off + List.length data <= List.length buf)%nat ->
  List.length (poke buf off data) = List.length buf.
Proof.
  intros Hfit. unfold poke.
  rewrite !length_app, length_firstn, length_skipn. lia.
Qed.

(** The formatting loop: behind the [2 * i] bytes already written it leaves
    two digits for each remaining identifier byte. *)
Lemma uuid_loop_inv (n : nat) :
  forall (i : Z) (sb buf done todo : list byte),
    buf = done ++ todo -> 0 <= i ->
    List.length done = Z.to_nat (2 * i) ->
    (Z.to_nat (2 * i) + 2 * n + 1 <= List.length buf)%nat ->
    exists todo',
      uuid_loop n i sb buf = done ++ hex_pairs n i sb ++ todo' /\
      List.length (uuid_loop n i sb buf) = List.length buf.
Proof.
  induction n as [|n IH]; intros i sb buf done todo Hbuf Hi Hdone Hfit.
  - exists todo. cbn [uuid_loop hex_pairs app]. auto.
  - cbn [uuid_loop hex_pairs].
    set (v := Z.land (byte_at sb (identifier_offset + i)) 255).
    assert (Hpoke : poke buf (2 * i) (snprintf_02x v)
                    = (done ++ [hex_digit (v / 16); hex_digit (v mod 16)])
                      ++ x00 :: skipn (Z.to_nat (2 * i) + 3) buf).
    { unfold poke, snprintf_02x. cbn [List.length].
      rewrite Hbuf at 1. rewrite <- Hdone.
      rewrite firstn_app, Nat.sub_diag, firstn_all. cbn [firstn].
      rewrite app_nil_r, <- app_assoc. reflexivity. }
    assert (Hlen : List.length (poke buf (2 * i) (snprintf_02x v))
                   = List.length buf).
    { apply poke_length. cbn [snprintf_02x List.length]. lia. }
    destruct (IH (i + 1) sb (poke buf (2 * i) (snprintf_02x v))
                (done ++ [hex_digit (v / 16); hex_digit (v mod 16)])
                (x00 :: skipn (Z.to_nat (2 * i) + 3) buf))
      as (todo' & Heq & Hl); [exact Hpoke|lia| |rewrite Hlen; lia|].
    { rewrite length_app, Hdone. cbn [List.length]. lia. }
    exists todo'.
    split; [rewrite Heq, <- app_assoc; reflexivity|].
    rewrite Hl, Hlen. reflexivity.
Qed.

(** The block that [grub_esfs_uuid] hands back holds the C string of the 32
    digits. *)
Lemma uuid_text (sb buf : list byte) :
  List.length buf = 40%nat ->
  List.length (poke (uuid_loop 16 0 sb buf) 32 [x00]) = 40%nat /\
  c_string (poke (uuid_loop 16 0 sb buf) 32 [x00]) = hex_pairs 16 0 sb.
Proof.
  intros Hlen.
  destruct (uuid_loop_inv 16 0 sb buf [] buf) as (todo & Heq & Hl);
    [reflexivity|lia|reflexivity|rewrite Hlen; cbn; lia|].
  destruct (hex_pairs_facts 16 0 sb) as (Hplen & _ & Hnul & _).
  assert (Hpoke : poke (uuid_loop 16 0 sb buf) 32 [x00]
                  = hex_pairs 16 0 sb
                    ++ x00 :: skipn 33 (uuid_loop 16 0 sb buf)).
  { unfold poke. cbn [List.length]. rewrite Heq at 1. cbn [app].
    change (Z.to_nat 32) with 32%nat.
    replace 32%nat with (List.length (hex_pairs 16 0 sb)) at 1
      by (rewrite Hplen; reflexivity).
    rewrite firstn_app, Nat.sub_diag, firstn_all. cbn [firstn].
    rewrite app_nil_r. reflexivity. }
  assert (Hplen' : List.length (poke (uuid_loop 16 0 sb buf) 32 [x00])
                   = 40%nat).
  { rewrite poke_length; [rewrite Hl; exact Hlen|].
    rewrite Hl, Hlen. cbn. lia. }
  split; [exact Hplen'|].
  unfold c_string. rewrite Hplen'. rewrite Hpoke.
  apply grub_strndup_stop; [exact Hnul|rewrite Hplen; cbn; lia].
Qed.

(** X8.  [grub_esfs_label] releases the module as often as it pins it
    (one [grub_dl_unref] for its [grub_dl_ref]) and returns [grub_errno].  It hands back a label exactly when
    it returns [GRUB_ERR_NONE]; the label is then the C string held by the
    32 bytes of the volume name, at offset 16 of device sector 16: at most
    32 bytes, none of them NUL.  Otherwise it hands back [NULL] and returns
    an error. *)
Theorem label_result (dsk : grub_disk) (fresh : option grub_esfs_data)
    (dup_mem : bool) (st : driver) :
  let out := grub_esfs_label dsk fresh dup_mem st in
  refs (snd out) = refs st /\
  fst (fst out) = grub_errno (state (snd out)) /\
  match snd (fst out) with
  | Some label =>
      fst (fst out) = GRUB_ERR_NONE /\
      label = grub_strndup (disk_bytes dsk 16 volume_name_offset
                                       sizeof_volume_name)
                           (Z.to_nat sizeof_volume_name) /\
      (List.length label <= 32)%nat /\ ~ In x00 label
  | None => is_error (fst (fst out)) = true
  end.
Proof.
  intros out. subst out. unfold grub_esfs_label.
  pose proof (mount_cases dsk fresh (state (grub_dl_ref st))) as Hm.
  cbv zeta in Hm.
  destruct (grub_esfs_mount dsk fresh (state (grub_dl_ref st)))
    as [[data|] w1]; cbn [fst snd] in Hm.
  - destruct Hm as (_ & He & _ & blk & _ & Hsb & _).
    destruct dup_mem; cbn [fst snd grub_dl_unref grub_dl_ref refs state
                               grub_error grub_errno is_error].
    + split; [lia|]. split; [reflexivity|]. split; [exact He|].
      rewrite grub_strndup_firstn, Hsb.
      rewrite superblock_field by (vm_compute; intuition discriminate).
      split; [reflexivity|].
      destruct (grub_strndup_prefix
                  (disk_bytes dsk 16 volume_name_offset sizeof_volume_name)
                  (Z.to_nat sizeof_volume_name)) as (Hlen & _ & _ & Hnul & _).
      split; [exact Hlen|exact Hnul].
    + split; [lia|]. split; reflexivity.
  - destruct Hm as (He & _).
    cbn [fst snd grub_dl_unref grub_dl_ref refs state].
    split; [lia|]. split; [reflexivity|exact He].
Qed.

(** X9.  [grub_esfs_uuid], given 40 bytes by the allocator, releases the
    module as often as it pins it and returns [grub_errno].
    It hands back a block exactly when it returns [GRUB_ERR_NONE]; the C
    string in the block is then 32 lower-case hexadecimal digits, and read
    back in pairs they are the 16 identifier bytes at offset 136 of device
    sector 16, in order. *)
Theorem uuid_round_trip (dsk : grub_disk) (fresh : option grub_esfs_data)
    (block : option (list byte)) (st : driver) :
  (forall buf, block = Some buf -> List.length buf = 40%nat) ->
  let out := grub_esfs_uuid dsk fresh block st in
  refs (snd out) = refs st /\
  fst (fst out) = grub_errno (state (snd out)) /\
  match snd (fst out) with
  | Some uuid =>
      fst (fst out) = GRUB_ERR_NONE /\
      List.length uuid = 40%nat /\
      List.length (c_string uuid) = 32%nat /\
      Forall is_hex_digit (c_string uuid) /\
      unhex (c_string uuid) = map u8 (disk_bytes dsk 16 identifier_offset 16)
  | None => is_error (fst (fst out)) = true
  end.
Proof.
  intros Hblock out. subst out. unfold grub_esfs_uuid.
  pose proof (mount_cases dsk fresh (state (grub_dl_ref st))) as Hm.
  cbv zeta in Hm.
  destruct (grub_esfs_mount dsk fresh (state (grub_dl_ref st)))
    as [[data|] w1]; cbn [fst snd] in Hm.
  - destruct Hm as (_ & He & _ & blk & _ & Hsb & _).
    destruct block as [buf|];
      cbn [fst snd grub_dl_unref grub_dl_ref refs state
               grub_error grub_errno is_error].
    + split; [lia|]. split; [reflexivity|]. split; [exact He|].
      destruct (uuid_text (sblock data) buf (Hblock buf eq_refl))
        as (Hlen & Htext).
      destruct (hex_pairs_facts 16 0 (sblock data))
        as (Hplen & Hhex & _ & Hun).
      split; [exact Hlen|]. rewrite Htext.
      split; [exact Hplen|]. split; [exact Hhex|].
      rewrite Hun, Hsb. apply (f_equal (map u8)).
      unfold disk_bytes at 2. change (Z.to_nat 16) with 16%nat.
      assert (Hbytes : forall (k : nat) (a : Z),
                 0 <= a -> a + Z.of_nat k <= sizeof_superblock ->
                 range (fun a0 =>
                          nth (Z.to_nat a0)
                              (blit (disk_bytes dsk 16 0 sizeof_superblock)
                                    (sblock blk)) x00) a k
                 = range (content dsk) (16 * 512 + a) k).
      { induction k as [|k IHk]; intros a Ha Hend; cbn [range];
          [reflexivity|].
        rewrite superblock_byte by lia.
        rewrite IHk by lia.
        replace (16 * 512 + a + 1) with (16 * 512 + (a + 1)) by lia.
        reflexivity. }
      rewrite Z.add_0_r. apply Hbytes; vm_compute; discriminate.
    + split; [lia|]. split; reflexivity.
  - destruct Hm as (He & _).
    cbn [fst snd grub_dl_unref grub_dl_ref refs state].
    split; [lia|]. split; [reflexivity|exact He].
Qed.

(** The identifier of the sample volume. *)
Lemma uuid_round_trip_witness :
  (forall buf, Some (zeros 40) = Some buf -> List.length buf = 40%nat) /\
  exists uuid,
    snd (fst (grub_esfs_uuid volume_disk (Some blank_data) (Some (zeros 40))
                             (mkDriver idle 0))) = Some uuid /\
    unhex (c_string uuid)
    = [0x01; 0x23; 0x45; 0x67; 0x89; 0xab; 0xcd; 0xef;
       0x00; 0x10; 0x20; 0x30; 0x0a; 0xa0; 0xff; 0x7f].
Proof.
  assert (Hblock : forall buf,
             Some (zeros 40) = Some buf -> List.length buf = 40%nat).
  { intros buf Heq. injection Heq as <-. reflexivity. }
  split; [exact Hblock|].
  pose proof (uuid_round_trip volume_disk (Some blank_data) (Some (zeros 40))
                (mkDriver idle 0) Hblock) as Hrt.
  cbv zeta in Hrt.
  destruct (snd (fst (grub_esfs_uuid volume_disk (Some blank_data)
                        (Some (zeros 40)) (mkDriver idle 0))))
    as [uuid|] eqn:Hu.
  - exists uuid. split; [reflexivity|].
    destruct Hrt as (_ & _ & _ & _ & _ & _ & Hun).
    rewrite Hun. vm_compute. reflexivity.
  - exfalso. vm_compute in Hu. discriminate Hu.
Defined.

(** X10.  [grub_esfs_open], for every path lookup.  When it returns an
    error it has released the module as often as it pinned it, and the
    file is as before.  When it returns [GRUB_ERR_NONE] the module is
    pinned once more than before, and [grub_esfs_close] releases it once;
    the file starts at offset 0 with
    the [fileSize] of the entry found as its size; and its data keep the
    device and the checked block size of the volume, with the found entry
    copied over the root entry, so that [grub_esfs_read] reads the found
    file with the volume's geometry. *)
Theorem open_result
    (find_file : list byte -> grub_fshelp_node -> world ->
                 grub_err_t * grub_fshelp_node * world)
    (file : grub_file) (dsk : grub_disk) (fresh : option grub_esfs_data)
    (name : list byte) (st : driver) :
  let out := grub_esfs_open find_file file dsk fresh name st in
  let err := fst (fst out) in
  let file' := snd (fst out) in
  if is_error err
  then refs (snd out) = refs st /\ file' = file
  else
    refs (snd out) = refs st + 1 /\
    refs (snd (grub_esfs_close file' (snd out))) = refs st /\
    file_offset file' = 0 /\ 0 <= file_size file' < 2 ^ 64 /\
    file_read_hook file' = file_read_hook file /\
    file_read_hook_data file' = file_read_hook_data file /\
    exists data root fdiro w1 w2,
      grub_esfs_mount dsk fresh (state st) = (Some root, w1) /\
      find_file name (diropen root) w1 = (GRUB_ERR_NONE, fdiro, w2) /\
      state (snd out) = w2 /\
      file_data file' = Some data /\
      file_size file' = fileSize (direntry (diropen data)) /\
      direntry (diropen data)
      = blit (firstn 1024 (direntry fdiro)) (direntry (diropen root)) /\
      disk data = dsk /\ data_disk (diropen data) = dsk /\
      data_bsize (diropen data) = blockSize (sblock data) /\
      bsize data = blockSize (sblock data) /\
      512 <= bsize data <= 2 ^ 28 - 512 /\ bsize data mod 512 = 0 /\
      forall buf len w,
        grub_esfs_read file' buf len w
        = grub_esfs_read_file (diropen data) (file_read_hook file)
                              (file_read_hook_data file) 0 len buf w.
Proof.
  intros out err file'. subst out err file'. unfold grub_esfs_open.
  cbv zeta. cbn [state grub_dl_ref refs].
  pose proof (mount_cases dsk fresh (state st)) as Hm. cbv zeta in Hm.
  destruct (grub_esfs_mount dsk fresh (state st)) as [[root|] w1];
    cbn [fst snd] in Hm.
  2:{ destruct Hm as (He & _). cbn [fst snd]. rewrite He.
      cbn [grub_dl_unref refs]. split; [lia|reflexivity]. }
  destruct Hm as (_ & _ & _ & blk & _ & _ & _ & _ & Hbs & Hrange & Hmod & _
                  & Hdisk & Hndisk & Hnbs & _).
  destruct (find_file name (diropen root) w1) as [[e fdiro] w2] eqn:Hfind.
  destruct (is_error e) eqn:Herr; cbn [fst snd].
  { rewrite Herr. cbn [grub_dl_unref refs]. split; [lia|reflexivity]. }
  apply status_not_error in Herr. subst e.
  cbn [is_error refs grub_esfs_close grub_dl_unref fst snd file_offset
       file_size file_read_hook file_read_hook_data file_data state].
  split; [reflexivity|]. split; [lia|]. split; [reflexivity|].
  split; [apply le64_range|]. split; [reflexivity|]. split; [reflexivity|].
  eexists; exists root, fdiro, w1, w2.
  split; [reflexivity|]. split; [exact Hfind|]. split; [reflexivity|].
  split; [reflexivity|].
  cbn [diropen direntry sblock bsize disk data_disk data_bsize].
  split; [reflexivity|].
  split; [reflexivity|].
  repeat (split; [first [assumption|congruence|lia]|]).
  intros buf len w. reflexivity.
Qed.

(** ** The extent path reads inside the entry *)

(** The same node with other memory behind its entry. *)
Lemma node_mem_inside (node : grub_fshelp_node) (behind : Z -> byte) (i : Z) :
  i < 1024 ->
  node_mem (mkNode (data_bsize node) (data_disk node) (direntry node) behind) i
  = node_mem node i.
Proof.
  intros Hi. unfold node_mem, sizeof_direntry. cbn [direntry after].
  replace (i <? 1024) with true by (symmetry; apply Z.ltb_lt; exact Hi).
  reflexivity.
Qed.

Lemma range_inside (node : grub_fshelp_node) (behind : Z -> byte) (n : nat) :
  forall a : Z,
    a + Z.of_nat n <= 1024 ->
    range (node_mem (mkNode (data_bsize node) (data_disk node)
                            (direntry node) behind)) a n
    = range (node_mem node) a n.
Proof.
  induction n as [|n IH]; intros a Ha; cbn [range]; [reflexivity|].
  rewrite node_mem_inside by lia. rewrite IH by lia. reflexivity.
Qed.

(** A record whose header lies inside the entry is decoded from bytes of
    the entry only, and ends at or before [data_size]. *)
Lemma decode_extent_inside (node : grub_fshelp_node) (behind : Z -> byte)
    (d data_size ext_off cur_start : Z) :
  0 <= d -> 0 <= ext_off -> d + ext_off < 1024 -> d + data_size <= 1024 ->
  decode_extent (mkNode (data_bsize node) (data_disk node) (direntry node)
                        behind) d data_size ext_off cur_start
  = decode_extent node d data_size ext_off cur_start /\
  forall x,
    decode_extent node d data_size ext_off cur_start = Some x ->
    0 <= next_off x <= data_size.
Proof.
  intros Hd Hoff Hhead Hsize. unfold decode_extent.
  rewrite node_mem_inside by exact Hhead.
  set (header := u8 (node_mem node (d + ext_off))).
  pose proof (u8_range (node_mem node (d + ext_off))) as Hh. fold header in Hh.
  destruct (header_widths header ltac:(lia)) as (_ & _ & Hs & Hc).
  set (sb := startBytes_of header) in *. set (cb := countBytes_of header) in *.
  clearbody sb cb header.
  rewrite (u32_small (ext_off + 1)) by lia.
  rewrite (u32_small (ext_off + 1 + sb + cb)) by lia.
  destruct (ext_off + 1 + sb + cb >? data_size) eqn:Hchk;
    [split; [reflexivity|discriminate]|].
  rewrite Z.gtb_ltb in Hchk. apply Z.ltb_ge in Hchk.
  rewrite (u32_small (ext_off + 1 + sb)) by lia.
  rewrite (u32_small (ext_off + 1 + sb + cb)) by lia.
  unfold node_bytes.
  rewrite !range_inside by lia.
  split; [reflexivity|].
  intros x Hx. injection Hx as <-. cbn [next_off]. lia.
Qed.

Lemma extent_loop_inside (behind : Z -> byte) (n : nat) :
  forall (node : grub_fshelp_node) (d data_size hook hook_data pos len : Z)
         (ext_off cur_pos already_read cur_start : Z)
         (buf : list byte) (w : world),
    0 <= d -> 0 <= ext_off -> d + ext_off < 1024 -> d + data_size < 1024 ->
    extent_loop n (mkNode (data_bsize node) (data_disk node) (direntry node)
                          behind)
                d data_size hook hook_data pos len
                ext_off cur_pos already_read cur_start buf w
    = extent_loop n node d data_size hook hook_data pos len
                  ext_off cur_pos already_read cur_start buf w.
Proof.
  induction n as [|n IH]; intros node d data_size hook hook_data pos len
    ext_off cur_pos already_read cur_start buf w Hd Hoff Hhead Hsize;
    [reflexivity|].
  cbn [extent_loop].
  destruct (decode_extent_inside node behind d data_size ext_off cur_start)
    as [Hdec Hnext]; try assumption; try lia.
  rewrite Hdec.
  destruct (already_read <? len); [|reflexivity].
  destruct (decode_extent node d data_size ext_off cur_start) as [x|];
    [|reflexivity].
  specialize (Hnext x eq_refl).
  cbn [data_bsize data_disk].
  destruct (_ <? pos); [apply IH; lia|].
  cbv zeta.
  match goal with
  | |- context [grub_disk_read ?dk ?s ?o ?sz ?b ?w0] =>
      destruct (grub_disk_read dk s o sz b w0) as [[err b1] w1]
  end.
  destruct (is_error err); [reflexivity|].
  apply IH; lia.
Qed.

(** X11.  On the extent path the reader looks at bytes of the entry only:
    for a DATA attribute that is not DIRECT and has
    [1 <= dataOffset < size], the outcome of [grub_esfs_read_file] is the
    same whatever the memory behind the 1024 bytes of the entry holds. *)
Theorem read_file_extents_inside_entry (node : grub_fshelp_node)
    (behind : Z -> byte) (hook hook_data pos len : Z) (buf : list byte)
    (w : world) (d : Z) :
  let e := direntry node in
  get_direntry_attribute e ESFS_ATTRIBUTE_DATA sizeof_attribute_data = Some d ->
  indirection e d <> ESFS_INDIRECTION_DIRECT ->
  1 <= dataOffset e d < attr_size e d ->
  grub_esfs_read_file (mkNode (data_bsize node) (data_disk node) e behind)
                      hook hook_data pos len buf w
  = grub_esfs_read_file node hook hook_data pos len buf w.
Proof.
  intros e Hattr Hind Hoff.
  destruct (get_direntry_attribute_sound e _ _ d Hattr)
    as (Hd & _ & _ & _ & Hend & _).
  pose proof (le16_range e (d + 2)) as Hsz.
  change (le16 e (d + 2)) with (attr_size e d) in Hsz.
  unfold grub_esfs_read_file. cbn [direntry]. fold e. rewrite Hattr.
  destruct (dataOffset e d >? attr_size e d); [reflexivity|].
  destruct (pos >? fileSize e); [reflexivity|].
  cbv zeta.
  replace (indirection e d =? ESFS_INDIRECTION_DIRECT) with false
    by (symmetry; apply Z.eqb_neq; exact Hind).
  destruct (indirection e d =? ESFS_INDIRECTION_L1); cbn [negb];
    [|reflexivity].
  unfold read_l1. cbn [direntry]. fold e.
  apply extent_loop_inside; try lia.
  rewrite u32_small by lia. lia.
Qed.

(** The sample file of one extent, with other bytes behind its entry. *)
Lemma read_file_extents_inside_entry_witness :
  (get_direntry_attribute (direntry l1_node) ESFS_ATTRIBUTE_DATA
                          sizeof_attribute_data = Some 96 /\
   indirection (direntry l1_node) 96 <> ESFS_INDIRECTION_DIRECT /\
   1 <= dataOffset (direntry l1_node) 96 < attr_size (direntry l1_node) 96) /\
  grub_esfs_read_file
    (mkNode (data_bsize l1_node) (data_disk l1_node) (direntry l1_node)
            (fun _ => xff))
    0 0 0 512 (zeros 512) idle
  = grub_esfs_read_file l1_node 0 0 0 512 (zeros 512) idle.
Proof.
  assert (Hattr : get_direntry_attribute (direntry l1_node)
                    ESFS_ATTRIBUTE_DATA sizeof_attribute_data = Some 96)
    by (vm_compute; reflexivity).
  assert (Hind : indirection (direntry l1_node) 96 <> ESFS_INDIRECTION_DIRECT)
    by (vm_compute; discriminate).
  assert (Hoff : 1 <= dataOffset (direntry l1_node) 96
                 < attr_size (direntry l1_node) 96)
    by (split; vm_compute; [discriminate|reflexivity]).
  split; [repeat split; first [assumption|apply Hoff]|].
  exact (read_file_extents_inside_entry l1_node (fun _ => xff) 0 0 0 512
           (zeros 512) idle 96 Hattr Hind Hoff).
Defined.

(** ** The directory iterator entered with an error pending *)

(** X12.  [grub_esfs_iterate_dir] tests [grub_errno] behind its read, not
    the value the read returns: entered with an error pending, it calls the
    visitor for no slot, whatever the directory holds.  It returns 0 (or
    the error code of its own two checks), never 1, hands the visitor's
    data back untouched and leaves an error pending. *)
Theorem iterate_dir_stale_errno (HookData : Type)
    (hook : list byte -> grub_fshelp_filetype -> grub_fshelp_node ->
            HookData -> bool * HookData)
    (alloc : allocator) (diro : grub_fshelp_node) (hd : HookData) (w : world) :
  is_error (grub_errno w) = true ->
  exists r w',
    grub_esfs_iterate_dir HookData hook alloc diro hd w = Some (r, hd, w') /\
    r <> Return1 /\
    visits (log w') = visits (log w) /\
    is_error (grub_errno w') = true.
Proof.
  intros Hstale. unfold grub_esfs_iterate_dir.
  destruct (negb _).
  { eexists; eexists. split; [reflexivity|].
    split; [discriminate|split; reflexivity]. }
  destruct (_ >=? _).
  { eexists; eexists. split; [reflexivity|].
    split; [discriminate|split; reflexivity]. }
  unfold iterate_fuel. rewrite Nat.add_comm. cbn [Nat.add iterate_loop].
  destruct (0 <? _).
  2:{ exists Return0, w. repeat split; [discriminate|exact Hstale]. }
  destruct (new_node alloc 0) as [blk|].
  2:{ eexists; eexists. split; [reflexivity|].
      split; [discriminate|split; reflexivity]. }
  destruct (read_file_frame diro 0 0 0 sizeof_direntry (direntry blk))
    as (r0 & b0 & failed & Hfr).
  specialize (Hfr w). cbv zeta in Hfr.
  destruct (grub_esfs_read_file diro 0 0 0 sizeof_direntry (direntry blk) w)
    as [[r1 b1] w1].
  cbn [fst snd] in Hfr. destruct Hfr as (_ & Hv1 & He1).
  assert (Herr : is_error (grub_errno w1) = true).
  { destruct failed; [exact He1|rewrite He1; exact Hstale]. }
  rewrite Herr.
  exists Return0, w1. repeat split; [discriminate|exact Hv1|exact Herr].
Qed.

(** The sample directory, entered with an error pending. *)
Lemma iterate_dir_stale_errno_witness :
  is_error (grub_errno (grub_error GRUB_ERR_READ_ERROR "stale" idle)) = true /\
  exists w',
    grub_esfs_iterate_dir nat counting_hook plain_alloc dir_node 0%nat
                          (grub_error GRUB_ERR_READ_ERROR "stale" idle)
    = Some (Return0, 0%nat, w') /\
    visits (log w') = [].
Proof.
  split; [reflexivity|].
  destruct (iterate_dir_stale_errno nat counting_hook plain_alloc dir_node
              0%nat (grub_error GRUB_ERR_READ_ERROR "stale" idle) eq_refl)
    as (r & w' & Heq & _ & Hv & _).
  exists w'. split; [|exact Hv].
  rewrite Heq.
  assert (Hr : option_map (fun x => fst (fst x))
                 (grub_esfs_iterate_dir nat counting_hook plain_alloc dir_node
                    0%nat (grub_error GRUB_ERR_READ_ERROR "stale" idle))
               = Some Return0) by (vm_compute; reflexivity).
  rewrite Heq in Hr. cbn in Hr. injection Hr as ->. reflexivity.
Defined.

(** ** Listing a directory *)

Lemma iterate_fuel_enough (dirSize : Z) :
  0 <= dirSize ->
  dirSize - 0 <= 1024 * (Z.of_nat (iterate_fuel dirSize) - 1).
Proof.
  intros Hsz. unfold iterate_fuel, sizeof_direntry.
  pose proof (Z.div_mod dirSize 1024 ltac:(lia)).
  pose proof (Z.mod_pos_bound dirSize 1024 ltac:(lia)).
  assert (0 <= dirSize / 1024) by (apply Z.div_pos; lia).
  rewrite Nat2Z.inj_add, Z2Nat.id by lia. change (Z.of_nat 2) with 2. lia.
Qed.

(** The iterator comes to an end and adds well-formed visits only. *)
Lemma iterate_dir_visits (HookData : Type)
    (hook : list byte -> grub_fshelp_filetype -> grub_fshelp_node ->
            HookData -> bool * HookData)
    (alloc : allocator) (diro : grub_fshelp_node) (hd : HookData) (w : world) :
  exists r hd' w' vs,
    grub_esfs_iterate_dir HookData hook alloc diro hd w = Some (r, hd', w') /\
    visits (log w') = visits (log w) ++ vs /\
    Forall visit_well_formed vs.
Proof.
  pose proof (le64_range (direntry diro) 56) as Hfs.
  change (le64 (direntry diro) 56) with (fileSize (direntry diro)) in Hfs.
  unfold grub_esfs_iterate_dir.
  destruct (negb _).
  { eexists; eexists; eexists; exists []. split; [reflexivity|].
    cbn [grub_error log]. rewrite app_nil_r. split; [reflexivity|constructor]. }
  destruct (fileSize (direntry diro) >=? 0x80000000) eqn:Hbig; bool_hyps.
  { eexists; eexists; eexists; exists []. split; [reflexivity|].
    cbn [grub_error log]. rewrite app_nil_r. split; [reflexivity|constructor]. }
  change 0x80000000 with (2 ^ 31) in Hbig.
  destruct (iterate_loop_always HookData hook alloc
              (iterate_fuel (fileSize (direntry diro))) diro
              (fileSize (direntry diro)) 0 hd w)
    as (r & hd' & w' & vs & Hloop & _ & Hv & Hwf & _);
    [lia|lia|apply iterate_fuel_enough; lia|].
  exists r, hd', w', vs. auto.
Qed.

(** X13.  [grub_esfs_dir_iter] ignores the file type it is given and looks
    at the node instead; for every slot that the iterator visits this loses
    nothing: the visitor of the caller gets the name unchanged, [dir] set
    exactly for the type DIR, [mtimeset] set, and the modification time in
    whole seconds, a value below [2^45]. *)
Theorem dir_iter_info (HookData : Type)
    (user_hook : list byte -> grub_dirhook_info -> HookData -> bool * HookData)
    (name : list byte) (t : grub_fshelp_filetype) (node : grub_fshelp_node)
    (hd : HookData) :
  visit_well_formed (name, t, direntry node) ->
  grub_esfs_dir_iter HookData user_hook name t node hd
  = user_hook name
      (mkInfo (match t with GRUB_FSHELP_DIR => true | _ => false end) true
              (modificationTime (direntry node) / 1000000))
      hd /\
  0 <= modificationTime (direntry node) / 1000000 < 2 ^ 45.
Proof.
  intros (_ & Htype & _).
  pose proof (le64_range (direntry node) 48) as Hmt.
  change (le64 (direntry node) 48) with (modificationTime (direntry node))
    in Hmt.
  split.
  - unfold grub_esfs_dir_iter. cbv zeta.
    destruct Htype as [[-> Hn]|[-> Hn]]; rewrite Hn; reflexivity.
  - split; [apply Z.div_pos; lia|apply Z.div_lt_upper_bound; lia].
Qed.

(** The directory slot of the sample directory. *)
Lemma dir_iter_info_witness :
  visit_well_formed
    (bytes_of_string "sub", GRUB_FSHELP_DIR,
     direntry (node_of 512 dir_disk slot_sub)) /\
  grub_esfs_dir_iter nat (fun _ info calls => (info_dir info, S calls))
                     (bytes_of_string "sub") GRUB_FSHELP_DIR
                     (node_of 512 dir_disk slot_sub) 0%nat
  = (true, 1%nat).
Proof.
  assert (Hwf : visit_well_formed
                  (bytes_of_string "sub", GRUB_FSHELP_DIR,
                   direntry (node_of 512 dir_disk slot_sub))).
  { assert (Hcv : child_visit slot_sub
                  = Some (bytes_of_string "sub", GRUB_FSHELP_DIR, slot_sub))
      by (vm_compute; reflexivity).
    apply child_visit_well_formed in Hcv. exact (proj2 Hcv). }
  split; [exact Hwf|].
  destruct (dir_iter_info nat (fun _ info calls => (info_dir info, S calls))
              (bytes_of_string "sub") GRUB_FSHELP_DIR
              (node_of 512 dir_disk slot_sub) 0%nat Hwf) as [Heq _].
  rewrite Heq. reflexivity.
Defined.

(** X14.  [grub_esfs_dir], for every visitor, path lookup and allocator:
    it releases the module as often as it pins it and returns
    [grub_errno].  When the mount fails the visitor is not called and an
    error is returned; when the path lookup leaves an error the visitor is
    not called either; otherwise the calls made are those of
    [grub_esfs_iterate_dir] on the node found, every one of them for a
    well-formed slot. *)
Theorem dir_listing (HookData : Type)
    (user_hook : list byte -> grub_dirhook_info -> HookData -> bool * HookData)
    (find_dir : list byte -> grub_fshelp_node -> world ->
                grub_fshelp_node * world)
    (alloc : allocator) (dsk : grub_disk) (fresh : option grub_esfs_data)
    (path : list byte) (hd : HookData) (st : driver) :
  let out := grub_esfs_dir HookData user_hook find_dir alloc dsk fresh path
                           hd st in
  refs (snd out) = refs st /\
  fst (fst out) = grub_errno (state (snd out)) /\
  match grub_esfs_mount dsk fresh (state st) with
  | (None, w1) =>
      snd (fst out) = hd /\ state (snd out) = w1 /\
      is_error (fst (fst out)) = true
  | (Some data, w1) =>
      let found := find_dir path (diropen data) w1 in
      if is_error (grub_errno (snd found))
      then snd (fst out) = hd /\ state (snd out) = snd found
      else
        exists r vs,
          grub_esfs_iterate_dir HookData
            (grub_esfs_dir_iter HookData user_hook) alloc (fst found) hd
            (snd found)
          = Some (r, snd (fst out), state (snd out)) /\
          visits (log (state (snd out))) = visits (log (snd found)) ++ vs /\
          Forall visit_well_formed vs
  end.
Proof.
  intros out. subst out. unfold grub_esfs_dir.
  cbv zeta. cbn [state grub_dl_ref refs].
  pose proof (mount_cases dsk fresh (state st)) as Hm. cbv zeta in Hm.
  destruct (grub_esfs_mount dsk fresh (state st)) as [[data|] w1];
    cbn [fst snd] in Hm.
  2:{ destruct Hm as (He & _).
      cbn [fst snd grub_dl_unref refs state].
      split; [lia|]. split; [reflexivity|]. split; [reflexivity|].
      split; [reflexivity|exact He]. }
  clear Hm.
  destruct (find_dir path (diropen data) w1) as [fdiro w2].
  cbn [fst snd].
  destruct (is_error (grub_errno w2)).
  { cbn [fst snd grub_dl_unref refs state].
    split; [lia|]. split; [reflexivity|]. split; reflexivity. }
  destruct (iterate_dir_visits HookData (grub_esfs_dir_iter HookData user_hook)
              alloc fdiro hd w2) as (r & hd' & w' & vs & Heq & Hv & Hwf).
  rewrite Heq. cbn [fst snd grub_dl_unref refs state].
  split; [lia|]. split; [reflexivity|].
  exists r, vs. split; [reflexivity|]. split; [exact Hv|exact Hwf].
Qed.
